(** * TF2 trading companion: watchlist/listings service and marketplace API

    A shallow embedding of the two backends of the repository:

    - [src/main.py]: the watchlist CRUD service over one SQLite table, the
      backpack.tf stats-URL parser and the listings normaliser;
    - [src/tf2-api-python/tf2-api/routers/*.py]: the marketplace API (items,
      orders, wallet) over a MySQL schema reached through [get_db], a
      connection opened with [autocommit=True].

    Conventions of the embedding.

    - A Python [str] is a Rocq [string] holding its UTF-8 encoding.
    - A Python [float] or SQL decimal amount is the rational number it
      denotes ([Q]); arithmetic on amounts is exact.
    - An exception is a value of [exn]; a computation that may raise returns
      a [result].  Where Python's behaviour depends on data that the sources
      do not fix (Unicode digit tables, the SQL mode of the server), the
      computation returns [Unmodelled] and no theorem speaks about it. *)

From Stdlib Require Import ZArith QArith Qround String Ascii List Lia Lqa Bool.
From stdpp Require Import gmap strings list sorting pretty.
Import ListNotations.

Local Open Scope string_scope.
Local Open Scope Z_scope.

(** ** Exceptions and results *)

Inductive exn : Type :=
| HTTPException (status_code : Z) (detail : string)
| AttributeError
| TypeError
| ValueError
| ValidationError
| IntegrityError
| DatabaseError.

Inductive result (A : Type) : Type :=
| Ok (a : A)
| Raise (e : exn)
| Unmodelled.

Arguments Ok {A} a.
Arguments Raise {A} e.
Arguments Unmodelled {A}.

#[global] Instance result_ret : MRet result := fun A a => Ok a.

#[global] Instance result_bind : MBind result := fun A B k r =>
  match r with
  | Ok a => k a
  | Raise e => Raise e
  | Unmodelled => Unmodelled
  end.

(** The error classes of the API, by status code. *)
Definition raises_status {A} (r : result A) (code : Z) : Prop :=
  exists detail, r = Raise (HTTPException code detail).

Definition InvalidInput {A} (r : result A) : Prop := raises_status r 400.
Definition Forbidden {A} (r : result A) : Prop := raises_status r 403.
Definition NotFound {A} (r : result A) : Prop := raises_status r 404.
Definition Conflict {A} (r : result A) : Prop := raises_status r 409.

Definition is_ok {A} (r : result A) : bool :=
  match r with Ok _ => true | _ => false end.

(** ** Amounts *)

Definition Qltb (a b : Q) : bool := negb (Qle_bool b a).

(** Python's [round(x, 2)]: the nearest multiple of 1/100, a tie going to
    the even multiple. *)
Definition round_half_even (x : Q) : Z :=
  let n := Qfloor x in
  let frac := (x - inject_Z n)%Q in
  match (frac ?= 1 # 2)%Q with
  | Lt => n
  | Gt => n + 1
  | Eq => if Z.even n then n else n + 1
  end.

Definition round2 (x : Q) : Q := (round_half_even (x * 100)) # 100.

(** ** Small string helpers *)

Definition code (c : ascii) : Z := Z.of_N (N_of_ascii c).

Definition is_digit (c : ascii) : bool := (48 <=? code c) && (code c <=? 57).

Definition is_hex_digit (c : ascii) : bool :=
  is_digit c || ((97 <=? code c) && (code c <=? 102))
             || ((65 <=? code c) && (code c <=? 70)).

Definition is_ascii_alnum (c : ascii) : bool :=
  is_digit c || ((97 <=? code c) && (code c <=? 122))
             || ((65 <=? code c) && (code c <=? 90)).

Definition newline : string := String (ascii_of_nat 10) EmptyString.

(** [x in s] for a Python set or list of strings. *)
Definition str_in (x : string) (s : list string) : bool :=
  existsb (String.eqb x) s.
Arguments str_in : simpl never.

(** ** The marketplace database ([database.py] and the schema it serves) *)

Module Item.
Record row : Type := {
  id : Z;
  seller_id : Z;
  name : string;
  item_type : string;
  price_usdt : Q;
  quantity : Z;
  network : string;
  status : string
}.
End Item.

Module Order.
Record row : Type := {
  id : Z;
  buyer_id : Z;
  item_id : Z;
  quantity : Z;
  amount_usdt : Q;
  network : string;
  payment_address : string;
  status : string;
  tx_hash : option string
}.
End Order.

Module Transaction.
Record row : Type := {
  user_id : Z;
  order_id : option Z;
  type : string;
  amount : Q;
  token : string;
  network : string;
  tx_hash : option string
}.
End Transaction.

Module InventoryEvent.
Record row : Type := {
  user_id : Z;
  item_id : Z;
  event_type : string
}.
End InventoryEvent.

(** The claims of the session token that the routers read
    ([middleware/auth.py], [get_current_user]). *)
Module User.
Record t : Type := {
  user_id : Z;
  is_admin : bool
}.
End User.

Module Database.

(** Tables with an auto-increment primary key are maps from the key; the
    balances table is keyed by its unique index (user_id, token, network),
    the one [ON DUPLICATE KEY UPDATE] relies on; the two logs are lists,
    oldest entry first.  Timestamp columns, which the server fills from its
    clock, are left out. *)
Record store : Type := {
  items : gmap Z Item.row;
  orders : gmap Z Order.row;
  balances : gmap (Z * string * string) Q;
  transactions : list Transaction.row;
  inventory_events : list InventoryEvent.row;
  orders_auto_increment : Z
}.

(** Modelled from the spec: the column default of [orders.status]; the
    schema's DDL is not among the sources. *)
Definition orders_status_default : string := "pending".

(** A connection: the store it reaches, the number of statements it has run
    and, for failure injection, the index of the statement at which the
    connection fails ([None]: it never fails). *)
Record conn : Type := {
  db : store;
  executed : nat;
  fault_at : option nat
}.

(** [get_db()]: a fresh connection, [autocommit=True]. *)
Definition get_db (st : store) (fault : option nat) : conn :=
  {| db := st; executed := 0%nat; fault_at := fault |}.

(** A request handler: it runs against a connection and returns or raises;
    with autocommit, what was written before a raise stays written. *)
Definition DB (A : Type) : Type := conn -> result A * conn.

#[global] Instance DB_ret : MRet DB := fun A a c => (Ok a, c).

#[global] Instance DB_bind : MBind DB := fun A B k m c =>
  match m c with
  | (Ok a, c') => k a c'
  | (Raise e, c') => (Raise e, c')
  | (Unmodelled, c') => (Unmodelled, c')
  end.

Definition raise {A} (e : exn) : DB A := fun c => (Raise e, c).

Definition unmodelled {A} : DB A := fun c => (Unmodelled, c).

(** [cur.execute(...)]: one statement, committed as soon as it has run. *)
Definition execute {A} (stmt : store -> A * store) : DB A := fun c =>
  if bool_decide (fault_at c = Some (executed c)) then (Raise DatabaseError, c)
  else let '(a, st') := stmt (db c) in
       (Ok a, {| db := st'; executed := S (executed c); fault_at := fault_at c |}).

Definition query {A} (q : store -> A) : store -> A * store :=
  fun st => (q st, st).

Definition update (w : store -> store) : store -> unit * store :=
  fun st => (tt, w st).

(** A request from connection to response: the result and the store left
    behind ([db.close()] in the [finally] clause writes nothing). *)
Definition run {A} (h : DB A) (st : store) (fault : option nat) : result A * store :=
  let '(r, c) := h (get_db st fault) in (r, db c).

(** Row-level writes, one per SQL statement shape. *)
Definition set_items (f : gmap Z Item.row -> gmap Z Item.row) (st : store) : store :=
  {| items := f (items st); orders := orders st; balances := balances st;
     transactions := transactions st; inventory_events := inventory_events st;
     orders_auto_increment := orders_auto_increment st |}.

Definition set_orders (f : gmap Z Order.row -> gmap Z Order.row) (st : store) : store :=
  {| items := items st; orders := f (orders st); balances := balances st;
     transactions := transactions st; inventory_events := inventory_events st;
     orders_auto_increment := orders_auto_increment st |}.

Definition set_balances (f : gmap (Z * string * string) Q -> gmap (Z * string * string) Q)
    (st : store) : store :=
  {| items := items st; orders := orders st; balances := f (balances st);
     transactions := transactions st; inventory_events := inventory_events st;
     orders_auto_increment := orders_auto_increment st |}.

Definition insert_transaction (t : Transaction.row) (st : store) : store :=
  {| items := items st; orders := orders st; balances := balances st;
     transactions := transactions st ++ [t]; inventory_events := inventory_events st;
     orders_auto_increment := orders_auto_increment st |}.

Definition insert_inventory_event (e : InventoryEvent.row) (st : store) : store :=
  {| items := items st; orders := orders st; balances := balances st;
     transactions := transactions st; inventory_events := inventory_events st ++ [e];
     orders_auto_increment := orders_auto_increment st |}.

(** [UPDATE items SET status = s WHERE id = i] *)
Definition set_item_status (s : string) (i : Z) : store -> store :=
  set_items (alter (fun it =>
    {| Item.id := Item.id it; Item.seller_id := Item.seller_id it;
       Item.name := Item.name it; Item.item_type := Item.item_type it;
       Item.price_usdt := Item.price_usdt it; Item.quantity := Item.quantity it;
       Item.network := Item.network it; Item.status := s |}) i).

(** [UPDATE orders SET status = s WHERE id = i], keeping or setting tx_hash. *)
Definition set_order_status (s : string) (tx : option string) (i : Z) : store -> store :=
  set_orders (alter (fun o =>
    {| Order.id := Order.id o; Order.buyer_id := Order.buyer_id o;
       Order.item_id := Order.item_id o; Order.quantity := Order.quantity o;
       Order.amount_usdt := Order.amount_usdt o; Order.network := Order.network o;
       Order.payment_address := Order.payment_address o; Order.status := s;
       Order.tx_hash := match tx with Some h => Some h | None => Order.tx_hash o end |}) i).

End Database.

(** ** [routers/wallet.py] *)

Module DepositConfirm.
Record t : Type := {
  order_id : Z;
  tx_hash : string;
  amount : Q;
  token : string;
  network : string
}.
(** [Field(..., gt=0)] *)
Definition valid (b : t) : Prop := (0 < amount b)%Q.
End DepositConfirm.

Module WithdrawRequest.
Record t : Type := {
  amount : Q;
  token : string;
  network : string;
  to_address : string
}.
Definition valid (b : t) : Prop := (0 < amount b)%Q.
End WithdrawRequest.

Module Wallet.
Import Database.

Definition VALID_TOKENS : list string := ["USDT"; "USDC"].
Definition VALID_NETWORKS : list string := ["polygon"; "bsc"].

(** [EVM_ADDRESS_RE.match]: the pattern [^0x[0-9a-fA-F]{40}$]; in Python
    [$] also matches just before a final newline. *)
Definition EVM_ADDRESS_RE_match (s : string) : bool :=
  match s with
  | String "0" (String "x" rest) =>
      let l := list_ascii_of_string rest in
      forallb is_hex_digit (firstn 40 l) &&
      ((length l =? 40)%nat ||
       ((length l =? 41)%nat && String.eqb (string_of_list_ascii (skipn 40 l)) newline))
  | _ => false
  end.

(** [INSERT INTO balances ... ON DUPLICATE KEY UPDATE amount = amount + %s] *)
Definition credit_balance (uid : Z) (tok net : string) (amt : Q) : store -> store :=
  set_balances (fun b =>
    <[(uid, tok, net) := match b !! (uid, tok, net) with
                         | Some a => (a + amt)%Q
                         | None => amt
                         end]> b).

(** [UPDATE balances SET amount = amount - %s WHERE ...] *)
Definition debit_balance (uid : Z) (tok net : string) (amt : Q) : store -> store :=
  set_balances (alter (fun a => (a - amt)%Q) (uid, tok, net)).

Definition deposit_transaction (o : Order.row) (body : DepositConfirm.t) : Transaction.row :=
  {| Transaction.user_id := Order.buyer_id o;
     Transaction.order_id := Some (Order.id o);
     Transaction.type := "deposit";
     Transaction.amount := DepositConfirm.amount body;
     Transaction.token := DepositConfirm.token body;
     Transaction.network := DepositConfirm.network body;
     Transaction.tx_hash := Some (DepositConfirm.tx_hash body) |}.

Definition received_event (o : Order.row) : InventoryEvent.row :=
  {| InventoryEvent.user_id := Order.buyer_id o;
     InventoryEvent.item_id := Order.item_id o;
     InventoryEvent.event_type := "received" |}.

(** The five writes of a deposit confirmation, in the order of the source. *)
Definition deposit_writes (o : Order.row) (body : DepositConfirm.t) : list (store -> store) :=
  [ set_order_status "paid" (Some (DepositConfirm.tx_hash body)) (Order.id o);
    set_item_status "sold" (Order.item_id o);
    credit_balance (Order.buyer_id o) (DepositConfirm.token body)
                   (DepositConfirm.network body) (DepositConfirm.amount body);
    insert_transaction (deposit_transaction o body);
    insert_inventory_event (received_event o) ].

Definition confirm_deposit (body : DepositConfirm.t) (user : User.t) : DB string :=
  if negb (str_in (DepositConfirm.token body) VALID_TOKENS) then
    raise (HTTPException 400 "token must be one of VALID_TOKENS")
  else if negb (str_in (DepositConfirm.network body) VALID_NETWORKS) then
    raise (HTTPException 400 "network must be one of VALID_NETWORKS")
  else
    order ← execute (query (fun st => orders st !! DepositConfirm.order_id body));
    match order with
    | None => raise (HTTPException 404 "Order not found or already processed")
    | Some o =>
        if negb (String.eqb (Order.status o) "pending") then
          raise (HTTPException 404 "Order not found or already processed")
        else
          execute (update (set_order_status "paid" (Some (DepositConfirm.tx_hash body))
                                            (Order.id o)));;
          execute (update (set_item_status "sold" (Order.item_id o)));;
          execute (update (credit_balance (Order.buyer_id o) (DepositConfirm.token body)
                             (DepositConfirm.network body) (DepositConfirm.amount body)));;
          execute (update (insert_transaction (deposit_transaction o body)));;
          execute (update (insert_inventory_event (received_event o)));;
          mret "Deposit confirmed and order marked as paid"
    end.

Definition withdrawal_transaction (user : User.t) (body : WithdrawRequest.t) : Transaction.row :=
  {| Transaction.user_id := User.user_id user;
     Transaction.order_id := None;
     Transaction.type := "withdrawal";
     Transaction.amount := WithdrawRequest.amount body;
     Transaction.token := WithdrawRequest.token body;
     Transaction.network := WithdrawRequest.network body;
     Transaction.tx_hash := None |}.

Definition withdraw (body : WithdrawRequest.t) (user : User.t) : DB WithdrawRequest.t :=
  if negb (str_in (WithdrawRequest.token body) VALID_TOKENS) then
    raise (HTTPException 400 "token must be one of VALID_TOKENS")
  else if negb (str_in (WithdrawRequest.network body) VALID_NETWORKS) then
    raise (HTTPException 400 "network must be one of VALID_NETWORKS")
  else if negb (EVM_ADDRESS_RE_match (WithdrawRequest.to_address body)) then
    raise (HTTPException 400 "Invalid EVM wallet address format")
  else
    let key := (User.user_id user, WithdrawRequest.token body, WithdrawRequest.network body) in
    bal ← execute (query (fun st => balances st !! key));
    match bal with
    | None => raise (HTTPException 400 "Insufficient balance")
    | Some amount =>
        if Qltb amount (WithdrawRequest.amount body) then
          raise (HTTPException 400 "Insufficient balance")
        else
          execute (update (debit_balance (User.user_id user) (WithdrawRequest.token body)
                             (WithdrawRequest.network body) (WithdrawRequest.amount body)));;
          execute (update (insert_transaction (withdrawal_transaction user body)));;
          mret body
    end.

End Wallet.

(** ** [routers/orders.py] *)

Module OrderCreate.
Record t : Type := {
  item_id : Z;
  quantity : Z
}.
(** [Field(1, ge=1)] *)
Definition valid (b : t) : Prop := 1 <= quantity b.
End OrderCreate.

Module Orders.
Import Database.

(** [INSERT INTO orders (buyer_id, item_id, quantity, amount_usdt, network,
    payment_address)]; the statement yields [cur.lastrowid]. *)
Definition insert_order (buyer item qty : Z) (total : Q) (net addr : string)
    (st : store) : Z * store :=
  let oid := orders_auto_increment st in
  let o := {| Order.id := oid; Order.buyer_id := buyer; Order.item_id := item;
              Order.quantity := qty; Order.amount_usdt := total; Order.network := net;
              Order.payment_address := addr; Order.status := orders_status_default;
              Order.tx_hash := None |} in
  (oid, {| items := items st; orders := <[oid := o]> (orders st);
           balances := balances st; transactions := transactions st;
           inventory_events := inventory_events st;
           orders_auto_increment := oid + 1 |}).

(** [token_hex] stands for the value of [secrets.token_hex(20)] drawn for
    this request. *)
Definition create_order (token_hex : string) (body : OrderCreate.t) (user : User.t)
    : DB (option Order.row) :=
  item ← execute (query (fun st => items st !! OrderCreate.item_id body));
  match item with
  | None => raise (HTTPException 404 "Item not found")
  | Some item =>
      if negb (String.eqb (Item.status item) "active") then
        raise (HTTPException 409 "Item is no longer available")
      else if Item.seller_id item =? User.user_id user then
        raise (HTTPException 409 "You cannot buy your own listing")
      else if Item.quantity item <? OrderCreate.quantity body then
        raise (HTTPException 400 "Not enough quantity available")
      else
        let total := round2 (Item.price_usdt item * inject_Z (OrderCreate.quantity body)) in
        let payment_address := "0x" ++ token_hex in
        order_id ← execute (insert_order (User.user_id user) (Item.id item)
                              (OrderCreate.quantity body) total (Item.network item)
                              payment_address);
        execute (query (fun st => orders st !! order_id))
  end.

Definition cancel_order (order_id : Z) (user : User.t) : DB string :=
  order ← execute (query (fun st => orders st !! order_id));
  match order with
  | None => raise (HTTPException 404 "Order not found")
  | Some order =>
      if negb (Order.buyer_id order =? User.user_id user) then
        raise (HTTPException 403 "Forbidden")
      else if negb (String.eqb (Order.status order) "pending") then
        raise (HTTPException 409 "Only pending orders can be cancelled")
      else
        execute (update (set_order_status "cancelled" None order_id));;
        mret "Order cancelled successfully"
  end.

End Orders.

(** ** [routers/items.py] *)

Module ItemUpdate.
Record t : Type := {
  name : option string;
  price_usdt : option Q;
  quantity : option Z;
  status : option string
}.
(** [Field(None, gt=0)] and [Field(None, ge=1)] *)
Definition valid (b : t) : Prop :=
  (forall p, price_usdt b = Some p -> (0 < p)%Q) /\
  (forall q, quantity b = Some q -> 1 <= q).

(** [not body.model_dump(exclude_none=True)] *)
Definition no_updates (b : t) : bool :=
  match name b, price_usdt b, quantity b, status b with
  | None, None, None, None => true
  | _, _, _, _ => false
  end.
End ItemUpdate.

Module Items.
Import Database.

Definition VALID_STATUSES : list string := ["active"; "sold"; "cancelled"].

(** [UPDATE items SET k = %s, ... WHERE id = %s] for the fields present. *)
Definition apply_updates (b : ItemUpdate.t) (it : Item.row) : Item.row :=
  {| Item.id := Item.id it; Item.seller_id := Item.seller_id it;
     Item.name := default (Item.name it) (ItemUpdate.name b);
     Item.item_type := Item.item_type it;
     Item.price_usdt := default (Item.price_usdt it) (ItemUpdate.price_usdt b);
     Item.quantity := default (Item.quantity it) (ItemUpdate.quantity b);
     Item.network := Item.network it;
     Item.status := default (Item.status it) (ItemUpdate.status b) |}.

Definition not_owner_nor_admin (seller : Z) (user : User.t) : bool :=
  negb (seller =? User.user_id user) && negb (User.is_admin user).

Definition update_item (item_id : Z) (body : ItemUpdate.t) (user : User.t)
    : DB (option Item.row) :=
  item ← execute (query (fun st => items st !! item_id));
  match item with
  | None => raise (HTTPException 404 "Item not found")
  | Some item =>
      if not_owner_nor_admin (Item.seller_id item) user then
        raise (HTTPException 403 "You do not own this listing")
      else if match ItemUpdate.status body with
              | Some s => negb (String.eqb s "") && negb (str_in s VALID_STATUSES)
              | None => false
              end then
        raise (HTTPException 400 "status must be one of VALID_STATUSES")
      else if ItemUpdate.no_updates body then
        raise (HTTPException 400 "No fields to update")
      else
        match ItemUpdate.status body with
        | Some "" =>
            (* an empty status passes the check above; what the server stores
               for it depends on the column type and SQL mode *)
            unmodelled
        | _ =>
            execute (update (set_items (alter (apply_updates body) item_id)));;
            execute (query (fun st => items st !! item_id))
        end
  end.

Definition cancelled_event (user : User.t) (item_id : Z) : InventoryEvent.row :=
  {| InventoryEvent.user_id := User.user_id user;
     InventoryEvent.item_id := item_id;
     InventoryEvent.event_type := "cancelled" |}.

Definition delete_item (item_id : Z) (user : User.t) : DB unit :=
  item ← execute (query (fun st => items st !! item_id));
  match item with
  | None => raise (HTTPException 404 "Item not found")
  | Some item =>
      if not_owner_nor_admin (Item.seller_id item) user then
        raise (HTTPException 403 "You do not own this listing")
      else if String.eqb (Item.status item) "sold" then
        raise (HTTPException 409 "Cannot delete a sold listing")
      else
        execute (update (set_item_status "cancelled" item_id));;
        execute (update (insert_inventory_event (cancelled_event user item_id)))
  end.

End Items.

(** ** Python built-ins and [urllib.parse], as far as [main.py] uses them *)

Module Py.

Definition bytes (l : list Z) : string :=
  string_of_list_ascii (map (fun z => ascii_of_N (Z.to_N z)) l).

Definition is_ascii (c : ascii) : bool := code c <? 128.

Definition is_ascii_str (s : string) : bool :=
  forallb is_ascii (list_ascii_of_string s).

(** [len(s)]: code points, that is the bytes that are not UTF-8
    continuation bytes. *)
Definition len (s : string) : Z :=
  Z.of_nat (length (List.filter (fun c => negb ((128 <=? code c) && (code c <? 192)))
                           (list_ascii_of_string s))).

(** The characters [str.strip()] removes: those for which [str.isspace]
    holds, in UTF-8.  U+0009-000D, U+001C-0020, U+0085, U+00A0, U+1680,
    U+2000-200A, U+2028, U+2029, U+202F, U+205F, U+3000. *)
Definition whitespace : list (list ascii) :=
  map (fun l => list_ascii_of_string (bytes l))
    ([[9]; [10]; [11]; [12]; [13]; [28]; [29]; [30]; [31]; [32];
      [194; 133]; [194; 160]; [225; 154; 128]] ++
     map (fun b => [226; 128; b]) [128; 129; 130; 131; 132; 133; 134; 135; 136; 137; 138] ++
     [[226; 128; 168]; [226; 128; 169]; [226; 128; 175]; [226; 129; 159];
      [227; 128; 128]]).

Fixpoint starts_with (p l : list ascii) : bool :=
  match p, l with
  | [], _ => true
  | a :: p', b :: l' => Ascii.eqb a b && starts_with p' l'
  | _ :: _, [] => false
  end.

(** Drop leading occurrences of the patterns; each round removes at least
    one byte, so [length l] rounds are enough. *)
Fixpoint drop_leading (pats : list (list ascii)) (fuel : nat) (l : list ascii)
    : list ascii :=
  match fuel with
  | O => l
  | S fuel' =>
      match find (fun p => starts_with p l) pats with
      | Some p => drop_leading pats fuel' (skipn (length p) l)
      | None => l
      end
  end.

Definition lstrip_with (pats : list (list ascii)) (l : list ascii) : list ascii :=
  drop_leading pats (length l) l.

Definition rstrip_with (pats : list (list ascii)) (l : list ascii) : list ascii :=
  rev (drop_leading (map (@rev ascii) pats) (length l) (rev l)).

Definition strip (s : string) : string :=
  string_of_list_ascii
    (rstrip_with whitespace (lstrip_with whitespace (list_ascii_of_string s))).

(** [s.lower()] on ASCII letters.  The source only compares the result with
    ASCII words without [k] or [i], for which no other character lowers
    to a matching letter, so the comparison is decided exactly. *)
Definition lower_char (c : ascii) : ascii :=
  if (65 <=? code c) && (code c <=? 90) then ascii_of_N (Z.to_N (code c + 32)) else c.

Definition lower (s : string) : string :=
  string_of_list_ascii (map lower_char (list_ascii_of_string s)).

Definition endswith (s suffix : string) : bool :=
  starts_with (rev (list_ascii_of_string suffix)) (rev (list_ascii_of_string s)).

(** [needle in s] for strings. *)
Fixpoint contains_from (needle l : list ascii) : bool :=
  starts_with needle l ||
  match l with
  | [] => false
  | _ :: l' => contains_from needle l'
  end.

Definition contains (needle s : string) : bool :=
  contains_from (list_ascii_of_string needle) (list_ascii_of_string s).

Definition has_char (c : ascii) (s : string) : bool :=
  existsb (Ascii.eqb c) (list_ascii_of_string s).

(** [s.split(sep)] for a one-character separator. *)
Fixpoint split_chars (sep : ascii) (l : list ascii) (cur : list ascii) : list string :=
  match l with
  | [] => [string_of_list_ascii (rev cur)]
  | c :: l' =>
      if Ascii.eqb c sep then string_of_list_ascii (rev cur) :: split_chars sep l' []
      else split_chars sep l' (c :: cur)
  end.

Definition split (sep : ascii) (s : string) : list string :=
  split_chars sep (list_ascii_of_string s) [].

(** The text before the first character satisfying [p], and the rest. *)
Fixpoint break_at (p : ascii -> bool) (s : string) : string * string :=
  match s with
  | EmptyString => (EmptyString, EmptyString)
  | String c rest =>
      if p c then (EmptyString, s)
      else let '(a, b) := break_at p rest in (String c a, b)
  end.

Definition hex_value (c : ascii) : Z :=
  if is_digit c then code c - 48
  else if (97 <=? code c) && (code c <=? 102) then code c - 87
  else code c - 55.

(** [urllib.parse.unquote]: every [%XX] with two hexadecimal digits becomes
    the byte it names, any other [%] stays.  Python then decodes the bytes
    as UTF-8, replacing invalid sequences; the model covers escapes below
    0x80, for which decoding changes nothing. *)
Fixpoint unquote (s : string) : result string :=
  match s with
  | EmptyString => Ok EmptyString
  | String c rest =>
      if Ascii.eqb c "%" then
        match rest with
        | String h1 (String h2 rest') =>
            if is_hex_digit h1 && is_hex_digit h2 then
              let b := 16 * hex_value h1 + hex_value h2 in
              if b <? 128 then
                r ← unquote rest'; Ok (String (ascii_of_N (Z.to_N b)) r)
              else Unmodelled
            else r ← unquote rest; Ok (String c r)
        | _ => r ← unquote rest; Ok (String c r)
        end
      else r ← unquote rest; Ok (String c r)
  end.

(** [s.isdigit()] on ASCII text. *)
Definition isdigit (s : string) : bool :=
  negb (String.eqb s "") && forallb is_digit (list_ascii_of_string s).

(** [int(s)] for a string of ASCII digits. *)
Definition int_of_digits (s : string) : Z :=
  fold_left (fun acc c => 10 * acc + (code c - 48)) (list_ascii_of_string s) 0.

(** [tail.isdigit()] followed by [int(tail)].  Outside ASCII the answer
    depends on the Unicode tables of the interpreter, and beyond 4300 digits
    on its configured conversion limit. *)
Definition digits_to_int (s : string) : result (option Z) :=
  if negb (is_ascii_str s) then Unmodelled
  else if isdigit s then
    if 4300 <? Z.of_nat (String.length s) then Unmodelled
    else Ok (Some (int_of_digits s))
  else Ok None.

Definition is_scheme_char (c : ascii) : bool :=
  is_ascii_alnum c || Ascii.eqb c "+" || Ascii.eqb c "-" || Ascii.eqb c ".".

Definition is_ascii_alpha (c : ascii) : bool :=
  ((97 <=? code c) && (code c <=? 122)) || ((65 <=? code c) && (code c <=? 90)).

Definition uses_params : list string :=
  [""; "ftp"; "hdl"; "prospero"; "http"; "imap"; "https"; "shttp"; "rtsp";
   "rtspu"; "sip"; "sips"; "mms"; "sftp"; "tel"].

(** [url.rfind('/')] as the split it induces: the text up to and including
    the last slash, and the text after it. *)
Definition split_last_slash (s : string) : string * string :=
  let l := list_ascii_of_string s in
  let '(after_rev, before_rev) :=
    break_at (Ascii.eqb "/") (string_of_list_ascii (rev l)) in
  (string_of_list_ascii (rev (list_ascii_of_string before_rev)),
   string_of_list_ascii (rev (list_ascii_of_string after_rev))).

Record ParseResult : Type := {
  scheme : string;
  netloc : string;
  path : string
}.

(** [urllib.parse.urlparse], for the two components the source reads
    (after CPython 3.12's [urlsplit] and [urlparse]): leading C0 controls
    and spaces are dropped, tab, CR and LF removed, the scheme split off, a
    [//] introduces the network location, fragment, query and parameters are
    cut from the path.  Bracketed or non-ASCII hosts go through further
    checks in Python and are outside the model. *)
Definition urlparse (url0 : string) : result ParseResult :=
  let url1 := string_of_list_ascii
                (lstrip_with (map (fun z => [ascii_of_N (Z.to_N z)])
                                  (map Z.of_nat (seq 0 33)))
                             (list_ascii_of_string url0)) in
  let url := string_of_list_ascii
               (List.filter (fun c => negb ((code c =? 9) || (code c =? 10) || (code c =? 13)))
                       (list_ascii_of_string url1)) in
  let '(before_colon, from_colon) := break_at (Ascii.eqb ":") url in
  let '(scheme, url) :=
    match before_colon, from_colon with
    | String c0 _, String _ after_colon =>
        if is_ascii_alpha c0 && forallb is_scheme_char (list_ascii_of_string before_colon)
        then (lower before_colon, after_colon)
        else (EmptyString, url)
    | _, _ => (EmptyString, url)
    end in
  let '(netloc, url) :=
    match url with
    | String "/" (String "/" rest) =>
        break_at (fun c => Ascii.eqb c "/" || Ascii.eqb c "?" || Ascii.eqb c "#") rest
    | _ => (EmptyString, url)
    end in
  if (has_char "[" netloc && negb (has_char "]" netloc)) ||
     (has_char "]" netloc && negb (has_char "[" netloc)) then Raise ValueError
  else if has_char "[" netloc || negb (is_ascii_str netloc) then Unmodelled
  else
    let url := fst (break_at (Ascii.eqb "#") url) in
    let url := fst (break_at (Ascii.eqb "?") url) in
    let url :=
      if str_in scheme uses_params && has_char ";" url then
        if has_char "/" url then
          let '(dir, last) := split_last_slash url in
          dir ++ fst (break_at (Ascii.eqb ";") last)
        else fst (break_at (Ascii.eqb ";") url)
      else url in
    Ok {| scheme := scheme; netloc := netloc; path := url |}.

End Py.

(** ** Decoded JSON values *)

(** What [r.json()] returns.  A [dict] keeps its items in insertion order
    and has no two items with the same key; [JFloat] stands for a finite
    float. *)
#[local] Set Warnings "-register-all".
Inductive json : Type :=
| JNull
| JBool (b : bool)
| JInt (n : Z)
| JFloat (x : Q)
| JString (s : string)
| JList (l : list json)
| JDict (items : list (string * json)).
#[local] Set Warnings "register-all".

Module PyObj.

Fixpoint assoc (k : string) (items : list (string * json)) : option json :=
  match items with
  | [] => None
  | (k', v) :: rest => if String.eqb k k' then Some v else assoc k rest
  end.

(** [x.get(k)]: only a dict has the method. *)
Definition get (x : json) (k : string) : result json :=
  match x with
  | JDict items => Ok (default JNull (assoc k items))
  | _ => Raise AttributeError
  end.

(** [k in x] for a string [k]. *)
Definition contains (k : string) (x : json) : result bool :=
  match x with
  | JDict items => Ok (match assoc k items with Some _ => true | None => false end)
  | JString s => Ok (Py.contains k s)
  | JList l => Ok (existsb (fun v => match v with
                                     | JString s => String.eqb k s
                                     | _ => false
                                     end) l)
  | _ => Raise TypeError
  end.

(** [list(x.values())] *)
Definition values (x : json) : result (list json) :=
  match x with
  | JDict items => Ok (map snd items)
  | _ => Raise AttributeError
  end.

(** [bool(x)] *)
Definition truthy (x : json) : bool :=
  match x with
  | JNull => false
  | JBool b => b
  | JInt n => negb (n =? 0)
  | JFloat q => negb (Qeq_bool q 0)
  | JString s => negb (String.eqb s "")
  | JList l => match l with [] => false | _ => true end
  | JDict items => match items with [] => false | _ => true end
  end.

(** The number a value of type bool, int or float denotes. *)
Definition number (x : json) : option Q :=
  match x with
  | JBool b => Some (if b then 1 else 0)%Q
  | JInt n => Some (inject_Z n)
  | JFloat q => Some q
  | _ => None
  end.

(** [a == b] *)
Fixpoint eq (a b : json) : bool :=
  match a, b with
  | JNull, JNull => true
  | JString s, JString t => String.eqb s t
  | JList l, JList m =>
      (fix go (l m : list json) : bool :=
         match l, m with
         | [], [] => true
         | x :: l', y :: m' => eq x y && go l' m'
         | _, _ => false
         end) l m
  | JDict kvs, JDict kvs' =>
      (length kvs =? length kvs')%nat &&
      (fix go (kvs : list (string * json)) : bool :=
         match kvs with
         | [] => true
         | (k, v) :: rest =>
             match assoc k kvs' with
             | Some v' => eq v v'
             | None => false
             end && go rest
         end) kvs
  | _, _ =>
      match number a, number b with
      | Some x, Some y => Qeq_bool x y
      | _, _ => false
      end
  end.

(** [a < b]: numbers by value, strings by code point, lists
    lexicographically; any other pair raises [TypeError]. *)
Fixpoint lt (a b : json) : result bool :=
  match a, b with
  | JString s, JString t => Ok (String.ltb s t)
  | JList l, JList m =>
      (fix go (l m : list json) : result bool :=
         match l, m with
         | [], [] => Ok false
         | [], _ :: _ => Ok true
         | _ :: _, [] => Ok false
         | x :: l', y :: m' => if eq x y then go l' m' else lt x y
         end) l m
  | _, _ =>
      match number a, number b with
      | Some x, Some y => Ok (Qltb x y)
      | _, _ => Raise TypeError
      end
  end.

(** [a > b] *)
Definition gt (a b : json) : result bool := lt b a.

(** [(k1, m1) < (k2, m2)]: the first components that differ decide. *)
Definition tuple_lt (a b : json * json) : result bool :=
  if eq (fst a) (fst b) then
    if eq (snd a) (snd b) then Ok false else lt (snd a) (snd b)
  else lt (fst a) (fst b).

Definition tuple_gt (a b : json * json) : result bool :=
  if eq (fst a) (fst b) then
    if eq (snd a) (snd b) then Ok false else gt (snd a) (snd b)
  else gt (fst a) (fst b).

End PyObj.

(** ** [main.py] *)

Module Main.

(** *** The stats-URL parser *)

Definition QUALITY_NAME_TO_ID : list (string * Z) :=
  [("Unique", 6); ("Genuine", 1); ("Vintage", 3); ("Unusual", 5);
   ("Strange", 11); ("Haunted", 13); ("Collector's", 14); ("Collectors", 14);
   ("Decorated", 15)].

(** [QUALITY_NAME_TO_ID.get(name)] *)
Fixpoint quality_get (table : list (string * Z)) (name : string) : option Z :=
  match table with
  | [] => None
  | (k, v) :: rest => if String.eqb name k then Some v else quality_get rest name
  end.

Record Parsed : Type := {
  quality_name : string;
  tradable_seg : string;
  craftable_seg : string
}.

Record StatsQuery : Type := {
  item_name : string;
  quality : option Z;
  tradable : Z;
  craftable : Z;
  particle : option Z;
  parsed : Parsed
}.

Definition path_parts (path : string) : list string :=
  List.filter (fun seg => negb (String.eqb seg "")) (Py.split "/" path).

Definition parse_bptf_stats_url (stats_url : string) : result StatsQuery :=
  let u := Py.strip stats_url in
  p ← Py.urlparse u;
  if negb (Py.endswith (Py.netloc p) "backpack.tf") then
    Raise (HTTPException 422 "stats_url must be a backpack.tf link")
  else
    let parts := path_parts (Py.path p) in
    match parts with
    | p0 :: p1 :: p2 :: p3 :: p4 :: rest =>
        if negb (String.eqb p0 "stats") then
          Raise (HTTPException 422 "stats_url path format not recognized")
        else
          quality_name ← Py.unquote p1;
          item_name ← Py.unquote p2;
          tradable_seg ← Py.unquote p3;
          craftable_seg ← Py.unquote p4;
          let tradable := if String.eqb (Py.lower tradable_seg) "tradable" then 1 else 0 in
          let craftable := if String.eqb (Py.lower craftable_seg) "craftable" then 1 else 0 in
          let quality := quality_get QUALITY_NAME_TO_ID quality_name in
          particle ← match rest with
                      | p5 :: _ => tail ← Py.unquote p5; Py.digits_to_int tail
                      | [] => Ok None
                      end;
          Ok {| item_name := item_name; quality := quality; tradable := tradable;
                craftable := craftable; particle := particle;
                parsed := {| quality_name := quality_name;
                             tradable_seg := tradable_seg;
                             craftable_seg := craftable_seg |} |}
    | _ => Raise (HTTPException 422 "stats_url path format not recognized")
    end.

(** *** The listings normaliser *)

(** [as_list], the helper local to [_extract_listings]. *)
Definition as_list (x : json) : result (list json) :=
  match x with
  | JList l => Ok l
  | JDict _ => PyObj.values x
  | _ => Ok []
  end.

Definition _extract_listings (data : json) : result (list json) :=
  match data with
  | JDict _ =>
      has_listings ← PyObj.contains "listings" data;
      if has_listings : bool then
        l ← PyObj.get data "listings"; as_list l
      else
        results ← PyObj.get data "results";
        match results with
        | JList l => Ok l
        | JDict _ =>
            has_listings ← PyObj.contains "listings" results;
            if has_listings : bool then
              l ← PyObj.get results "listings"; as_list l
            else as_list results
        | _ =>
            wrapper ← PyObj.get data "data";
            match wrapper with
            | JDict _ =>
                has_listings ← PyObj.contains "listings" wrapper;
                if has_listings : bool then
                  l ← PyObj.get wrapper "listings"; as_list l
                else
                  has_results ← PyObj.contains "results" wrapper;
                  if has_results : bool then
                    r2 ← PyObj.get wrapper "results";
                    match r2 with
                    | JList l => Ok l
                    | JDict _ =>
                        has_listings ← PyObj.contains "listings" r2;
                        if has_listings : bool then
                          l ← PyObj.get r2 "listings"; as_list l
                        else as_list r2
                    | _ => Ok []
                    end
                  else Ok []
            | JList l => Ok l
            | _ => Ok []
            end
        end
  | _ => Ok []
  end.

(** A price as the handler builds it: [{"keys": ..., "metal": ...}], a
    missing entry being [None]. *)
Record Price : Type := {
  keys : json;
  metal : json
}.

(** [if isinstance(intent, int): intent = "buy" if intent == 0 else "sell"];
    a bool is an int in Python. *)
Definition normalize_intent (intent : json) : json :=
  match intent with
  | JInt n => if n =? 0 then JString "buy" else JString "sell"
  | JBool b => if b then JString "sell" else JString "buy"
  | _ => intent
  end.

(** One round of the loop over the listings. *)
Definition add_listing (acc : list Price * list Price) (lst : json)
    : result (list Price * list Price) :=
  let '(sells, buys) := acc in
  intent ← PyObj.get lst "intent";
  let intent := normalize_intent intent in
  cur ← PyObj.get lst "currencies";
  let cur := if PyObj.truthy cur then cur else JDict [] in
  k ← PyObj.get cur "keys";
  m ← PyObj.get cur "metal";
  let price := {| keys := k; metal := m |} in
  if PyObj.eq intent (JString "sell") then Ok ((sells ++ [price])%list, buys)
  else if PyObj.eq intent (JString "buy") then Ok (sells, (buys ++ [price])%list)
  else Ok (sells, buys).

Fixpoint split_listings (listings : list json) (acc : list Price * list Price)
    : result (list Price * list Price) :=
  match listings with
  | [] => Ok acc
  | lst :: rest => acc' ← add_listing acc lst; split_listings rest acc'
  end.

Definition sort_key (p : Price) : json * json :=
  (match keys p with JNull => JInt (10 ^ 9) | k => k end,
   match metal p with JNull => JInt (10 ^ 9) | m => m end).

(** [min(xs, key=sort_key)] and [max(xs, key=sort_key)] on a non-empty
    list: the first element with the least, or greatest, key. *)
Fixpoint min_from (best : Price) (rest : list Price) : result Price :=
  match rest with
  | [] => Ok best
  | p :: rest' =>
      smaller ← PyObj.tuple_lt (sort_key p) (sort_key best);
      min_from (if smaller : bool then p else best) rest'
  end.

Fixpoint max_from (best : Price) (rest : list Price) : result Price :=
  match rest with
  | [] => Ok best
  | p :: rest' =>
      greater ← PyObj.tuple_gt (sort_key p) (sort_key best);
      max_from (if greater : bool then p else best) rest'
  end.

Record Listings : Type := {
  sell_count : Z;
  buy_count : Z;
  lowest_sell : option Price;
  highest_buy : option Price
}.

(** [market_listings] from the decoded response body on: extraction, the
    split into sides and the two extremes. *)
Definition market_listings (data : json) : result Listings :=
  listings ← _extract_listings data;
  '(sells, buys) ← split_listings listings ([], []);
  lowest ← match sells with
            | [] => Ok None
            | p :: rest => lo ← min_from p rest; Ok (Some lo)
            end;
  highest ← match buys with
             | [] => Ok None
             | p :: rest => hi ← max_from p rest; Ok (Some hi)
             end;
  Ok {| sell_count := Z.of_nat (length sells); buy_count := Z.of_nat (length buys);
        lowest_sell := lowest; highest_buy := highest |}.

(** *** The watchlist *)

(** [SKU_PATTERN.match(v)] for [^[0-9]+;[0-9]+(;[A-Za-z0-9\-]+)*$]. *)
Definition sku_shape (v : string) : bool :=
  let nonempty_all (p : ascii -> bool) (seg : string) :=
    negb (String.eqb seg "") && forallb p (list_ascii_of_string seg) in
  match Py.split ";" v with
  | defindex :: quality :: more =>
      nonempty_all is_digit defindex && nonempty_all is_digit quality &&
      forallb (nonempty_all (fun c => is_ascii_alnum c || Ascii.eqb c "-")) more
  | _ => false
  end.

(** In Python [$] also matches just before a final newline. *)
Definition SKU_PATTERN_match (v : string) : bool :=
  sku_shape v ||
  (Py.endswith v newline &&
   sku_shape (substring 0 (String.length v - 1) v)).

Module WatchlistCreate.
Record t : Type := {
  sku : string;
  name : string;
  target_price_ref : Q;
  note : option string
}.

(** Validation of the four fields: each field's [Field] constraints are
    checked on the value as received, then its [field_validator] runs and
    its result becomes the field. *)
Definition validate (raw : t) : result t :=
  if (Py.len (sku raw) <? 3) || (64 <? Py.len (sku raw)) then Raise ValidationError
  else
    let sku' := Py.strip (sku raw) in
    if negb (SKU_PATTERN_match sku') then Raise ValidationError
    else if (Py.len (name raw) <? 2) || (120 <? Py.len (name raw)) then
      Raise ValidationError
    else
      let name' := Py.strip (name raw) in
      if Py.contains "  " name' then Raise ValidationError
      else if negb (Qltb 0 (target_price_ref raw)) ||
              negb (Qle_bool (target_price_ref raw) 100000) then Raise ValidationError
      else if match note raw with
              | Some n => 300 <? Py.len n
              | None => false
              end then Raise ValidationError
      else Ok {| sku := sku'; name := name';
                 target_price_ref := target_price_ref raw; note := note raw |}.
End WatchlistCreate.

Module WatchlistItem.
Record t : Type := {
  id : Z;
  fields : WatchlistCreate.t
}.
End WatchlistItem.

(** A row of the [watchlist] table: id, sku, name, target_price_ref, note. *)
Definition Row : Type := Z * string * string * Q * option string.

(** The table by primary key, and the counter [AUTOINCREMENT] keeps of the
    largest id ever handed out. *)
Record watchlist_db : Type := {
  rows : gmap Z Row;
  sequence : Z
}.

(** [WatchlistItem(id=row[0], sku=row[1], ...)]: building the model
    validates the fields again. *)
Definition row_to_item (row : Row) : result WatchlistItem.t :=
  let '(i, s, n, p, nt) := row in
  f ← WatchlistCreate.validate
        {| WatchlistCreate.sku := s; WatchlistCreate.name := n;
           WatchlistCreate.target_price_ref := p; WatchlistCreate.note := nt |};
  Ok {| WatchlistItem.id := i; WatchlistItem.fields := f |}.

Definition sku_present (s : string) (st : watchlist_db) : bool :=
  existsb (fun kv => let '(_, s', _, _, _) := snd kv in String.eqb s s')
          (map_to_list (rows st)).

Definition max_rowid (st : watchlist_db) : Z :=
  map_fold (fun k _ acc => Z.max k acc) 0 (rows st).

(** [INSERT INTO watchlist (sku, name, target_price_ref, note)] followed by
    [commit]; the unique index on sku refuses a second row with the same
    sku, and then nothing is written. *)
Definition insert_watchlist (p : WatchlistCreate.t) (st : watchlist_db)
    : result Z * watchlist_db :=
  if sku_present (WatchlistCreate.sku p) st then (Raise IntegrityError, st)
  else
    let i := Z.max (sequence st) (max_rowid st) + 1 in
    (Ok i, {| rows := <[i := (i, WatchlistCreate.sku p, WatchlistCreate.name p,
                              WatchlistCreate.target_price_ref p,
                              WatchlistCreate.note p)]> (rows st);
              sequence := i |}).

Definition create_item (payload : WatchlistCreate.t) (st : watchlist_db)
    : result WatchlistItem.t * watchlist_db :=
  match insert_watchlist payload st with
  | (Ok item_id, st') =>
      match rows st' !! item_id with
      | Some row => (row_to_item row, st')
      | None => (Raise TypeError, st')
      end
  | (Raise IntegrityError, st') =>
      (Raise (HTTPException 409 "sku already exists in watchlist"), st')
  | (Raise e, st') => (Raise e, st')
  | (Unmodelled, st') => (Unmodelled, st')
  end.

Definition get_item (item_id : Z) (st : watchlist_db) : result WatchlistItem.t :=
  match rows st !! item_id with
  | None => Raise (HTTPException 404 "Watchlist item not found")
  | Some row => row_to_item row
  end.

(** [POST /watchlist]: the framework validates the body, answers 422 if
    that fails, and otherwise calls the handler with the validated model. *)
Definition post_watchlist (raw : WatchlistCreate.t) (st : watchlist_db)
    : result WatchlistItem.t * watchlist_db :=
  match WatchlistCreate.validate raw with
  | Ok payload => create_item payload st
  | _ => (Raise (HTTPException 422 "validation error"), st)
  end.

End Main.

(** * Fixtures and vocabulary of the statements *)

Module Fixtures.
Import Database.

Definition item3 : Item.row :=
  {| Item.id := 3; Item.seller_id := 1; Item.name := "Mann Co. Supply Crate Key";
     Item.item_type := "key"; Item.price_usdt := 5 # 2; Item.quantity := 4;
     Item.network := "polygon"; Item.status := "active" |}.

Definition order1 : Order.row :=
  {| Order.id := 1; Order.buyer_id := 2; Order.item_id := 3; Order.quantity := 2;
     Order.amount_usdt := 5; Order.network := "polygon";
     Order.payment_address := "0x00"; Order.status := "pending";
     Order.tx_hash := None |}.

Definition shop : store :=
  {| items := {[ 3 := item3 ]}; orders := {[ 1 := order1 ]}; balances := ∅;
     transactions := []; inventory_events := []; orders_auto_increment := 2 |}.

Definition deposit9 : DepositConfirm.t :=
  {| DepositConfirm.order_id := 1; DepositConfirm.tx_hash := "0xabc";
     DepositConfirm.amount := 9; DepositConfirm.token := "USDT";
     DepositConfirm.network := "polygon" |}.



(** An update that relists the item at a new price and quantity. *)
Definition relist : ItemUpdate.t :=
  {| ItemUpdate.name := None; ItemUpdate.price_usdt := Some 1%Q;
     ItemUpdate.quantity := Some 7; ItemUpdate.status := Some "active" |}.

(** A store where user 2 holds 10 USDT on polygon, and three withdrawal
    requests of 4, 7 and 6 against it. *)
Definition purse : store :=
  {| items := ∅; orders := ∅; balances := {[ (2, "USDT", "polygon") := 10%Q ]};
     transactions := []; inventory_events := []; orders_auto_increment := 1 |}.

Definition withdrawal (amt : Q) : WithdrawRequest.t :=
  {| WithdrawRequest.amount := amt; WithdrawRequest.token := "USDT";
     WithdrawRequest.network := "polygon";
     WithdrawRequest.to_address := "0x00112233445566778899aabbccddeeff00112233" |}.

Definition stranger : User.t := {| User.user_id := 99; User.is_admin := false |}.
Definition buyer2 : User.t := {| User.user_id := 2; User.is_admin := false |}.
Definition seller1 : User.t := {| User.user_id := 1; User.is_admin := false |}.


(** The payload of the specification's example. *)
Definition example_payload : json :=
  JDict [("results", JDict [("listings", JList [
    JDict [("intent", JInt 0);
           ("currencies", JDict [("keys", JInt 1); ("metal", JInt 10)])];
    JDict [("intent", JString "sell");
           ("currencies", JDict [("metal", JInt 5)])]])])].

(** Two sell listings: one asks 2*10^9 keys, the other names no keys. *)
Definition dear : Main.Price := {| Main.keys := JInt 2000000000; Main.metal := JInt 1 |}.
Definition keyless : Main.Price := {| Main.keys := JNull; Main.metal := JInt 1 |}.

Definition dear_payload : json :=
  JDict [("listings", JList [
    JDict [("intent", JString "sell");
           ("currencies", JDict [("keys", JInt 2000000000); ("metal", JInt 1)])];
    JDict [("intent", JString "sell");
           ("currencies", JDict [("metal", JInt 1)])]])].

(** An empty watchlist, and a request whose name ends in a space. *)
Definition empty_watchlist : Main.watchlist_db :=
  {| Main.rows := ∅; Main.sequence := 0 |}.

Definition key_request : Main.WatchlistCreate.t :=
  {| Main.WatchlistCreate.sku := "5021;6"; Main.WatchlistCreate.name := "a ";
     Main.WatchlistCreate.target_price_ref := 80;
     Main.WatchlistCreate.note := None |}.

End Fixtures.


Module Vocabulary.
Import Database.

Definition apply_writes (ws : list (store -> store)) (st : store) : store :=
  fold_left (fun s w => w s) ws st.

(** The order a confirmation request names, provided the request passes
    every check of the handler: token and network among the valid ones, the
    order present and pending. *)
Definition pending_order (body : DepositConfirm.t) (st : store) : option Order.row :=
  if str_in (DepositConfirm.token body) Wallet.VALID_TOKENS &&
     str_in (DepositConfirm.network body) Wallet.VALID_NETWORKS then
    match orders st !! DepositConfirm.order_id body with
    | Some o => if String.eqb (Order.status o) "pending" then Some o else None
    | None => None
    end
  else None.



(** Owner-or-admin gating, as the specification asks of every mutation:
    a request that succeeds was made by the owner or by an admin. *)
Definition owner_or_admin_only {A} (owner : Z) (user : User.t) (r : result A) : Prop :=
  is_ok r = true -> owner = User.user_id user \/ User.is_admin user = true.


Definition with_status (s : string) (it : Item.row) : Item.row :=
  {| Item.id := Item.id it; Item.seller_id := Item.seller_id it;
     Item.name := Item.name it; Item.item_type := Item.item_type it;
     Item.price_usdt := Item.price_usdt it; Item.quantity := Item.quantity it;
     Item.network := Item.network it; Item.status := s |}.

(** The row [create_order] inserts. *)
Definition new_order (token_hex : string) (body : OrderCreate.t) (user : User.t)
    (item : Item.row) (st : store) : Order.row :=
  {| Order.id := orders_auto_increment st; Order.buyer_id := User.user_id user;
     Order.item_id := Item.id item; Order.quantity := OrderCreate.quantity body;
     Order.amount_usdt :=
       round2 (Item.price_usdt item * inject_Z (OrderCreate.quantity body));
     Order.network := Item.network item;
     Order.payment_address := "0x" ++ token_hex;
     Order.status := "pending"; Order.tx_hash := None |}.

(** No balance row holds a negative amount. *)
Definition balances_nonneg (st : store) : Prop :=
  forall k a, balances st !! k = Some a -> (0 <= a)%Q.


Definition is_container (v : json) : bool :=
  match v with
  | JList _ | JDict _ => true
  | _ => false
  end.

(** A dict [d] offers no listings: its [listings] entry is neither a list
    nor a dict or, without such an entry, its [results] entry is absent or
    neither a list nor a dict. *)
Definition offers_nothing (d : list (string * json)) (and_also : Prop) : Prop :=
  match PyObj.assoc "listings" d with
  | Some v => is_container v = false
  | None =>
      is_container (default JNull (PyObj.assoc "results" d)) = false /\ and_also
  end.

(** A decoded value without a recognisable listings, results or data
    structure: anything but a dict, or a dict that offers nothing at top
    level and whose [data] entry is absent, a scalar, or a dict that offers
    nothing either. *)
Definition unrecognised (data : json) : Prop :=
  match data with
  | JDict items =>
      offers_nothing items
        match default JNull (PyObj.assoc "data" items) with
        | JList _ => False
        | JDict wrapper => offers_nothing wrapper True
        | _ => True
        end
  | _ => True
  end.

(** The two sides of the market. *)
Inductive side : Type := Buy | Sell.

(** The entry of a dict under a key, [None] when the key or the dict is
    missing. *)
Definition entry (k : string) (x : json) : json :=
  match x with
  | JDict items => default JNull (PyObj.assoc k items)
  | _ => JNull
  end.

(** The side an intent value stands for: the integer 0 and the string
    "buy" for buy, any other integer and the string "sell" for sell, a
    boolean counting as the integer 0 or 1; no side for anything else. *)
Definition intent_side (v : json) : option side :=
  match v with
  | JInt n => Some (if n =? 0 then Buy else Sell)
  | JBool b => Some (if b then Sell else Buy)
  | JString s =>
      if String.eqb s "buy" then Some Buy
      else if String.eqb s "sell" then Some Sell
      else None
  | _ => None
  end.

Definition on_side (sd : side) (lst : json) : bool :=
  match intent_side (entry "intent" lst), sd with
  | Some Buy, Buy => true
  | Some Sell, Sell => true
  | _, _ => false
  end.

Definition listing_price (lst : json) : Main.Price :=
  let cur := entry "currencies" lst in
  {| Main.keys := entry "keys" cur; Main.metal := entry "metal" cur |}.

Definition prices_on (sd : side) (listings : list json) : list Main.Price :=
  map listing_price (List.filter (on_side sd) listings).

(** A price component that is a number or missing. *)
Definition priced_value (v : json) : bool :=
  match v with
  | JNull => true
  | _ => match PyObj.number v with Some _ => true | None => false end
  end.

Definition priced (p : Main.Price) : bool :=
  priced_value (Main.keys p) && priced_value (Main.metal p).

(** The number a price component is compared as: a missing one counts as
    10^9. *)
Definition sort_value (v : json) : Q :=
  match v with
  | JNull => inject_Z (10 ^ 9)
  | _ => default 0%Q (PyObj.number v)
  end.

Definition price_key (p : Main.Price) : Q * Q :=
  (sort_value (Main.keys p), sort_value (Main.metal p)).

(** Lexicographic order on (keys, metal) pairs. *)
Definition key_le (a b : Q * Q) : Prop :=
  (fst a < fst b)%Q \/ (fst a == fst b /\ snd a <= snd b)%Q.

Definition lex_ltb (a b : Q * Q) : bool :=
  if Qeq_bool (fst a) (fst b) then
    if Qeq_bool (snd a) (snd b) then false else Qltb (snd a) (snd b)
  else Qltb (fst a) (fst b).

(** The same comparison with a missing component as +infinity, as the
    specification words it: [None] is above every number. *)
Definition inf_value (v : json) : option Q :=
  match v with
  | JNull => None
  | _ => Some (default 0%Q (PyObj.number v))
  end.

Definition inf_lt (a b : option Q) : Prop :=
  match a, b with
  | Some x, Some y => (x < y)%Q
  | Some _, None => True
  | None, _ => False
  end.

Definition inf_eq (a b : option Q) : Prop :=
  match a, b with
  | Some x, Some y => (x == y)%Q
  | None, None => True
  | _, _ => False
  end.

Definition inf_key_le (p q : Main.Price) : Prop :=
  inf_lt (inf_value (Main.keys p)) (inf_value (Main.keys q)) \/
  (inf_eq (inf_value (Main.keys p)) (inf_value (Main.keys q)) /\
   ~ inf_lt (inf_value (Main.metal q)) (inf_value (Main.metal p))).

Definition lowest_by_infinity (lo : Main.Price) (sells : list Main.Price) : Prop :=
  forall q, In q sells -> inf_key_le lo q.

End Vocabulary.

(** * The rest of the routers *)

(** ** [routers/orders.py], [routers/wallet.py] and [routers/items.py]:
    the handlers beside the state machine *)

Module ItemCreate.
Record t : Type := {
  name : string;
  item_type : string;
  price_usdt : Q;
  quantity : Z;
  network : string
}.
(** [Field(..., min_length=1)], [Field(..., gt=0)], [Field(..., ge=1)] *)
Definition valid (b : t) : Prop :=
  1 <= Py.len (name b) /\ (0 < price_usdt b)%Q /\ 1 <= quantity b.
End ItemCreate.

Module Reads.
Import Database.

(** [SELECT o.*, i.name AS item_name FROM orders o JOIN items i
    ON i.id = o.item_id WHERE o.id = %s]: the order with the name of its
    item, no row when either is missing. *)
Definition select_order_with_item (order_id : Z) (st : store)
    : option (Order.row * string) :=
  o ← orders st !! order_id;
  i ← items st !! Order.item_id o;
  Some (o, Item.name i).

Definition get_order (order_id : Z) (user : User.t) : DB (Order.row * string) :=
  order ← execute (query (select_order_with_item order_id));
  match order with
  | None => raise (HTTPException 404 "Order not found")
  | Some order =>
      if negb (Order.buyer_id (fst order) =? User.user_id user) &&
         negb (User.is_admin user) then
        raise (HTTPException 403 "Forbidden")
      else mret order
  end.

(** [SELECT token, network, amount FROM balances WHERE user_id = %s]; the
    statement has no ORDER BY, the rows come in the order of the map. *)
Definition select_balances (uid : Z) (st : store) : list (string * string * Q) :=
  omap (fun kv => let '((u, tok, net), a) := kv in
                  if u =? uid then Some (tok, net, a) else None)
       (map_to_list (balances st)).

Definition get_balance (user : User.t) : DB (Z * list (string * string * Q)) :=
  rows ← execute (query (select_balances (User.user_id user)));
  mret (User.user_id user, rows).

End Reads.

Module Listing.
Import Database.

Definition VALID_TYPES : list string := ["key"; "metal"; "ticket"; "other"].
Definition VALID_NETWORKS : list string := ["polygon"; "bsc"].

(** [INSERT INTO items (seller_id, name, item_type, price_usdt, quantity,
    network)].  Two values are the server's: [lastrowid], the key
    AUTO_INCREMENT gives the new row, and [status_default], what the schema
    (its DDL is not among the sources) gives the [status] column the
    statement leaves out. *)
Definition insert_item (lastrowid : Z) (status_default : string) (seller : Z)
    (name type : string) (price : Q) (qty : Z) (net : string) (st : store)
    : Z * store :=
  (lastrowid,
   set_items (insert lastrowid
     {| Item.id := lastrowid; Item.seller_id := seller; Item.name := name;
        Item.item_type := type; Item.price_usdt := price; Item.quantity := qty;
        Item.network := net; Item.status := status_default |}) st).

Definition listed_event (user : User.t) (item_id : Z) : InventoryEvent.row :=
  {| InventoryEvent.user_id := User.user_id user;
     InventoryEvent.item_id := item_id;
     InventoryEvent.event_type := "listed" |}.


Definition create_item (lastrowid : Z) (status_default : string) (body : ItemCreate.t)
    (user : User.t) : DB (option Item.row) :=
  if negb (str_in (ItemCreate.item_type body) VALID_TYPES) then
    raise (HTTPException 400 "item_type must be one of VALID_TYPES")
  else if negb (str_in (ItemCreate.network body) VALID_NETWORKS) then
    raise (HTTPException 400 "network must be one of VALID_NETWORKS")
  else
    item_id ← execute (insert_item lastrowid status_default (User.user_id user)
                         (Py.strip (ItemCreate.name body)) (ItemCreate.item_type body)
                         (ItemCreate.price_usdt body) (ItemCreate.quantity body)
                         (ItemCreate.network body));
    execute (update (insert_inventory_event (listed_event user item_id)));;
    execute (query (fun st => items st !! item_id)).

End Listing.

(** ** Vocabulary for what the handlers keep *)

Module Frames.
Import Database.

(** Both logs only grow at the end. *)
Definition logs_grow (st st' : store) : Prop :=
  transactions st `prefix_of` transactions st' /\
  inventory_events st `prefix_of` inventory_events st'.

(** The next order id is above every order id in use, as AUTO_INCREMENT
    has it. *)
Definition order_ids_fresh (st : store) : Prop :=
  forall k o, orders st !! k = Some o -> k < orders_auto_increment st.

(** What an order is about: everything but its status and tx_hash. *)
Definition same_order_terms (o o' : Order.row) : Prop :=
  Order.id o' = Order.id o /\ Order.buyer_id o' = Order.buyer_id o /\
  Order.item_id o' = Order.item_id o /\ Order.quantity o' = Order.quantity o /\
  Order.amount_usdt o' = Order.amount_usdt o /\ Order.network o' = Order.network o /\
  Order.payment_address o' = Order.payment_address o.

Definition orders_kept (st st' : store) : Prop :=
  order_ids_fresh st ->
  order_ids_fresh st' /\
  forall k o, orders st !! k = Some o ->
    exists o', orders st' !! k = Some o' /\ same_order_terms o o'.

(** Who sells an item and what it is: everything a seller cannot edit. *)
Definition same_item_identity (i i' : Item.row) : Prop :=
  Item.id i' = Item.id i /\ Item.seller_id i' = Item.seller_id i /\
  Item.item_type i' = Item.item_type i /\ Item.network i' = Item.network i.

Definition items_kept (st st' : store) : Prop :=
  forall k i, items st !! k = Some i ->
    exists i', items st' !! k = Some i' /\ same_item_identity i i'.




Definition balances_kept (st st' : store) : Prop := balances st' = balances st.


(** Every order sits under its own id. *)
Definition orders_keyed (st : store) : Prop :=
  forall k o, orders st !! k = Some o -> Order.id o = k.

(** The requests the marketplace serves, with what the framework hands the
    handler; [create_order] comes with the value drawn from
    [secrets.token_hex]. *)
Inductive request : Type :=
| UpdateItem (item_id : Z) (body : ItemUpdate.t)
| DeleteItem (item_id : Z)
| CreateOrder (token_hex : string) (body : OrderCreate.t)
| CancelOrder (order_id : Z)
| GetOrder (order_id : Z)
| ConfirmDeposit (body : DepositConfirm.t)
| Withdraw (body : WithdrawRequest.t)
| GetBalance.

(** Serving a request: the store it leaves, whatever it answers. *)
Definition serve (req : request) (user : User.t) (st : store) (fault : option nat)
    : store :=
  match req with
  | UpdateItem i b => snd (run (Items.update_item i b user) st fault)
  | DeleteItem i => snd (run (Items.delete_item i user) st fault)
  | CreateOrder h b => snd (run (Orders.create_order h b user) st fault)
  | CancelOrder o => snd (run (Orders.cancel_order o user) st fault)
  | GetOrder o => snd (run (Reads.get_order o user) st fault)
  | ConfirmDeposit b => snd (run (Wallet.confirm_deposit b user) st fault)
  | Withdraw b => snd (run (Wallet.withdraw b user) st fault)
  | GetBalance => snd (run (Reads.get_balance user) st fault)
  end.

(** Whether the request answered without raising. *)
Definition served_ok (req : request) (user : User.t) (st : store) (fault : option nat)
    : bool :=
  match req with
  | UpdateItem i b => is_ok (fst (run (Items.update_item i b user) st fault))
  | DeleteItem i => is_ok (fst (run (Items.delete_item i user) st fault))
  | CreateOrder h b => is_ok (fst (run (Orders.create_order h b user) st fault))
  | CancelOrder o => is_ok (fst (run (Orders.cancel_order o user) st fault))
  | GetOrder o => is_ok (fst (run (Reads.get_order o user) st fault))
  | ConfirmDeposit b => is_ok (fst (run (Wallet.confirm_deposit b user) st fault))
  | Withdraw b => is_ok (fst (run (Wallet.withdraw b user) st fault))
  | GetBalance => is_ok (fst (run (Reads.get_balance user) st fault))
  end.

(** The handlers outside the wallet's two writers. *)
Definition leaves_balances (req : request) : bool :=
  match req with
  | ConfirmDeposit _ | Withdraw _ => false
  | _ => true
  end.


(** A session: requests by their users, each with the failure injected
    into its connection, served one after the other. *)
Fixpoint serve_all (reqs : list (request * User.t * option nat)) (st : store) : store :=
  match reqs with
  | [] => st
  | (req, user, fault) :: rest => serve_all rest (serve req user st fault)
  end.

End Frames.

(** ** Vocabulary for how a handler treats the store *)

Module Discipline.
Import Database Frames.

(** The handler relates the store it finds to the store it leaves, on
    every connection, failing or not. *)
Definition preserves (R : store -> store -> Prop) {A} (h : DB A) : Prop :=
  forall c, R (db c) (db (snd (h c))).

(** Every handler of the marketplace keeps [R]. *)
Definition all_preserve (R : store -> store -> Prop) : Prop :=
  forall req user,
    match req with
    | UpdateItem i b => preserves R (Items.update_item i b user)
    | DeleteItem i => preserves R (Items.delete_item i user)
    | CreateOrder h b => preserves R (Orders.create_order h b user)
    | CancelOrder o => preserves R (Orders.cancel_order o user)
    | GetOrder o => preserves R (Reads.get_order o user)
    | ConfirmDeposit b => preserves R (Wallet.confirm_deposit b user)
    | Withdraw b => preserves R (Wallet.withdraw b user)
    | GetBalance => preserves R (Reads.get_balance user)
    end.

(** On a connection that does not fail: [reads] handlers write nothing,
    [writes] handlers always answer, [clean] handlers write nothing unless
    they answer. *)
Definition reads {A} (h : DB A) : Prop :=
  forall c, fault_at c = None ->
    db (snd (h c)) = db c /\ fault_at (snd (h c)) = None.

Definition writes {A} (h : DB A) : Prop :=
  forall c, fault_at c = None ->
    is_ok (fst (h c)) = true /\ fault_at (snd (h c)) = None.

Definition clean {A} (h : DB A) : Prop :=
  forall c, fault_at c = None -> is_ok (fst (h c)) = false -> db (snd (h c)) = db c.

End Discipline.

(** * The rest of [main.py] *)

(** ** The watchlist: list, update, delete *)

Module Watchlist.
Import Main.

Definition row_id (r : Row) : Z := let '(i, _, _, _, _) := r in i.
Definition row_sku (r : Row) : string := let '(_, s, _, _, _) := r in s.

(** [[row_to_item(r) for r in rows]]: the first row that fails to validate
    raises. *)
Fixpoint rows_to_items (rs : list Row) : result (list WatchlistItem.t) :=
  match rs with
  | [] => Ok []
  | r :: rest =>
      item ← row_to_item r;
      items ← rows_to_items rest;
      Ok (item :: items)
  end.

Definition id_le (a b : Row) : Prop := row_id a <= row_id b.

#[global] Instance id_le_dec a b : Decision (id_le a b) :=
  decide (row_id a <= row_id b).

(** [SELECT ... FROM watchlist ORDER BY id ASC] *)
Definition select_all (st : watchlist_db) : list Row :=
  merge_sort id_le (map snd (map_to_list (rows st))).

Definition list_items (st : watchlist_db) : result (list WatchlistItem.t) :=
  rows_to_items (select_all st).

(** The unique index on sku, seen from a row that is being updated: some
    other row already has the sku. *)
Definition sku_elsewhere (s : string) (item_id : Z) (st : watchlist_db) : bool :=
  existsb (fun kv => negb (fst kv =? item_id) && String.eqb s (row_sku (snd kv)))
          (map_to_list (rows st)).

(** [UPDATE watchlist SET sku = ?, name = ?, target_price_ref = ?, note = ?
    WHERE id = ?] followed by [commit]; refused as a whole when the sku is
    taken by another row. *)
Definition update_watchlist (p : WatchlistCreate.t) (item_id : Z) (st : watchlist_db)
    : result unit * watchlist_db :=
  if bool_decide (is_Some (rows st !! item_id)) &&
     sku_elsewhere (WatchlistCreate.sku p) item_id st then (Raise IntegrityError, st)
  else
    (Ok tt,
     {| rows := alter (fun r => (row_id r, WatchlistCreate.sku p, WatchlistCreate.name p,
                                 WatchlistCreate.target_price_ref p,
                                 WatchlistCreate.note p)) item_id (rows st);
        sequence := sequence st |}).

Definition update_item (item_id : Z) (payload : WatchlistCreate.t) (st : watchlist_db)
    : result WatchlistItem.t * watchlist_db :=
  match rows st !! item_id with
  | None => (Raise (HTTPException 404 "Watchlist item not found"), st)
  | Some _ =>
      match update_watchlist payload item_id st with
      | (Ok _, st') =>
          match rows st' !! item_id with
          | Some row => (row_to_item row, st')
          | None => (Raise TypeError, st')
          end
      | (Raise IntegrityError, st') =>
          (Raise (HTTPException 409 "sku already exists in watchlist"), st')
      | (Raise e, st') => (Raise e, st')
      | (Unmodelled, st') => (Unmodelled, st')
      end
  end.

(** [DELETE FROM watchlist WHERE id = ?], [commit], then 404 when
    [cur.rowcount] is 0. *)
Definition delete_item (item_id : Z) (st : watchlist_db) : result unit * watchlist_db :=
  let rowcount := match rows st !! item_id with Some _ => 1 | None => 0 end in
  let st' := {| rows := delete item_id (rows st); sequence := sequence st |} in
  if rowcount =? 0 then (Raise (HTTPException 404 "Watchlist item not found"), st')
  else (Ok tt, st').

(** The write requests of the watchlist, as the handlers receive them. *)
Inductive request : Type :=
| Create (payload : WatchlistCreate.t)
| Update (item_id : Z) (payload : WatchlistCreate.t)
| Delete (item_id : Z).

Definition serve (req : request) (st : watchlist_db) : watchlist_db :=
  match req with
  | Create p => snd (create_item p st)
  | Update i p => snd (update_item i p st)
  | Delete i => snd (delete_item i st)
  end.

Definition serve_all (reqs : list request) (st : watchlist_db) : watchlist_db :=
  fold_left (fun s r => serve r s) reqs st.

(** Every row sits under its own id, and no two rows share a sku. *)
Definition keyed (st : watchlist_db) : Prop :=
  forall k r, rows st !! k = Some r -> row_id r = k.

Definition skus_unique (st : watchlist_db) : Prop :=
  forall k1 k2 r1 r2,
    rows st !! k1 = Some r1 -> rows st !! k2 = Some r2 ->
    row_sku r1 = row_sku r2 -> k1 = k2.

End Watchlist.

(** ** [main.py]: the backpack.tf endpoints *)

Module Market.

(** The two environment variables the handlers read. *)
Record Env : Type := {
  BPTF_TOKEN : option string;
  BPTF_KEY : option string
}.

(** [(os.getenv(name) or "").strip()] *)
Definition secret (v : option string) : string := Py.strip (default "" v).

(** Slices count characters; on the UTF-8 encoding of a [str] a character
    is a byte that is no continuation byte, with the continuation bytes
    after it. *)
Definition is_continuation (c : ascii) : bool := (128 <=? code c) && (code c <? 192).

Fixpoint take_chars (n : nat) (l : list ascii) : list ascii :=
  match l with
  | [] => []
  | c :: l' =>
      if is_continuation c then c :: take_chars n l'
      else match n with
           | O => []
           | S n' => c :: take_chars n' l'
           end
  end.

(** [s[:n]] *)
Definition first_chars (n : nat) (s : string) : string :=
  string_of_list_ascii (take_chars n (list_ascii_of_string s)).

(** [s[-k:]]: the whole of [s] when it has at most [k] characters, and
    otherwise what follows its first [len(s) - k] characters. *)
Definition last_chars (k : nat) (s : string) : string :=
  if Py.len s <=? Z.of_nat k then s
  else
    let l := list_ascii_of_string s in
    string_of_list_ascii (skipn (length (take_chars (Z.to_nat (Py.len s) - k) l)) l).

Record AuthPreview : Type := {
  has_token : bool;
  token_len : Z;
  token_head : option string;
  token_tail : option string;
  has_key : bool;
  key_len : Z;
  key_head : option string;
  key_tail : option string
}.

Definition debug_bptf_auth (env : Env) : AuthPreview :=
  let token := secret (BPTF_TOKEN env) in
  let key := secret (BPTF_KEY env) in
  {| has_token := negb (String.eqb token "");
     token_len := Py.len token;
     token_head := if String.eqb token "" then None else Some (first_chars 6 token);
     token_tail := if String.eqb token "" then None else Some (last_chars 4 token);
     has_key := negb (String.eqb key "");
     key_len := Py.len key;
     key_head := if String.eqb key "" then None else Some (first_chars 6 key);
     key_tail := if String.eqb key "" then None else Some (last_chars 4 key) |}.

(** The query parameters of the upstream request: a dict from names to
    integers and strings, in insertion order. *)
Inductive param : Type :=
| PInt (n : Z)
| PStr (s : string).

Definition Params : Type := list (string * param).

(** [params[k] = v] *)
Fixpoint set_param (k : string) (v : param) (ps : Params) : Params :=
  match ps with
  | [] => [(k, v)]
  | (k', v') :: rest =>
      if String.eqb k k' then (k, v) :: rest else (k', v') :: set_param k v rest
  end.

(** [params.get(k)] *)
Fixpoint get_param (k : string) (ps : Params) : option param :=
  match ps with
  | [] => None
  | (k', v) :: rest => if String.eqb k k' then Some v else get_param k rest
  end.

Definition _choose_auth (env : Env) (params : Params) : Params * string :=
  let token := secret (BPTF_TOKEN env) in
  let key := secret (BPTF_KEY env) in
  if negb (String.eqb token "") then (set_param "token" (PStr token) params, "token_query")
  else if negb (String.eqb key "") then (set_param "key" (PStr key) params, "key_query")
  else (params, "none").

(** The parameters of [market_listings] beside [debug_raw], as FastAPI
    hands them over after its own validation ([limit] between 1 and 100). *)
Record Filter : Type := {
  item_name : string;
  appid : Z;
  quality : option Z;
  tradable : option Z;
  craftable : option Z;
  particle : option Z;
  limit : Z
}.

(** What [client.get] is called with, and what comes of it: an
    [httpx.RequestError], or a response, of which the handler reads the
    status, the [Retry-After] header, the text and the decoded JSON body
    ([None] when the text is no JSON and [r.json()] raises). *)
Record Request : Type := {
  url : string;
  params : Params;
  user_agent : string
}.

Record Response : Type := {
  status_code : Z;
  retry_after : option string;
  text : string;
  json_body : option json
}.

Inductive reply : Type :=
| RequestError (message : string)
| Responded (r : Response).

Definition Client : Type := Request -> reply.

Record RawPreview : Type := {
  top_keys : list string;
  results_type : option string;
  results_keys : option (list string);
  listing_count_extracted : Z
}.

Record Answer : Type := {
  query : Filter;
  listings : Main.Listings;
  auth_used : string;
  raw_preview : option RawPreview;
  note : string
}.

(** [type(x).__name__] *)
Definition type_name (x : json) : string :=
  match x with
  | JNull => "NoneType"
  | JBool _ => "bool"
  | JInt _ => "int"
  | JFloat _ => "float"
  | JString _ => "str"
  | JList _ => "list"
  | JDict _ => "dict"
  end.

(** The [params] dict before the credential is added. *)
Definition query_params (name : string) (f : Filter) : Params :=
  let ps := [("appid", PInt (appid f)); ("sku", PStr name); ("limit", PInt (limit f))] in
  let ps := match quality f with Some v => set_param "quality" (PInt v) ps | None => ps end in
  let ps := match tradable f with Some v => set_param "tradable" (PInt v) ps | None => ps end in
  let ps := match craftable f with Some v => set_param "craftable" (PInt v) ps | None => ps end in
  match particle f with Some v => set_param "particle" (PInt v) ps | None => ps end.

Definition listings_request (ps : Params) : Request :=
  {| url := "https://backpack.tf/api/v2/classifieds/listings";
     params := ps;
     user_agent := "TF2-Companion-API/1.0" |}.

(** [raw_preview] *)
Definition preview (debug_raw : bool) (data : json) (count : Z) : option RawPreview :=
  match data with
  | JDict items =>
      if debug_raw then
        let results_obj := default JNull (PyObj.assoc "results" items) in
        Some {| top_keys := firstn 30 (map fst items);
                results_type := match results_obj with
                                | JNull => None
                                | _ => Some (type_name results_obj)
                                end;
                results_keys := match results_obj with
                                | JDict kvs => Some (firstn 30 (map fst kvs))
                                | _ => None
                                end;
                listing_count_extracted := count |}
      else None
  | _ => None
  end.

(** The handler from the upstream reply on.  The listings are extracted
    once in the source; [Main.market_listings] extracts them again, to the
    same value. *)
Definition answer (name : string) (f : Filter) (debug_raw : bool)
    (used : string) (got : reply) : result Answer :=
  match got with
  | RequestError e =>
      Raise (HTTPException 502 ("Failed to reach backpack.tf: " ++ e))
  | Responded r =>
      if status_code r =? 429 then
        Raise (HTTPException 429 ("Rate limited by backpack.tf. Retry-After="
                                  ++ default "None" (retry_after r)))
      else if negb (status_code r =? 200) then
        Raise (HTTPException 502 ("backpack.tf error: " ++ pretty (status_code r)
                                  ++ " " ++ first_chars 200 (text r)))
      else
        match json_body r with
        | None => Raise ValueError
        | Some data =>
            extracted ← Main._extract_listings data;
            found ← Main.market_listings data;
            Ok {| query := {| item_name := name; appid := appid f;
                              quality := quality f; tradable := tradable f;
                              craftable := craftable f; particle := particle f;
                              limit := limit f |};
                  listings := found;
                  auth_used := used;
                  raw_preview := preview debug_raw data (Z.of_nat (length extracted));
                  note := "Using backpack.tf v2 classifieds listings." |}
        end
  end.

Definition market_listings (env : Env) (client : Client) (f : Filter)
    (debug_raw : bool) : result Answer :=
  let name := Py.strip (item_name f) in
  if String.eqb name "" then
    Raise (HTTPException 422 "item_name must not be empty")
  else
    let '(ps, used) := _choose_auth env (query_params name f) in
    answer name f debug_raw used (client (listings_request ps)).

Definition market_listings_from_stats (env : Env) (client : Client)
    (stats_url : string) (appid limit : Z) (debug_raw : bool) : result Answer :=
  parsed ← Main.parse_bptf_stats_url stats_url;
  market_listings env client
    {| item_name := Main.item_name parsed; appid := appid;
       quality := Main.quality parsed;
       tradable := Some (Main.tradable parsed);
       craftable := Some (Main.craftable parsed);
       particle := Main.particle parsed; limit := limit |}
    debug_raw.

End Market.

Module Fixtures2.
Import Database Fixtures Frames.

(** A session on [shop]: the buyer's order is confirmed while the
    connection fails at the balance credit, the seller then relists and
    deletes the item, and the buyer asks for the order. *)
Definition busy_session : list (request * User.t * option nat) :=
  [(ConfirmDeposit deposit9, stranger, Some 3%nat);
   (UpdateItem 3 relist, seller1, None);
   (DeleteItem 3, seller1, None);
   (CancelOrder 1, buyer2, None);
   (GetOrder 1, buyer2, None)].

(** A watchlist with two entries. *)
Definition two_entries : Main.watchlist_db :=
  {| Main.rows := {[ 1 := (1, "5021;6", "Mann Co. Supply Crate Key", 80%Q, None);
                     2 := (2, "721;5;u89", "Conquistador", 1500%Q, Some "unusual") ]};
     Main.sequence := 2 |}.

(** A payload with the sku of entry 1 and a new target price. *)
Definition crate_key : Main.WatchlistCreate.t :=
  {| Main.WatchlistCreate.sku := "5021;6";
     Main.WatchlistCreate.name := "Mann Co. Supply Crate Key";
     Main.WatchlistCreate.target_price_ref := 75;
     Main.WatchlistCreate.note := Some "lower target" |}.

(** A payload for a second, different sku. *)
Definition conquistador : Main.WatchlistCreate.t :=
  {| Main.WatchlistCreate.sku := "721;5;u89";
     Main.WatchlistCreate.name := "Conquistador";
     Main.WatchlistCreate.target_price_ref := 1500;
     Main.WatchlistCreate.note := Some "unusual" |}.

(** An environment with both credentials set, blanks around the token;
    and a stats link with a quality name the table does not have. *)
Definition both_secrets : Market.Env :=
  {| Market.BPTF_TOKEN := Some " tok123 "; Market.BPTF_KEY := Some "key456" |}.

Definition normal_hat : string :=
  "https://backpack.tf/stats/Normal/Team%20Captain/Tradable/Craftable".

(** Upstream answering 503 with a text body. *)
Definition unavailable : Market.Client :=
  fun _ => Market.Responded
    {| Market.status_code := 503; Market.retry_after := None;
       Market.text := "Service Unavailable"; Market.json_body := None |}.


End Fixtures2.

(** * Properties *)

(** ** Amounts *)

Lemma Qltb_true a b : Qltb a b = true <-> (a < b)%Q.
Proof.
  unfold Qltb. rewrite negb_true_iff, <- not_true_iff_false, Qle_bool_iff.
  split; [apply Qnot_le_lt | apply Qlt_not_le].
Qed.

Lemma Qltb_false a b : Qltb a b = false <-> (b <= a)%Q.
Proof.
  unfold Qltb. rewrite negb_false_iff. apply Qle_bool_iff.
Qed.


(** ** Deposit confirmation *)

Section Deposit.
Import Database Vocabulary Fixtures.

Lemma confirm_deposit_rejected body user st fault :
  pending_order body st = None ->
  is_ok (fst (run (Wallet.confirm_deposit body user) st fault)) = false /\
  snd (run (Wallet.confirm_deposit body user) st fault) = st.
Proof.
  unfold pending_order, run, Wallet.confirm_deposit.
  destruct (str_in (DepositConfirm.token body) Wallet.VALID_TOKENS); simpl; [|auto].
  destruct (str_in (DepositConfirm.network body) Wallet.VALID_NETWORKS); simpl; [|auto].
  unfold mbind, DB_bind, execute, query; simpl.
  case_bool_decide; simpl; [auto|].
  destruct (orders st !! _) as [o|]; simpl; [|auto].
  destruct (String.eqb (Order.status o) "pending"); simpl; [discriminate|auto].
Qed.

Lemma confirm_deposit_faults body user st o :
  pending_order body st = Some o ->
  run (Wallet.confirm_deposit body user) st None =
    (Ok "Deposit confirmed and order marked as paid",
     apply_writes (Wallet.deposit_writes o body) st) /\
  run (Wallet.confirm_deposit body user) st (Some 0%nat) = (Raise DatabaseError, st) /\
  (forall k, (k < 5)%nat ->
    run (Wallet.confirm_deposit body user) st (Some (S k)) =
      (Raise DatabaseError, apply_writes (take k (Wallet.deposit_writes o body)) st)) /\
  (forall k, (5 <= k)%nat ->
    run (Wallet.confirm_deposit body user) st (Some (S k)) =
      (Ok "Deposit confirmed and order marked as paid",
       apply_writes (Wallet.deposit_writes o body) st)).
Proof.
  unfold pending_order, run, Wallet.confirm_deposit.
  destruct (str_in (DepositConfirm.token body) Wallet.VALID_TOKENS); simpl; [|discriminate].
  destruct (str_in (DepositConfirm.network body) Wallet.VALID_NETWORKS); simpl; [|discriminate].
  destruct (orders st !! _) as [o'|] eqn:Ho; [|discriminate].
  destruct (String.eqb (Order.status o') "pending") eqn:Hs; [|discriminate].
  intros [= ->].
  unfold mbind, DB_bind, execute, query; simpl.
  rewrite Ho; simpl. rewrite Hs; simpl.
  split; [reflexivity|]. split; [reflexivity|].
  split; intros k Hk; destruct k as [|[|[|[|[|k]]]]]; try lia; reflexivity.
Qed.




(** C10.  Whenever a confirmation succeeds, the buyer's balance for the
    request's token and network grows by the amount of the request body (or
    starts at it), and the deposit transaction appended records that same
    amount; the order's stored amount plays no part. *)
Theorem confirm_deposit_credits_request_amount body user st fault msg st' :
  run (Wallet.confirm_deposit body user) st fault = (Ok msg, st') ->
  exists o,
    orders st !! DepositConfirm.order_id body = Some o /\
    let key := (Order.buyer_id o, DepositConfirm.token body, DepositConfirm.network body) in
    balances st' !! key =
      Some (match balances st !! key with
            | Some a => (a + DepositConfirm.amount body)%Q
            | None => DepositConfirm.amount body
            end) /\
    exists t,
      transactions st' = (transactions st ++ [t])%list /\
      Transaction.type t = "deposit" /\
      Transaction.user_id t = Order.buyer_id o /\
      Transaction.amount t = DepositConfirm.amount body.
Proof.
  intros Hrun.
  destruct (pending_order body st) as [o|] eqn:Hp.
  - assert (Ho : orders st !! DepositConfirm.order_id body = Some o).
    { unfold pending_order in Hp.
      destruct (_ && _); [|discriminate].
      destruct (orders st !! _) as [o'|]; [|discriminate].
      destruct (String.eqb _ _); congruence. }
    assert (Hst : st' = apply_writes (Wallet.deposit_writes o body) st).
    { destruct (confirm_deposit_faults body user st o Hp) as (H1 & H2 & H3 & H4).
      destruct fault as [[|k]|].
      - rewrite H2 in Hrun. discriminate.
      - destruct (Nat.lt_ge_cases k 5) as [Hk|Hk].
        + rewrite (H3 k Hk) in Hrun. discriminate.
        + rewrite (H4 k Hk) in Hrun. congruence.
      - rewrite H1 in Hrun. congruence. }
    exists o. split; [exact Ho|]. subst st'. simpl. split.
    + apply lookup_insert_eq.
    + eexists. split; [reflexivity|]. simpl. auto.
  - destruct (confirm_deposit_rejected body user st fault Hp) as [Hok _].
    rewrite Hrun in Hok. discriminate.
Qed.

Lemma confirm_deposit_credits_request_amount_witness :
  Order.amount_usdt order1 = 5%Q /\
  DepositConfirm.amount deposit9 = 9%Q /\
  exists st',
    run (Wallet.confirm_deposit deposit9 stranger) shop None =
      (Ok "Deposit confirmed and order marked as paid", st') /\
    balances st' !! (2, "USDT", "polygon") = Some 9%Q.
Proof.
  split; [reflexivity|]. split; [reflexivity|].
  eexists. split; [reflexivity|].
  destruct (confirm_deposit_credits_request_amount deposit9 stranger shop None _ _ eq_refl)
    as (o & Ho & Hb & _).
  vm_compute in Ho. injection Ho as <-. exact Hb.
Defined.

End Deposit.

Section Ownership.
Import Database Vocabulary Fixtures.

Lemma not_owner_nor_admin_true seller user :
  Items.not_owner_nor_admin seller user = true <->
  seller <> User.user_id user /\ User.is_admin user = false.
Proof.
  unfold Items.not_owner_nor_admin.
  rewrite andb_true_iff, !negb_true_iff, Z.eqb_neq. tauto.
Qed.

Lemma not_owner_nor_admin_false seller user :
  Items.not_owner_nor_admin seller user = false <->
  seller = User.user_id user \/ User.is_admin user = true.
Proof.
  unfold Items.not_owner_nor_admin.
  rewrite andb_false_iff, !negb_false_iff, Z.eqb_eq. tauto.
Qed.

Lemma update_item_forbidden item_id body user st item :
  items st !! item_id = Some item ->
  Items.not_owner_nor_admin (Item.seller_id item) user = true ->
  run (Items.update_item item_id body user) st None =
    (Raise (HTTPException 403 "You do not own this listing"), st).
Proof.
  intros Hi Hn. unfold run, Items.update_item, mbind, DB_bind, execute, query; simpl.
  rewrite Hi; simpl. rewrite Hn. reflexivity.
Qed.


Lemma delete_item_forbidden item_id user st item :
  items st !! item_id = Some item ->
  Items.not_owner_nor_admin (Item.seller_id item) user = true ->
  run (Items.delete_item item_id user) st None =
    (Raise (HTTPException 403 "You do not own this listing"), st).
Proof.
  intros Hi Hn. unfold run, Items.delete_item, mbind, DB_bind, execute, query; simpl.
  rewrite Hi; simpl. rewrite Hn. reflexivity.
Qed.


Lemma delete_item_cancels item_id user st item :
  items st !! item_id = Some item ->
  Items.not_owner_nor_admin (Item.seller_id item) user = false ->
  Item.status item <> "sold" ->
  run (Items.delete_item item_id user) st None =
    (Ok tt,
     insert_inventory_event (Items.cancelled_event user item_id)
       (set_item_status "cancelled" item_id st)).
Proof.
  intros Hi Hn Hs. unfold run, Items.delete_item, mbind, DB_bind, execute, query; simpl.
  rewrite Hi; simpl. rewrite Hn.
  apply String.eqb_neq in Hs. rewrite Hs. reflexivity.
Qed.

Lemma cancel_order_forbidden order_id user st order :
  orders st !! order_id = Some order ->
  Order.buyer_id order <> User.user_id user ->
  run (Orders.cancel_order order_id user) st None =
    (Raise (HTTPException 403 "Forbidden"), st).
Proof.
  intros Ho Hb. unfold run, Orders.cancel_order, mbind, DB_bind, execute, query; simpl.
  rewrite Ho; simpl. apply Z.eqb_neq in Hb. rewrite Hb. reflexivity.
Qed.

(** C2, as the code has it.  On an existing item, update and delete succeed
    only for the owning seller or an admin; on an existing order, cancel
    succeeds only for the owning buyer (an admin who is not the buyer is
    refused too); anyone else gets Forbidden and nothing is written.
    Deposit confirmation is a webhook: it runs the same for every
    authenticated caller. *)
Theorem mutations_check_ownership st user :
  (forall item_id item, items st !! item_id = Some item ->
     (forall body,
        is_ok (fst (run (Items.update_item item_id body user) st None)) = true ->
        Item.seller_id item = User.user_id user \/ User.is_admin user = true) /\
     (is_ok (fst (run (Items.delete_item item_id user) st None)) = true ->
        Item.seller_id item = User.user_id user \/ User.is_admin user = true) /\
     (Item.seller_id item <> User.user_id user -> User.is_admin user = false ->
        (forall body,
           Forbidden (fst (run (Items.update_item item_id body user) st None)) /\
           snd (run (Items.update_item item_id body user) st None) = st) /\
        Forbidden (fst (run (Items.delete_item item_id user) st None)) /\
        snd (run (Items.delete_item item_id user) st None) = st)) /\
  (forall order_id order, orders st !! order_id = Some order ->
     (is_ok (fst (run (Orders.cancel_order order_id user) st None)) = true ->
        Order.buyer_id order = User.user_id user) /\
     (Order.buyer_id order <> User.user_id user ->
        Forbidden (fst (run (Orders.cancel_order order_id user) st None)) /\
        snd (run (Orders.cancel_order order_id user) st None) = st)) /\
  (forall body user', Wallet.confirm_deposit body user = Wallet.confirm_deposit body user').
Proof.
  split; [|split].
  - intros item_id item Hi.
    destruct (Items.not_owner_nor_admin (Item.seller_id item) user) eqn:Hn.
    + split; [|split].
      * intros body. rewrite (update_item_forbidden _ _ _ _ _ Hi Hn). discriminate.
      * rewrite (delete_item_forbidden _ _ _ _ Hi Hn). discriminate.
      * intros _ _. split.
        -- intros body. rewrite (update_item_forbidden _ _ _ _ _ Hi Hn).
           split; [eexists; reflexivity | reflexivity].
        -- rewrite (delete_item_forbidden _ _ _ _ Hi Hn).
           split; [eexists; reflexivity | reflexivity].
    + apply not_owner_nor_admin_false in Hn.
      split; [auto|]. split; [auto|].
      intros Hne Ha. destruct Hn as [Hn|Hn]; [contradiction | congruence].
  - intros order_id order Ho.
    destruct (Z.eq_dec (Order.buyer_id order) (User.user_id user)) as [He|Hne].
    + split; [auto | contradiction].
    + rewrite (cancel_order_forbidden _ _ _ _ Ho Hne).
      split; [discriminate|]. intros _. split; [eexists; reflexivity | reflexivity].
  - reflexivity.
Qed.

Lemma mutations_check_ownership_witness :
  items shop !! 3 = Some item3 /\
  Item.seller_id item3 <> User.user_id stranger /\
  User.is_admin stranger = false /\
  Forbidden (fst (run (Items.delete_item 3 stranger) shop None)) /\
  snd (run (Items.delete_item 3 stranger) shop None) = shop.
Proof.
  assert (Hne : Item.seller_id item3 <> User.user_id stranger) by (simpl; lia).
  split; [reflexivity|]. split; [exact Hne|]. split; [reflexivity|].
  exact (proj2 (proj2 (proj2 (proj1 (mutations_check_ownership shop stranger) 3 item3 eq_refl))
                 Hne eq_refl)).
Defined.

(** C2 as stated fails for deposit confirmation: a caller who is neither the
    buyer of the order nor an admin confirms the deposit successfully. *)
Lemma confirm_deposit_by_stranger :
  ~ owner_or_admin_only
      (Order.buyer_id order1) stranger
      (fst (run (Wallet.confirm_deposit deposit9 stranger) shop None)).
Proof.
  unfold owner_or_admin_only. intros H.
  destruct (H eq_refl) as [H'|H']; vm_compute in H'; discriminate H'.
Qed.

End Ownership.

Section ItemStates.
Import Database Vocabulary Fixtures.




End ItemStates.

Section OrderCreation.
Import Database Vocabulary Fixtures.

Lemma create_order_cases token_hex body user st item :
  items st !! OrderCreate.item_id body = Some item ->
  run (Orders.create_order token_hex body user) st None =
    if negb (String.eqb (Item.status item) "active") then
      (Raise (HTTPException 409 "Item is no longer available"), st)
    else if Item.seller_id item =? User.user_id user then
      (Raise (HTTPException 409 "You cannot buy your own listing"), st)
    else if Item.quantity item <? OrderCreate.quantity body then
      (Raise (HTTPException 400 "Not enough quantity available"), st)
    else
      (Ok (Some (new_order token_hex body user item st)),
       snd (Orders.insert_order (User.user_id user) (Item.id item)
              (OrderCreate.quantity body)
              (round2 (Item.price_usdt item * inject_Z (OrderCreate.quantity body)))
              (Item.network item) ("0x" ++ token_hex) st)).
Proof.
  intros Hi. unfold run, Orders.create_order, mbind, DB_bind, execute, query; simpl.
  rewrite Hi; simpl.
  destruct (negb _); [reflexivity|].
  destruct (_ =? _); [reflexivity|].
  destruct (_ <? _); [reflexivity|].
  simpl. rewrite lookup_insert_eq. reflexivity.
Qed.

Lemma create_order_missing_item token_hex body user st :
  items st !! OrderCreate.item_id body = None ->
  run (Orders.create_order token_hex body user) st None =
    (Raise (HTTPException 404 "Item not found"), st).
Proof.
  intros Hi. unfold run, Orders.create_order, mbind, DB_bind, execute, query; simpl.
  rewrite Hi. reflexivity.
Qed.




End OrderCreation.

Section Withdrawals.
Import Database Vocabulary Fixtures.

Lemma withdraw_cases body user st :
  let key := (User.user_id user, WithdrawRequest.token body, WithdrawRequest.network body) in
  run (Wallet.withdraw body user) st None =
    if negb (str_in (WithdrawRequest.token body) Wallet.VALID_TOKENS) then
      (Raise (HTTPException 400 "token must be one of VALID_TOKENS"), st)
    else if negb (str_in (WithdrawRequest.network body) Wallet.VALID_NETWORKS) then
      (Raise (HTTPException 400 "network must be one of VALID_NETWORKS"), st)
    else if negb (Wallet.EVM_ADDRESS_RE_match (WithdrawRequest.to_address body)) then
      (Raise (HTTPException 400 "Invalid EVM wallet address format"), st)
    else
      match balances st !! key with
      | None => (Raise (HTTPException 400 "Insufficient balance"), st)
      | Some a =>
          if Qltb a (WithdrawRequest.amount body) then
            (Raise (HTTPException 400 "Insufficient balance"), st)
          else
            (Ok body,
             insert_transaction (Wallet.withdrawal_transaction user body)
               (Wallet.debit_balance (User.user_id user) (WithdrawRequest.token body)
                  (WithdrawRequest.network body) (WithdrawRequest.amount body) st))
      end.
Proof.
  unfold run, Wallet.withdraw.
  destruct (negb (str_in (WithdrawRequest.token body) _)); [reflexivity|].
  destruct (negb (str_in (WithdrawRequest.network body) _)); [reflexivity|].
  destruct (negb (Wallet.EVM_ADDRESS_RE_match _)); [reflexivity|].
  unfold mbind, DB_bind, execute, query; simpl.
  destruct (balances st !! _) as [a|]; [|reflexivity].
  destruct (Qltb a _); reflexivity.
Qed.





End Withdrawals.

Section Extraction.
Import Vocabulary.

Lemma as_list_total x : exists l, Main.as_list x = Ok l.
Proof. destruct x; simpl; eauto. Qed.

(** The block the source repeats for a dict [d]: its [listings] entry if it
    has one, else its values. *)
Lemma listings_or_values_total items :
  exists l,
    (PyObj.contains "listings" (JDict items) ≫= fun has_listings : bool =>
       if has_listings then PyObj.get (JDict items) "listings" ≫= Main.as_list
       else Main.as_list (JDict items)) = Ok l.
Proof.
  cbn [PyObj.contains PyObj.get mbind result_bind].
  destruct (PyObj.assoc "listings" items) as [v|]; cbn.
  - apply as_list_total.
  - eauto.
Qed.

Lemma extract_listings_total data : exists l, Main._extract_listings data = Ok l.
Proof.
  destruct data as [| | | | | |items]; try (simpl; eauto; fail).
  unfold Main._extract_listings.
  cbn [PyObj.contains PyObj.get mbind result_bind].
  destruct (PyObj.assoc "listings" items) as [v|]; cbn [default]; [apply as_list_total|].
  destruct (default JNull (PyObj.assoc "results" items)) as [| | | | |l|res];
    try (eexists; reflexivity); try apply listings_or_values_total.
  all: destruct (default JNull (PyObj.assoc "data" items)) as [| | | | |l'|wrapper];
    try (eexists; reflexivity).
  all: cbn [PyObj.contains PyObj.get mbind result_bind];
    destruct (PyObj.assoc "listings" wrapper) as [v|]; cbn [default];
    [apply as_list_total|].
  all: destruct (PyObj.assoc "results" wrapper) as [[| | | | |l'|r2]|]; cbn [default];
    try (eexists; reflexivity); apply listings_or_values_total.
Qed.

Lemma extract_listings_unrecognised data :
  unrecognised data -> Main._extract_listings data = Ok [].
Proof.
  destruct data as [| | | | | |items]; try reflexivity.
  unfold unrecognised, offers_nothing, Main._extract_listings.
  cbn [PyObj.contains PyObj.get mbind result_bind].
  destruct (PyObj.assoc "listings" items) as [v|]; cbn [default].
  { destruct v; simpl; congruence. }
  intros [Hres Hdata].
  destruct (default JNull (PyObj.assoc "results" items)); try discriminate Hres.
  all: destruct (default JNull (PyObj.assoc "data" items)) as [| | | | |l|wrapper];
    try reflexivity; try contradiction.
  all: cbn [PyObj.contains PyObj.get mbind result_bind];
    destruct (PyObj.assoc "listings" wrapper) as [v|]; cbn [default];
    [destruct v; simpl in *; congruence|].
  all: destruct Hdata as [Hr2 _];
    destruct (PyObj.assoc "results" wrapper) as [r2|]; cbn [default] in *;
    [destruct r2; try discriminate Hr2; reflexivity | reflexivity].
Qed.

(** C7.  The extraction returns a list for every decoded value, whatever
    its shape: none of its steps can raise.  For a value without a
    recognisable listings, results or data structure (anything but a dict,
    the empty dict, a dict whose entries under these keys are absent or
    scalars) the list is empty, and the normaliser then reports no sells, no
    buys and no extremes. *)
Theorem extract_listings_never_raises :
  (forall data, exists l, Main._extract_listings data = Ok l) /\
  (forall data, unrecognised data ->
     Main._extract_listings data = Ok [] /\
     Main.market_listings data =
       Ok {| Main.sell_count := 0; Main.buy_count := 0;
             Main.lowest_sell := None; Main.highest_buy := None |}).
Proof.
  split; [exact extract_listings_total|].
  intros data H. pose proof (extract_listings_unrecognised data H) as E.
  split; [exact E|]. unfold Main.market_listings. rewrite E. reflexivity.
Qed.

Lemma extract_listings_never_raises_witness :
  unrecognised (JDict []) /\
  Main._extract_listings (JDict []) = Ok [] /\
  Main.market_listings (JDict []) =
    Ok {| Main.sell_count := 0; Main.buy_count := 0;
          Main.lowest_sell := None; Main.highest_buy := None |}.
Proof.
  assert (H : unrecognised (JDict [])) by (vm_compute; auto).
  split; [exact H|].
  exact (proj2 extract_listings_never_raises (JDict []) H).
Defined.

End Extraction.

Section StatsUrl.
Import Vocabulary.









End StatsUrl.

Section Normaliser.
Import Vocabulary Fixtures.

Lemma key_le_refl a : key_le a a.
Proof. right. split; [reflexivity | apply Qle_refl]. Qed.

Lemma key_le_trans a b c : key_le a b -> key_le b c -> key_le a c.
Proof. unfold key_le. intros [H1|[H1 H1']] [H2|[H2 H2']]; [left|left|left|right]; lra. Qed.

Lemma lex_ltb_true a b : lex_ltb a b = true -> key_le a b.
Proof.
  unfold lex_ltb, key_le.
  destruct (Qeq_bool (fst a) (fst b)) eqn:E1.
  - apply Qeq_bool_iff in E1.
    destruct (Qeq_bool (snd a) (snd b)); [discriminate|].
    intros H%Qltb_true. right. split; [exact E1 | lra].
  - intros H%Qltb_true. left. exact H.
Qed.

Lemma lex_ltb_false a b : lex_ltb a b = false -> key_le b a.
Proof.
  unfold lex_ltb, key_le.
  destruct (Qeq_bool (fst a) (fst b)) eqn:E1.
  - apply Qeq_bool_iff in E1.
    destruct (Qeq_bool (snd a) (snd b)) eqn:E2.
    + apply Qeq_bool_iff in E2. intros _. right. split; lra.
    + intros H%Qltb_false. right. split; lra.
  - intros H%Qltb_false. apply Qeq_bool_neq in E1. left.
    destruct (Qlt_le_dec (fst b) (fst a)) as [Hlt|Hle]; [exact Hlt|].
    exfalso. apply E1. lra.
Qed.

Lemma Qeq_bool_sym x y : Qeq_bool x y = Qeq_bool y x.
Proof.
  destruct (Qeq_bool x y) eqn:E.
  - symmetry. apply Qeq_bool_iff. apply Qeq_bool_iff in E. lra.
  - symmetry. apply not_true_iff_false. rewrite Qeq_bool_iff.
    apply Qeq_bool_neq in E. intros H. apply E. lra.
Qed.

Lemma eq_numeric a b x y :
  PyObj.number a = Some x -> PyObj.number b = Some y ->
  PyObj.eq a b = Qeq_bool x y.
Proof.
  destruct a, b; simpl; intros Ha Hb; try discriminate;
    injection Ha as <-; injection Hb as <-; reflexivity.
Qed.

Lemma lt_numeric a b x y :
  PyObj.number a = Some x -> PyObj.number b = Some y ->
  PyObj.lt a b = Ok (Qltb x y).
Proof.
  destruct a, b; simpl; intros Ha Hb; try discriminate;
    injection Ha as <-; injection Hb as <-; reflexivity.
Qed.

Lemma sort_key_numbers p :
  priced p = true ->
  PyObj.number (fst (Main.sort_key p)) = Some (fst (price_key p)) /\
  PyObj.number (snd (Main.sort_key p)) = Some (snd (price_key p)).
Proof.
  unfold priced, Main.sort_key, price_key. destruct p as [k m]. simpl.
  intros [Hk Hm]%andb_true_iff. split.
  - destruct k; simpl in *; try reflexivity; discriminate.
  - destruct m; simpl in *; try reflexivity; discriminate.
Qed.

Lemma tuple_lt_priced p q :
  priced p = true -> priced q = true ->
  PyObj.tuple_lt (Main.sort_key p) (Main.sort_key q) =
    Ok (lex_ltb (price_key p) (price_key q)).
Proof.
  intros [Hp1 Hp2]%sort_key_numbers [Hq1 Hq2]%sort_key_numbers.
  unfold PyObj.tuple_lt, lex_ltb.
  rewrite (eq_numeric _ _ _ _ Hp1 Hq1), (eq_numeric _ _ _ _ Hp2 Hq2).
  rewrite (lt_numeric _ _ _ _ Hp1 Hq1), (lt_numeric _ _ _ _ Hp2 Hq2).
  destruct (Qeq_bool _ _); [destruct (Qeq_bool _ _)|]; reflexivity.
Qed.

Lemma tuple_gt_priced p q :
  priced p = true -> priced q = true ->
  PyObj.tuple_gt (Main.sort_key p) (Main.sort_key q) =
    Ok (lex_ltb (price_key q) (price_key p)).
Proof.
  intros [Hp1 Hp2]%sort_key_numbers [Hq1 Hq2]%sort_key_numbers.
  unfold PyObj.tuple_gt, PyObj.gt, lex_ltb.
  rewrite (eq_numeric _ _ _ _ Hp1 Hq1), (eq_numeric _ _ _ _ Hp2 Hq2).
  rewrite (lt_numeric _ _ _ _ Hq1 Hp1), (lt_numeric _ _ _ _ Hq2 Hp2).
  rewrite (Qeq_bool_sym (fst (price_key q))), (Qeq_bool_sym (snd (price_key q))).
  destruct (Qeq_bool _ _); [destruct (Qeq_bool _ _)|]; reflexivity.
Qed.

Lemma min_from_In rest : forall best lo,
  Main.min_from best rest = Ok lo -> In lo (best :: rest).
Proof.
  induction rest as [|p rest IH]; intros best lo; simpl.
  - intros [= ->]. auto.
  - destruct (PyObj.tuple_lt _ _) as [b| |]; simpl; try discriminate.
    intros H%IH. destruct b; simpl in H; tauto.
Qed.

Lemma max_from_In rest : forall best hi,
  Main.max_from best rest = Ok hi -> In hi (best :: rest).
Proof.
  induction rest as [|p rest IH]; intros best hi; simpl.
  - intros [= ->]. auto.
  - destruct (PyObj.tuple_gt _ _) as [b| |]; simpl; try discriminate.
    intros H%IH. destruct b; simpl in H; tauto.
Qed.

Lemma min_from_least rest : forall best lo,
  priced best = true -> Forall (fun p => priced p = true) rest ->
  Main.min_from best rest = Ok lo ->
  forall q, In q (best :: rest) -> key_le (price_key lo) (price_key q).
Proof.
  induction rest as [|p rest IH]; intros best lo Hb Hrest; simpl.
  - intros [= ->] q [<-|[]]. apply key_le_refl.
  - apply Forall_cons in Hrest as [Hp Hrest].
    rewrite (tuple_lt_priced p best Hp Hb). simpl.
    destruct (lex_ltb (price_key p) (price_key best)) eqn:E; intros Hmin q Hq.
    + pose proof (IH p lo Hp Hrest Hmin) as Hall.
      destruct Hq as [<-|[<-|Hq]].
      * eapply key_le_trans; [apply Hall; left; reflexivity | by apply lex_ltb_true].
      * apply Hall. left; reflexivity.
      * apply Hall. right; exact Hq.
    + pose proof (IH best lo Hb Hrest Hmin) as Hall.
      destruct Hq as [<-|[<-|Hq]].
      * apply Hall. left; reflexivity.
      * eapply key_le_trans; [apply Hall; left; reflexivity | by apply lex_ltb_false].
      * apply Hall. right; exact Hq.
Qed.

Lemma max_from_greatest rest : forall best hi,
  priced best = true -> Forall (fun p => priced p = true) rest ->
  Main.max_from best rest = Ok hi ->
  forall q, In q (best :: rest) -> key_le (price_key q) (price_key hi).
Proof.
  induction rest as [|p rest IH]; intros best hi Hb Hrest; simpl.
  - intros [= ->] q [<-|[]]. apply key_le_refl.
  - apply Forall_cons in Hrest as [Hp Hrest].
    rewrite (tuple_gt_priced p best Hp Hb). simpl.
    destruct (lex_ltb (price_key best) (price_key p)) eqn:E; intros Hmax q Hq.
    + pose proof (IH p hi Hp Hrest Hmax) as Hall.
      destruct Hq as [<-|[<-|Hq]].
      * eapply key_le_trans; [by apply lex_ltb_true | apply Hall; left; reflexivity].
      * apply Hall. left; reflexivity.
      * apply Hall. right; exact Hq.
    + pose proof (IH best hi Hb Hrest Hmax) as Hall.
      destruct Hq as [<-|[<-|Hq]].
      * apply Hall. left; reflexivity.
      * eapply key_le_trans; [by apply lex_ltb_false | apply Hall; left; reflexivity].
      * apply Hall. right; exact Hq.
Qed.

Lemma eq_string_literal v s :
  PyObj.eq v (JString s) = match v with JString t => String.eqb t s | _ => false end.
Proof. destruct v; reflexivity. Qed.

Lemma add_listing_spec sells buys lst sells' buys' :
  Main.add_listing (sells, buys) lst = Ok (sells', buys') ->
  sells' = (sells ++ prices_on Sell [lst])%list /\
  buys' = (buys ++ prices_on Buy [lst])%list.
Proof.
  unfold Main.add_listing, prices_on, on_side, listing_price.
  destruct lst as [| | | | | |items]; try discriminate.
  cbn [PyObj.get mbind result_bind entry List.filter map].
  set (intent := default JNull (PyObj.assoc "intent" items)).
  set (cur := default JNull (PyObj.assoc "currencies" items)).
  rewrite !eq_string_literal.
  assert (Hcur : forall k,
    PyObj.get (if PyObj.truthy cur then cur else JDict []) k = Ok (entry k cur) \/
    PyObj.get (if PyObj.truthy cur then cur else JDict []) k = Raise AttributeError).
  { intros k. destruct cur as [|[]|n|x|s|l|its]; simpl; auto.
    - destruct (n =? 0); simpl; auto.
    - destruct (Qeq_bool x 0); simpl; auto.
    - destruct (String.eqb s ""); simpl; auto.
    - destruct l; simpl; auto.
    - destruct its; simpl; auto. }
  destruct (Hcur "keys") as [-> | ->]; [|discriminate].
  destruct (Hcur "metal") as [-> | ->]; [|discriminate].
  cbn [mbind result_bind].
  destruct intent as [|[]|n|x|s|l|its]; simpl;
    try (intros [= <- <-]; rewrite ?app_nil_r; split; reflexivity).
  - destruct (n =? 0); simpl; intros [= <- <-]; rewrite ?app_nil_r; split; reflexivity.
  - destruct (String.eqb s "sell") eqn:Es.
    + apply String.eqb_eq in Es. subst s. simpl.
      intros [= <- <-]; rewrite ?app_nil_r; split; reflexivity.
    + destruct (String.eqb s "buy"); simpl;
        intros [= <- <-]; rewrite ?app_nil_r; split; reflexivity.
Qed.

Lemma prices_on_cons sd lst ls :
  prices_on sd (lst :: ls) = (prices_on sd [lst] ++ prices_on sd ls)%list.
Proof. unfold prices_on. simpl. destruct (on_side sd lst); reflexivity. Qed.

Lemma split_listings_spec ls : forall sells buys sells' buys',
  Main.split_listings ls (sells, buys) = Ok (sells', buys') ->
  sells' = (sells ++ prices_on Sell ls)%list /\
  buys' = (buys ++ prices_on Buy ls)%list.
Proof.
  induction ls as [|lst ls IH]; intros sells buys sells' buys';
    cbn [Main.split_listings].
  - intros [= <- <-]. unfold prices_on; simpl. by rewrite !app_nil_r.
  - destruct (Main.add_listing (sells, buys) lst) as [[s1 b1]| |] eqn:E;
      cbn [mbind result_bind]; try discriminate.
    intros H. apply add_listing_spec in E as [-> ->]. apply IH in H as [-> ->].
    rewrite !(prices_on_cons _ lst ls), !app_assoc. split; reflexivity.
Qed.

(** C6, as the code has it.  The normaliser splits the extracted listings
    by intent: buys are those with integer intent 0 or the string "buy",
    sells those with any other integer or the string "sell" (a boolean
    counting as the integer 0 or 1), every other listing is dropped.  The
    lowest sell is a sell price and the highest buy a buy price; when the
    price components are numbers or missing, no sell has a lexicographically
    smaller (keys, metal) pair than the lowest sell and no buy a larger one
    than the highest buy, a missing component being compared as 10^9.  On
    the example payload there are 1 buy and 1 sell, the lowest sell is
    {keys: None, metal: 5} and the highest buy {keys: 1, metal: 10}. *)
Theorem market_listings_sides_and_extremes :
  (forall data r, Main.market_listings data = Ok r ->
     exists listings,
       Main._extract_listings data = Ok listings /\
       let sells := prices_on Sell listings in
       let buys := prices_on Buy listings in
       Main.sell_count r = Z.of_nat (length sells) /\
       Main.buy_count r = Z.of_nat (length buys) /\
       (Main.lowest_sell r = None <-> sells = []) /\
       (Main.highest_buy r = None <-> buys = []) /\
       (forall lo, Main.lowest_sell r = Some lo ->
          In lo sells /\
          (Forall (fun p => priced p = true) sells ->
           forall q, In q sells -> key_le (price_key lo) (price_key q))) /\
       (forall hi, Main.highest_buy r = Some hi ->
          In hi buys /\
          (Forall (fun p => priced p = true) buys ->
           forall q, In q buys -> key_le (price_key q) (price_key hi)))) /\
  Main.market_listings example_payload =
    Ok {| Main.sell_count := 1; Main.buy_count := 1;
          Main.lowest_sell := Some {| Main.keys := JNull; Main.metal := JInt 5 |};
          Main.highest_buy := Some {| Main.keys := JInt 1; Main.metal := JInt 10 |} |}.
Proof.
  split; [|vm_compute; reflexivity].
  intros data r. unfold Main.market_listings.
  destruct (Main._extract_listings data) as [listings| |];
    cbn [mbind result_bind]; try discriminate.
  destruct (Main.split_listings listings ([], [])) as [[sells buys]| |] eqn:Hsplit;
    cbn [mbind result_bind]; try discriminate.
  apply split_listings_spec in Hsplit as [Hs Hb]. simpl in Hs, Hb.
  intros Hr. exists listings. split; [reflexivity|].
  cbv zeta. rewrite <- Hs, <- Hb. clear Hs Hb.
  destruct sells as [|s0 sells].
  - destruct buys as [|b0 buys].
    + injection Hr as <-. cbn. repeat split; intros; discriminate.
    + destruct (Main.max_from b0 buys) as [hi| |] eqn:Hmax;
        cbn [mbind result_bind] in Hr; try discriminate.
      injection Hr as <-. cbn [Main.sell_count Main.buy_count Main.lowest_sell
                               Main.highest_buy].
      split; [reflexivity|]. split; [reflexivity|]. split; [tauto|].
      split; [split; discriminate|]. split; [discriminate|].
      intros hi' [= <-]. split; [by apply max_from_In in Hmax|].
      intros HF q Hq. apply Forall_cons in HF as [H0 HF].
      exact (max_from_greatest _ _ _ H0 HF Hmax q Hq).
  - destruct (Main.min_from s0 sells) as [lo| |] eqn:Hmin;
      cbn [mbind result_bind] in Hr; try discriminate.
    assert (Hlo : forall lo', Some lo = Some lo' ->
              In lo' (s0 :: sells) /\
              (Forall (fun p => priced p = true) (s0 :: sells) ->
               forall q, In q (s0 :: sells) -> key_le (price_key lo') (price_key q))).
    { intros lo' [= <-]. split; [by apply min_from_In in Hmin|].
      intros HF q Hq. apply Forall_cons in HF as [H0 HF].
      exact (min_from_least _ _ _ H0 HF Hmin q Hq). }
    destruct buys as [|b0 buys].
    + injection Hr as <-. cbn [Main.sell_count Main.buy_count Main.lowest_sell
                               Main.highest_buy].
      split; [reflexivity|]. split; [reflexivity|]. split; [split; discriminate|].
      split; [tauto|]. split; [exact Hlo | discriminate].
    + destruct (Main.max_from b0 buys) as [hi| |] eqn:Hmax;
        cbn [mbind result_bind] in Hr; try discriminate.
      injection Hr as <-. cbn [Main.sell_count Main.buy_count Main.lowest_sell
                               Main.highest_buy].
      split; [reflexivity|]. split; [reflexivity|]. split; [split; discriminate|].
      split; [split; discriminate|]. split; [exact Hlo|].
      intros hi' [= <-]. split; [by apply max_from_In in Hmax|].
      intros HF q Hq. apply Forall_cons in HF as [H0 HF].
      exact (max_from_greatest _ _ _ H0 HF Hmax q Hq).
Qed.

Lemma market_listings_sides_and_extremes_witness :
  exists listings,
    Main._extract_listings example_payload = Ok listings /\
    prices_on Sell listings = [{| Main.keys := JNull; Main.metal := JInt 5 |}] /\
    prices_on Buy listings = [{| Main.keys := JInt 1; Main.metal := JInt 10 |}].
Proof.
  destruct (proj1 market_listings_sides_and_extremes example_payload
              {| Main.sell_count := 1; Main.buy_count := 1;
                 Main.lowest_sell := Some {| Main.keys := JNull; Main.metal := JInt 5 |};
                 Main.highest_buy := Some {| Main.keys := JInt 1; Main.metal := JInt 10 |} |}
              eq_refl) as (listings & Hl & _).
  exists listings. split; [exact Hl|].
  vm_compute in Hl. injection Hl as <-. split; reflexivity.
Defined.

(** C6 as stated fails on the treatment of a missing component: of two
    sells, one at 2*10^9 keys and one naming no keys, the normaliser reports
    the keyless one as the lowest, while with a missing value as +infinity
    the other is the smaller. *)
Lemma lowest_sell_missing_keys_below_large :
  Main.market_listings dear_payload =
    Ok {| Main.sell_count := 2; Main.buy_count := 0;
          Main.lowest_sell := Some keyless; Main.highest_buy := None |} /\
  ~ lowest_by_infinity keyless [dear; keyless].
Proof.
  split; [vm_compute; reflexivity|].
  intros H. specialize (H dear (or_introl eq_refl)).
  destruct H as [H | [H _]]; exact H.
Qed.

End Normaliser.

Section Watchlist.
Import Vocabulary Fixtures.

Lemma create_item_duplicate payload st :
  Main.sku_present (Main.WatchlistCreate.sku payload) st = true ->
  Main.create_item payload st =
    (Raise (HTTPException 409 "sku already exists in watchlist"), st).
Proof.
  intros H. unfold Main.create_item, Main.insert_watchlist. rewrite H. reflexivity.
Qed.

Lemma create_item_then_get payload st :
  Main.sku_present (Main.WatchlistCreate.sku payload) st = false ->
  Main.WatchlistCreate.validate payload = Ok payload ->
  exists item st',
    Main.create_item payload st = (Ok item, st') /\
    Main.WatchlistItem.fields item = payload /\
    Main.get_item (Main.WatchlistItem.id item) st' = Ok item.
Proof.
  intros Hs Hv. unfold Main.create_item, Main.insert_watchlist. rewrite Hs.
  cbn [Main.rows]. rewrite lookup_insert_eq.
  destruct payload as [s n p nt]. cbn [Main.row_to_item Main.WatchlistCreate.sku
    Main.WatchlistCreate.name Main.WatchlistCreate.target_price_ref
    Main.WatchlistCreate.note].
  rewrite Hv. cbn [mbind result_bind].
  eexists _, _. split; [reflexivity|]. split; [reflexivity|].
  unfold Main.get_item. cbn [Main.rows Main.WatchlistItem.id].
  rewrite lookup_insert_eq. cbn [Main.row_to_item]. rewrite Hv. reflexivity.
Qed.

(** C9 at the failing input.  The request has a valid sku and price and the
    name "a " (two characters, as the length check wants).  Validation
    strips the name to "a"; the handler inserts the row and then fails to
    build its answer from it, because the stored name is now shorter than
    two characters.  The store has the new row, Create has raised, and Read
    of the new id raises as well. *)
Theorem create_item_name_with_trailing_space :
  Main.WatchlistCreate.validate key_request =
    Ok {| Main.WatchlistCreate.sku := "5021;6"; Main.WatchlistCreate.name := "a";
          Main.WatchlistCreate.target_price_ref := 80;
          Main.WatchlistCreate.note := None |} /\
  Main.post_watchlist key_request empty_watchlist =
    (Raise ValidationError,
     {| Main.rows := {[ 1 := (1, "5021;6", "a", 80%Q, None) ]};
        Main.sequence := 1 |}) /\
  Main.get_item 1 (snd (Main.post_watchlist key_request empty_watchlist)) =
    Raise ValidationError.
Proof. split; [|split]; vm_compute; reflexivity. Qed.

End Watchlist.

(** * Further properties *)

(** ** What every handler leaves alone *)

Section Preservation.
Import Database Discipline.

Variable R : store -> store -> Prop.
Hypothesis R_refl : forall st, R st st.
Hypothesis R_trans : forall a b c, R a b -> R b c -> R a c.

Lemma preserves_ret {A} (a : A) : preserves R (mret a).
Proof using R_refl. intros c. apply R_refl. Qed.

Lemma preserves_raise {A} e : preserves R (@raise A e).
Proof using R_refl. intros c. apply R_refl. Qed.

Lemma preserves_unmodelled {A} : preserves R (@unmodelled A).
Proof using R_refl. intros c. apply R_refl. Qed.

Lemma preserves_execute {A} (stmt : store -> A * store) :
  (forall st, R st (snd (stmt st))) -> preserves R (execute stmt).
Proof using R_refl.
  intros H c. unfold execute. case_bool_decide; simpl; [apply R_refl|].
  specialize (H (db c)). destruct (stmt (db c)). exact H.
Qed.

Lemma preserves_query {A} (q : store -> A) : preserves R (execute (query q)).
Proof using R_refl. apply preserves_execute. intros st. apply R_refl. Qed.

Lemma preserves_bind {A B} (h : DB A) (k : A -> DB B) :
  preserves R h -> (forall a, preserves R (k a)) -> preserves R (h ≫= k).
Proof using R_trans.
  intros Hh Hk c. unfold mbind, DB_bind.
  specialize (Hh c). destruct (h c) as [[a|e|] c']; simpl in *; try exact Hh.
  eapply R_trans; [exact Hh | apply Hk].
Qed.

Lemma preserves_run {A} (h : DB A) st fault :
  preserves R h -> R st (snd (run h st fault)).
Proof using Type.
  intros H. unfold run. specialize (H (get_db st fault)).
  destruct (h (get_db st fault)). exact H.
Qed.

End Preservation.

Section Frames.
Import Database Frames Discipline Fixtures.

Lemma serve_preserves R req user st fault :
  all_preserve R -> R st (serve req user st fault).
Proof.
  intros H. specialize (H req user).
  destruct req; simpl; by apply preserves_run.
Qed.

Lemma serve_all_preserves R reqs :
  (forall st, R st st) -> (forall a b c, R a b -> R b c -> R a c) ->
  all_preserve R -> forall st, R st (serve_all reqs st).
Proof.
  intros Hrefl Htrans H. induction reqs as [|[[req user] fault] reqs IH]; intros st; cbn [serve_all].
  - apply Hrefl.
  - exact (Htrans _ _ _ (serve_preserves R req user st fault H) (IH _)).
Qed.

Ltac step R Hrefl Htrans :=
  first
    [ apply (preserves_bind R Htrans); [|intros ?]
    | apply (preserves_query R Hrefl)
    | apply (preserves_ret R Hrefl)
    | apply (preserves_raise R Hrefl)
    | apply (preserves_unmodelled R Hrefl)
    | match goal with
      | |- preserves _ (if ?b then _ else _) => destruct b eqn:?
      | |- preserves _ (match ?x with _ => _ end) => destruct x eqn:?
      end
    | apply (preserves_execute R Hrefl); intros ? ].

Ltac handlers R Hrefl Htrans :=
  intros req user; destruct req;
  unfold Items.update_item, Items.delete_item, Orders.create_order,
    Orders.cancel_order, Reads.get_order, Wallet.confirm_deposit,
    Wallet.withdraw, Reads.get_balance;
  repeat step R Hrefl Htrans.

Lemma logs_grow_refl st : logs_grow st st.
Proof. split; reflexivity. Qed.

Lemma logs_grow_trans a b c : logs_grow a b -> logs_grow b c -> logs_grow a c.
Proof. intros [H1 H2] [H3 H4]. split; etrans; eauto. Qed.

Lemma handlers_logs_grow : all_preserve logs_grow.
Proof.
  handlers logs_grow logs_grow_refl logs_grow_trans.
  all: simpl; split; try reflexivity; try apply prefix_app_r; reflexivity.
Qed.

Lemma orders_kept_refl st : orders_kept st st.
Proof. intros H. split; [exact H|]. intros k o Ho. exists o. by repeat split. Qed.

Lemma orders_kept_trans a b c : orders_kept a b -> orders_kept b c -> orders_kept a c.
Proof.
  intros H1 H2 Ha. destruct (H1 Ha) as [Hb K1]. destruct (H2 Hb) as [Hc K2].
  split; [exact Hc|]. intros k o Ho.
  destruct (K1 k o Ho) as (o' & Ho' & T1). destruct (K2 k o' Ho') as (o'' & Ho'' & T2).
  exists o''. split; [exact Ho''|].
  unfold same_order_terms in *. intuition congruence.
Qed.

Lemma orders_kept_same st st' :
  orders st' = orders st -> orders_auto_increment st' = orders_auto_increment st ->
  orders_kept st st'.
Proof.
  intros E1 E2 H. split.
  - intros k o. rewrite E1, E2. apply H.
  - intros k o Ho. exists o. rewrite E1. by repeat split.
Qed.

Lemma orders_kept_status s tx i st : orders_kept st (set_order_status s tx i st).
Proof.
  intros H. split.
  - intros k o. simpl. rewrite lookup_alter.
    case_decide; [subst|apply H].
    destruct (orders st !! k) as [o0|] eqn:E; simpl; [|discriminate].
    intros _. by apply (H k o0).
  - intros k o Ho. simpl. rewrite lookup_alter. case_decide.
    + subst. rewrite Ho. simpl. eexists. split; [reflexivity|]. by repeat split.
    + exists o. by repeat split.
Qed.

Lemma orders_kept_insert b i q t n a st :
  orders_kept st (snd (Orders.insert_order b i q t n a st)).
Proof.
  intros H. split.
  - intros k o. simpl. rewrite lookup_insert. case_decide; [subst; lia|].
    intros Ho. specialize (H k o Ho). lia.
  - intros k o Ho. simpl. exists o. split; [|by repeat split].
    rewrite lookup_insert_ne; [exact Ho|]. specialize (H k o Ho). lia.
Qed.

Lemma handlers_orders_kept : all_preserve orders_kept.
Proof.
  handlers orders_kept orders_kept_refl orders_kept_trans.
  all: try apply orders_kept_status; try apply orders_kept_insert;
    by apply orders_kept_same.
Qed.

Lemma items_kept_refl st : items_kept st st.
Proof. intros k i Hi. exists i. by repeat split. Qed.

Lemma items_kept_trans a b c : items_kept a b -> items_kept b c -> items_kept a c.
Proof.
  intros K1 K2 k i Hi.
  destruct (K1 k i Hi) as (i' & Hi' & T1). destruct (K2 k i' Hi') as (i'' & Hi'' & T2).
  exists i''. split; [exact Hi''|]. unfold same_item_identity in *. intuition congruence.
Qed.

Lemma items_kept_same st st' : items st' = items st -> items_kept st st'.
Proof. intros E k i Hi. exists i. rewrite E. by repeat split. Qed.

Lemma items_kept_alter f j st :
  (forall i, same_item_identity i (f i)) -> items_kept st (set_items (alter f j) st).
Proof.
  intros Hf k i Hi. simpl. rewrite lookup_alter. case_decide.
  - subst. rewrite Hi. simpl. eexists. split; [reflexivity | apply Hf].
  - exists i. by repeat split.
Qed.

Lemma handlers_items_kept : all_preserve items_kept.
Proof.
  handlers items_kept items_kept_refl items_kept_trans.
  all: try (apply items_kept_alter; intros; by repeat split);
    by apply items_kept_same.
Qed.









Lemma balances_kept_refl st : balances_kept st st.
Proof. reflexivity. Qed.

Lemma balances_kept_trans a b c :
  balances_kept a b -> balances_kept b c -> balances_kept a c.
Proof. unfold balances_kept. congruence. Qed.

Lemma handlers_balances_kept req user st fault :
  leaves_balances req = true -> balances_kept st (serve req user st fault).
Proof.
  intros Hreq. destruct req; try discriminate; simpl; apply preserves_run;
    unfold Items.update_item, Items.delete_item, Orders.create_order,
      Orders.cancel_order, Reads.get_order, Reads.get_balance;
    repeat step balances_kept balances_kept_refl balances_kept_trans;
    reflexivity.
Qed.







(** X1.  Whatever requests are served, with whatever failures, the
    transaction ledger and the inventory log only grow at the end: no entry
    is removed or rewritten. *)
Theorem session_logs_append_only reqs st : logs_grow st (serve_all reqs st).
Proof.
  apply (serve_all_preserves logs_grow);
    [exact logs_grow_refl | exact logs_grow_trans | exact handlers_logs_grow].
Qed.

Lemma session_logs_append_only_witness :
  logs_grow shop (serve_all Fixtures2.busy_session shop).
Proof. exact (session_logs_append_only Fixtures2.busy_session shop). Defined.

(** X2.  No request deletes an order or rewrites what it is about: id,
    buyer, item, quantity, amount, network and payment address of every
    order stay as they were created, whatever is served afterwards (a later
    price change of the item included). *)
Theorem session_orders_terms_fixed reqs st k o :
  order_ids_fresh st ->
  orders st !! k = Some o ->
  exists o', orders (serve_all reqs st) !! k = Some o' /\ same_order_terms o o'.
Proof.
  intros Hf Ho.
  exact (proj2 (serve_all_preserves orders_kept reqs orders_kept_refl orders_kept_trans
                  handlers_orders_kept st Hf) k o Ho).
Qed.

Lemma session_orders_terms_fixed_witness :
  order_ids_fresh shop /\ orders shop !! 1 = Some order1 /\
  exists o', orders (serve_all Fixtures2.busy_session shop) !! 1 = Some o' /\
             same_order_terms order1 o'.
Proof.
  assert (H : order_ids_fresh shop).
  { intros k o Hk. unfold shop in Hk; simpl in Hk.
    apply lookup_singleton_Some in Hk as [<- _]. reflexivity. }
  split; [exact H|]. split; [reflexivity|].
  exact (session_orders_terms_fixed Fixtures2.busy_session shop 1 order1 H eq_refl).
Defined.

(** X3.  No request deletes an item or changes its id, seller, type or
    network: a listing cannot be moved to another seller. *)
Theorem session_items_identity_fixed reqs st k i :
  items st !! k = Some i ->
  exists i', items (serve_all reqs st) !! k = Some i' /\ same_item_identity i i'.
Proof.
  exact (serve_all_preserves items_kept reqs items_kept_refl items_kept_trans
           handlers_items_kept st k i).
Qed.

Lemma session_items_identity_fixed_witness :
  items shop !! 3 = Some item3 /\
  exists i', items (serve_all Fixtures2.busy_session shop) !! 3 = Some i' /\
             same_item_identity item3 i'.
Proof.
  split; [reflexivity|].
  exact (session_items_identity_fixed Fixtures2.busy_session shop 3 item3 eq_refl).
Defined.





(** X6.  Only deposit confirmation and withdrawal write balances: every
    other request leaves all balances as they are, failure or not. *)
Theorem only_wallet_writes_balances req user st fault :
  leaves_balances req = true -> balances (serve req user st fault) = balances st.
Proof. apply handlers_balances_kept. Qed.

Lemma only_wallet_writes_balances_witness :
  leaves_balances (DeleteItem 3) = true /\
  balances (serve (DeleteItem 3) seller1 shop None) = balances shop.
Proof.
  split; [reflexivity|].
  exact (only_wallet_writes_balances (DeleteItem 3) seller1 shop None eq_refl).
Defined.

Lemma reads_clean {A} (h : DB A) : reads h -> clean h.
Proof. intros H c Hc _. by apply H. Qed.

Lemma writes_clean {A} (h : DB A) : writes h -> clean h.
Proof. intros H c Hc Hr. destruct (H c Hc) as [Hok _]. congruence. Qed.

Lemma reads_raise {A} e : reads (@raise A e).
Proof. intros c Hc. auto. Qed.

Lemma reads_unmodelled {A} : reads (@unmodelled A).
Proof. intros c Hc. auto. Qed.

Lemma reads_query {A} (q : store -> A) : reads (execute (query q)).
Proof. intros c Hc. unfold execute, query. rewrite Hc. simpl. auto. Qed.

Lemma writes_query {A} (q : store -> A) : writes (execute (query q)).
Proof. intros c Hc. unfold execute, query. rewrite Hc. simpl. auto. Qed.

Lemma writes_execute {A} (stmt : store -> A * store) : writes (execute stmt).
Proof.
  intros c Hc. unfold execute. rewrite Hc. simpl. destruct (stmt (db c)). simpl. auto.
Qed.

Lemma writes_ret {A} (a : A) : writes (mret a).
Proof. intros c Hc. auto. Qed.

Lemma writes_bind {A B} (h : DB A) (k : A -> DB B) :
  writes h -> (forall a, writes (k a)) -> writes (h ≫= k).
Proof.
  intros Hh Hk c Hc. unfold mbind, DB_bind.
  destruct (Hh c Hc) as [Hok Hf]. destruct (h c) as [[a| |] c']; try discriminate.
  by apply Hk.
Qed.

Lemma clean_after_reads {A B} (h : DB A) (k : A -> DB B) :
  reads h -> (forall a, clean (k a)) -> clean (h ≫= k).
Proof.
  intros Hh Hk c Hc. unfold mbind, DB_bind.
  destruct (Hh c Hc) as [Hdb Hf]. destruct (h c) as [[a| |] c']; simpl in *; auto.
  intros Hr. rewrite <- Hdb. by apply Hk.
Qed.

Lemma clean_run {A} (h : DB A) st :
  clean h -> is_ok (fst (run h st None)) = false -> snd (run h st None) = st.
Proof.
  intros H. unfold run. specialize (H (get_db st None) eq_refl).
  destruct (h (get_db st None)). exact H.
Qed.

Ltac clean_step :=
  first
    [ match goal with
      | |- clean (if ?b then _ else _) => destruct b
      | |- clean (match ?x with _ => _ end) => destruct x
      end
    | apply clean_after_reads; [apply reads_query | intros ?]
    | apply reads_clean; first [apply reads_raise | apply reads_unmodelled | apply reads_query]
    | solve [ apply writes_clean;
              repeat first [ apply writes_bind; [|intros ?] | apply writes_execute
                           | apply writes_ret ] ] ].

(** X7.  With no database failure, a request that does not succeed writes
    nothing: every check of every handler comes before its first write. *)
Theorem failed_request_writes_nothing req user st :
  served_ok req user st None = false -> serve req user st None = st.
Proof.
  destruct req; cbn [serve served_ok]; apply clean_run;
    unfold Items.update_item, Items.delete_item, Orders.create_order,
      Orders.cancel_order, Reads.get_order, Wallet.confirm_deposit,
      Wallet.withdraw, Reads.get_balance;
    repeat clean_step.
Qed.

Lemma failed_request_writes_nothing_witness :
  served_ok (CancelOrder 1) stranger shop None = false /\
  serve (CancelOrder 1) stranger shop None = shop.
Proof.
  split; [reflexivity|].
  exact (failed_request_writes_nothing (CancelOrder 1) stranger shop eq_refl).
Defined.

End Frames.

(** ** Orders through their life *)

Section Flows.
Import Database Vocabulary Frames Fixtures.

Lemma cancel_order_cases order_id user st o :
  orders st !! order_id = Some o ->
  Order.buyer_id o = User.user_id user ->
  run (Orders.cancel_order order_id user) st None =
    if String.eqb (Order.status o) "pending" then
      (Ok "Order cancelled successfully", set_order_status "cancelled" None order_id st)
    else (Raise (HTTPException 409 "Only pending orders can be cancelled"), st).
Proof.
  intros Ho Hb. unfold run, Orders.cancel_order, mbind, DB_bind, execute, query; simpl.
  rewrite Ho; simpl. apply Z.eqb_eq in Hb. rewrite Hb. simpl.
  destruct (String.eqb _ _); reflexivity.
Qed.

Lemma cancel_order_ok_inv order_id user st msg st1 :
  run (Orders.cancel_order order_id user) st None = (Ok msg, st1) ->
  exists o, orders st !! order_id = Some o /\
            Order.buyer_id o = User.user_id user /\
            Order.status o = "pending" /\
            st1 = set_order_status "cancelled" None order_id st.
Proof.
  unfold run, Orders.cancel_order, mbind, DB_bind, execute, query; simpl.
  destruct (orders st !! order_id) as [o|] eqn:Ho; simpl; [|discriminate].
  destruct (Order.buyer_id o =? User.user_id user) eqn:Hb; simpl; [|discriminate].
  destruct (String.eqb (Order.status o) "pending") eqn:Hs; simpl; [|discriminate].
  intros [= _ <-]. exists o. apply Z.eqb_eq in Hb. apply String.eqb_eq in Hs. auto.
Qed.

Lemma pending_order_inv body st o :
  pending_order body st = Some o ->
  orders st !! DepositConfirm.order_id body = Some o /\ Order.status o = "pending".
Proof.
  unfold pending_order. destruct (_ && _); [|discriminate].
  destruct (orders st !! _) as [o'|]; [|discriminate].
  destruct (String.eqb (Order.status o') "pending") eqn:E; [|discriminate].
  intros [= <-]. apply String.eqb_eq in E. auto.
Qed.

Lemma pending_order_not_pending body st o :
  orders st !! DepositConfirm.order_id body = Some o ->
  Order.status o <> "pending" ->
  pending_order body st = None.
Proof.
  intros Ho Hs. unfold pending_order. rewrite Ho.
  apply String.eqb_neq in Hs. rewrite Hs. by destruct (_ && _).
Qed.

(** X8.  A deposit is credited once.  After a confirmation has gone
    through, any further confirmation naming the same order is refused and
    writes nothing, whatever its tx_hash, amount or caller. *)
Theorem confirmed_deposit_cannot_be_replayed body user st o body' user' fault :
  pending_order body st = Some o ->
  Order.id o = DepositConfirm.order_id body ->
  DepositConfirm.order_id body' = DepositConfirm.order_id body ->
  let st1 := snd (run (Wallet.confirm_deposit body user) st None) in
  is_ok (fst (run (Wallet.confirm_deposit body' user') st1 fault)) = false /\
  snd (run (Wallet.confirm_deposit body' user') st1 fault) = st1.
Proof.
  intros Hp Hid Hsame st1. apply confirm_deposit_rejected.
  destruct (confirm_deposit_faults body user st o Hp) as (H1 & _).
  subst st1. rewrite H1. cbn [snd].
  destruct (pending_order_inv _ _ _ Hp) as [Ho _].
  eapply pending_order_not_pending.
  - rewrite Hsame. simpl. rewrite Hid, lookup_alter_eq, Ho. reflexivity.
  - discriminate.
Qed.

Lemma confirmed_deposit_cannot_be_replayed_witness :
  pending_order deposit9 shop = Some order1 /\
  Order.id order1 = DepositConfirm.order_id deposit9 /\
  let st1 := snd (run (Wallet.confirm_deposit deposit9 stranger) shop None) in
  snd (run (Wallet.confirm_deposit deposit9 buyer2) st1 None) = st1.
Proof.
  split; [reflexivity|]. split; [reflexivity|].
  exact (proj2 (confirmed_deposit_cannot_be_replayed deposit9 stranger shop order1
                  deposit9 buyer2 None eq_refl eq_refl eq_refl)).
Defined.

(** X9.  Cancelling and paying exclude each other.  Once an order is
    cancelled, a deposit confirmation for it is refused and a second cancel
    gets Conflict; once it is paid, the buyer's cancel gets Conflict.  None
    of the refused requests writes anything. *)
Theorem cancel_and_pay_exclude_each_other st :
  (forall order_id user msg st1,
     run (Orders.cancel_order order_id user) st None = (Ok msg, st1) ->
     (forall body user' fault, DepositConfirm.order_id body = order_id ->
        is_ok (fst (run (Wallet.confirm_deposit body user') st1 fault)) = false /\
        snd (run (Wallet.confirm_deposit body user') st1 fault) = st1) /\
     Conflict (fst (run (Orders.cancel_order order_id user) st1 None)) /\
     snd (run (Orders.cancel_order order_id user) st1 None) = st1) /\
  (forall body user o buyer,
     pending_order body st = Some o ->
     Order.id o = DepositConfirm.order_id body ->
     User.user_id buyer = Order.buyer_id o ->
     let st1 := snd (run (Wallet.confirm_deposit body user) st None) in
     Conflict (fst (run (Orders.cancel_order (DepositConfirm.order_id body) buyer) st1 None)) /\
     snd (run (Orders.cancel_order (DepositConfirm.order_id body) buyer) st1 None) = st1).
Proof.
  split.
  - intros order_id user msg st1 Hrun.
    destruct (cancel_order_ok_inv _ _ _ _ _ Hrun) as (o & Ho & Hb & Hs & ->).
    assert (Ho' : orders (set_order_status "cancelled" None order_id st) !! order_id =
                  Some {| Order.id := Order.id o; Order.buyer_id := Order.buyer_id o;
                          Order.item_id := Order.item_id o; Order.quantity := Order.quantity o;
                          Order.amount_usdt := Order.amount_usdt o;
                          Order.network := Order.network o;
                          Order.payment_address := Order.payment_address o;
                          Order.status := "cancelled"; Order.tx_hash := Order.tx_hash o |}).
    { simpl. by rewrite lookup_alter_eq, Ho. }
    split.
    + intros body user' fault <-. apply confirm_deposit_rejected.
      eapply pending_order_not_pending; [exact Ho' | discriminate].
    + rewrite (cancel_order_cases _ _ _ _ Ho' Hb). simpl.
      split; [eexists; reflexivity | reflexivity].
  - intros body user o buyer Hp Hid Hbuyer st1.
    destruct (confirm_deposit_faults body user st o Hp) as (H1 & _).
    destruct (pending_order_inv _ _ _ Hp) as [Ho _].
    subst st1. rewrite H1. cbn [snd].
    set (st1 := apply_writes (Wallet.deposit_writes o body) st).
    assert (Ho' : orders st1 !! DepositConfirm.order_id body =
                  Some {| Order.id := Order.id o; Order.buyer_id := Order.buyer_id o;
                          Order.item_id := Order.item_id o; Order.quantity := Order.quantity o;
                          Order.amount_usdt := Order.amount_usdt o;
                          Order.network := Order.network o;
                          Order.payment_address := Order.payment_address o;
                          Order.status := "paid";
                          Order.tx_hash := Some (DepositConfirm.tx_hash body) |}).
    { subst st1. simpl. rewrite <- Hid in Ho |- *. by rewrite lookup_alter_eq, Ho. }
    rewrite (cancel_order_cases _ _ _ _ Ho' (eq_sym Hbuyer)). simpl.
    split; [eexists; reflexivity | reflexivity].
Qed.

Lemma cancel_and_pay_exclude_each_other_witness :
  pending_order deposit9 shop = Some order1 /\
  Order.id order1 = DepositConfirm.order_id deposit9 /\
  User.user_id buyer2 = Order.buyer_id order1 /\
  Conflict (fst (run (Orders.cancel_order 1 buyer2)
                   (snd (run (Wallet.confirm_deposit deposit9 stranger) shop None)) None)).
Proof.
  split; [reflexivity|]. split; [reflexivity|]. split; [reflexivity|].
  exact (proj1 (proj2 (cancel_and_pay_exclude_each_other shop) deposit9 stranger order1
                  buyer2 eq_refl eq_refl eq_refl)).
Defined.

Lemma create_order_ok_inv token_hex body user st r st1 :
  run (Orders.create_order token_hex body user) st None = (Ok r, st1) ->
  exists item,
    items st !! OrderCreate.item_id body = Some item /\
    Item.status item = "active" /\
    Item.seller_id item <> User.user_id user /\
    OrderCreate.quantity body <= Item.quantity item /\
    r = Some (new_order token_hex body user item st) /\
    items st1 = items st.
Proof.
  destruct (items st !! OrderCreate.item_id body) as [item|] eqn:Hi.
  2:{ rewrite (create_order_missing_item _ _ _ _ Hi). discriminate. }
  rewrite (create_order_cases _ _ _ _ _ Hi).
  destruct (String.eqb (Item.status item) "active") eqn:Hs; simpl; [|discriminate].
  destruct (Item.seller_id item =? User.user_id user) eqn:Hb; [discriminate|].
  destruct (Item.quantity item <? OrderCreate.quantity body) eqn:Hq; [discriminate|].
  intros [= <- <-]. exists item.
  apply String.eqb_eq in Hs. apply Z.eqb_neq in Hb. apply Z.ltb_ge in Hq. auto 10.
Qed.

(** X10.  Placing an order reserves nothing: it leaves the item's quantity
    and status as they are, so after one buyer has ordered, any other buyer
    can still order the same item for the same quantity. *)
Theorem create_order_reserves_nothing token_hex body user st r st1 token_hex' user' :
  run (Orders.create_order token_hex body user) st None = (Ok r, st1) ->
  (forall item, items st !! OrderCreate.item_id body = Some item ->
     Item.seller_id item <> User.user_id user') ->
  items st1 = items st /\
  is_ok (fst (run (Orders.create_order token_hex' body user') st1 None)) = true.
Proof.
  intros Hrun Hother.
  destruct (create_order_ok_inv _ _ _ _ _ _ Hrun) as (item & Hi & Hs & _ & Hq & _ & Hitems).
  split; [exact Hitems|].
  assert (Hi1 : items st1 !! OrderCreate.item_id body = Some item) by (by rewrite Hitems).
  rewrite (create_order_cases _ _ _ _ _ Hi1).
  apply String.eqb_eq in Hs. rewrite Hs. simpl.
  specialize (Hother item Hi). apply Z.eqb_neq in Hother. rewrite Hother.
  apply Z.ltb_ge in Hq. rewrite Hq. reflexivity.
Qed.

Lemma create_order_reserves_nothing_witness :
  let body := {| OrderCreate.item_id := 3; OrderCreate.quantity := 4 |} in
  exists r st1,
    run (Orders.create_order "aa" body buyer2) shop None = (Ok r, st1) /\
    is_ok (fst (run (Orders.create_order "bb" body stranger) st1 None)) = true.
Proof.
  intros body. eexists _, _. split; [reflexivity|].
  refine (proj2 (create_order_reserves_nothing "aa" body buyer2 shop _ _ "bb" stranger
                   eq_refl _)).
  intros item Hi. vm_compute in Hi. injection Hi as <-. discriminate.
Defined.

(** X11.  Deposit confirmation does not look at the item.  When the seller
    (or an admin) has cancelled a listing that still has a pending order, a
    later confirmation of that order goes through and turns the cancelled
    item into a sold one. *)
Theorem cancelled_listing_sold_by_late_deposit body user st o it seller :
  pending_order body st = Some o ->
  items st !! Order.item_id o = Some it ->
  Item.status it <> "sold" ->
  Items.not_owner_nor_admin (Item.seller_id it) seller = false ->
  let st1 := snd (run (Items.delete_item (Order.item_id o) seller) st None) in
  let st2 := snd (run (Wallet.confirm_deposit body user) st1 None) in
  items st1 !! Order.item_id o = Some (with_status "cancelled" it) /\
  is_ok (fst (run (Wallet.confirm_deposit body user) st1 None)) = true /\
  items st2 !! Order.item_id o = Some (with_status "sold" it).
Proof.
  intros Hp Hi Hs Hn st1 st2. subst st2 st1.
  rewrite (delete_item_cancels _ _ _ _ Hi Hn Hs). cbn [snd].
  set (st1 := insert_inventory_event _ _).
  assert (Hi1 : items st1 !! Order.item_id o = Some (with_status "cancelled" it)).
  { subst st1. simpl. by rewrite lookup_alter_eq, Hi. }
  assert (Hp1 : pending_order body st1 = Some o) by exact Hp.
  destruct (confirm_deposit_faults body user st1 o Hp1) as (H1 & _).
  rewrite H1. split; [exact Hi1|]. split; [reflexivity|].
  cbn [snd apply_writes Wallet.deposit_writes fold_left]. simpl.
  simpl in Hi1. rewrite lookup_alter_eq, Hi1. reflexivity.
Qed.

Lemma cancelled_listing_sold_by_late_deposit_witness :
  pending_order deposit9 shop = Some order1 /\
  items shop !! Order.item_id order1 = Some item3 /\
  Item.status item3 <> "sold" /\
  Items.not_owner_nor_admin (Item.seller_id item3) seller1 = false /\
  items (snd (run (Wallet.confirm_deposit deposit9 stranger)
                (snd (run (Items.delete_item 3 seller1) shop None)) None)) !! 3 =
    Some (with_status "sold" item3).
Proof.
  assert (Hs : Item.status item3 <> "sold") by discriminate.
  split; [reflexivity|]. split; [reflexivity|]. split; [exact Hs|]. split; [reflexivity|].
  exact (proj2 (proj2 (cancelled_listing_sold_by_late_deposit deposit9 stranger shop order1
                         item3 seller1 eq_refl eq_refl Hs eq_refl))).
Defined.



(** X13.  A confirmed deposit can be withdrawn at once.  On balances that
    are not negative, the buyer's withdrawal of the amount just credited,
    same token and network, is accepted, and it takes the balance back to
    what it was before the deposit (to zero if there was no balance). *)
Theorem deposit_then_withdraw body user st o buyer to_address :
  pending_order body st = Some o ->
  balances_nonneg st ->
  Wallet.EVM_ADDRESS_RE_match to_address = true ->
  User.user_id buyer = Order.buyer_id o ->
  let key := (Order.buyer_id o, DepositConfirm.token body, DepositConfirm.network body) in
  let st1 := snd (run (Wallet.confirm_deposit body user) st None) in
  let w := {| WithdrawRequest.amount := DepositConfirm.amount body;
              WithdrawRequest.token := DepositConfirm.token body;
              WithdrawRequest.network := DepositConfirm.network body;
              WithdrawRequest.to_address := to_address |} in
  fst (run (Wallet.withdraw w buyer) st1 None) = Ok w /\
  exists b, balances (snd (run (Wallet.withdraw w buyer) st1 None)) !! key = Some b /\
            (b == default 0 (balances st !! key))%Q.
Proof.
  intros Hp Hnn Haddr Hbuyer key st1 w.
  destruct (confirm_deposit_faults body user st o Hp) as (H1 & _).
  subst st1. rewrite H1. cbn [snd].
  set (st1 := apply_writes (Wallet.deposit_writes o body) st).
  assert (Hbal : balances st1 !! key =
                 Some (match balances st !! key with
                       | Some a => (a + DepositConfirm.amount body)%Q
                       | None => DepositConfirm.amount body
                       end)).
  { subst st1 key. simpl. apply lookup_insert_eq. }
  pose proof (withdraw_cases w buyer st1) as Hw. cbv zeta in Hw.
  unfold pending_order in Hp.
  destruct (str_in (DepositConfirm.token body) Wallet.VALID_TOKENS) eqn:Ht;
    [|discriminate].
  destruct (str_in (DepositConfirm.network body) Wallet.VALID_NETWORKS) eqn:Hn;
    [|discriminate].
  subst w. cbn [WithdrawRequest.token WithdrawRequest.network WithdrawRequest.amount
                WithdrawRequest.to_address] in Hw.
  rewrite Ht, Hn, Haddr, Hbuyer in Hw. cbn [negb] in Hw. fold key in Hw.
  rewrite Hbal in Hw.
  assert (Hle : Qltb (match balances st !! key with
                      | Some a => (a + DepositConfirm.amount body)%Q
                      | None => DepositConfirm.amount body
                      end) (DepositConfirm.amount body) = false).
  { apply Qltb_false. destruct (balances st !! key) as [a|] eqn:Ea; [|lra].
    specialize (Hnn _ _ Ea). lra. }
  rewrite Hle in Hw. rewrite Hw. split; [reflexivity|].
  cbn [snd]. simpl. fold key. rewrite lookup_alter_eq. fold key.
  change (balances st1 !! key) with
    (<[key := match balances st !! key with
              | Some a => (a + DepositConfirm.amount body)%Q
              | None => DepositConfirm.amount body
              end]> (balances st) !! key).
  rewrite lookup_insert_eq. simpl. eexists. split; [reflexivity|].
  destruct (balances st !! key); simpl; lra.
Qed.

Lemma deposit_then_withdraw_witness :
  pending_order deposit9 shop = Some order1 /\
  balances_nonneg shop /\
  Wallet.EVM_ADDRESS_RE_match "0x00112233445566778899aabbccddeeff00112233" = true /\
  User.user_id buyer2 = Order.buyer_id order1 /\
  fst (run (Wallet.withdraw (withdrawal 9) buyer2)
         (snd (run (Wallet.confirm_deposit deposit9 stranger) shop None)) None) =
    Ok (withdrawal 9).
Proof.
  assert (Hs : balances_nonneg shop).
  { intros k a Hk. unfold shop in Hk; simpl in Hk. by rewrite lookup_empty in Hk. }
  split; [reflexivity|]. split; [exact Hs|]. split; [reflexivity|]. split; [reflexivity|].
  exact (proj1 (deposit_then_withdraw deposit9 stranger shop order1 buyer2
                  "0x00112233445566778899aabbccddeeff00112233" eq_refl Hs eq_refl eq_refl)).
Defined.

(** X14.  A withdrawal is accepted exactly when token and network are
    among the valid ones, the address has the EVM form, and the user has a
    balance row for them holding at least the amount; a request for the
    whole balance is accepted.  When token, network or address is wrong the
    answer is InvalidInput whatever the database does, and nothing is
    read or written. *)
Theorem withdraw_accepted_iff body user st :
  let key := (User.user_id user, WithdrawRequest.token body,
              WithdrawRequest.network body) in
  let well_formed :=
    str_in (WithdrawRequest.token body) Wallet.VALID_TOKENS &&
    str_in (WithdrawRequest.network body) Wallet.VALID_NETWORKS &&
    Wallet.EVM_ADDRESS_RE_match (WithdrawRequest.to_address body) in
  (is_ok (fst (run (Wallet.withdraw body user) st None)) = true <->
   well_formed = true /\
   exists a, balances st !! key = Some a /\ (WithdrawRequest.amount body <= a)%Q) /\
  (well_formed = false -> forall fault,
     InvalidInput (fst (run (Wallet.withdraw body user) st fault)) /\
     snd (run (Wallet.withdraw body user) st fault) = st).
Proof.
  intros key well_formed. subst well_formed. split.
  - rewrite withdraw_cases. fold key.
    destruct (str_in (WithdrawRequest.token body) _); simpl;
      [|split; [discriminate | intros [? _]; discriminate]].
    destruct (str_in (WithdrawRequest.network body) _); simpl;
      [|split; [discriminate | intros [? _]; discriminate]].
    destruct (Wallet.EVM_ADDRESS_RE_match _); simpl;
      [|split; [discriminate | intros [? _]; discriminate]].
    destruct (balances st !! key) as [a|];
      [|split; [discriminate | intros [_ (? & ? & _)]; discriminate]].
    destruct (Qltb a (WithdrawRequest.amount body)) eqn:Hlt; simpl.
    + apply Qltb_true in Hlt. split; [discriminate|].
      intros [_ (a' & [= <-] & Hle)]. lra.
    + apply Qltb_false in Hlt. split; [eauto|reflexivity].
  - unfold run, Wallet.withdraw. intros Hwf fault.
    destruct (str_in (WithdrawRequest.token body) _); simpl in *;
      [|split; [eexists|]; reflexivity].
    destruct (str_in (WithdrawRequest.network body) _); simpl in *;
      [|split; [eexists|]; reflexivity].
    rewrite Hwf. simpl. split; [eexists|]; reflexivity.
Qed.

Lemma withdraw_accepted_iff_witness :
  is_ok (fst (run (Wallet.withdraw (withdrawal 10) buyer2) purse None)) = true.
Proof.
  apply (proj1 (withdraw_accepted_iff (withdrawal 10) buyer2 purse)).
  split; [reflexivity|]. exists 10%Q. split; [reflexivity|]. discriminate.
Defined.

End Flows.

(** ** Reading orders and balances, listing an item *)

Section ReadsAndListing.
Import Database Vocabulary Frames Discipline Fixtures Fixtures2.

Lemma get_order_reads order_id user : preserves eq (Reads.get_order order_id user).
Proof.
  unfold Reads.get_order.
  apply (preserves_bind eq); [intros; congruence | apply (preserves_query eq); reflexivity |].
  intros [[o name]|]; [|by apply (preserves_raise eq)].
  destruct (_ && _); [by apply (preserves_raise eq) | by apply (preserves_ret eq)].
Qed.

(** X15.  Reading an order never writes, failure or not.  It answers with
    the order and the name of its item exactly when both rows exist and the
    caller is the buyer or an admin; any other caller gets Forbidden, and an
    order whose item row is gone reads as NotFound. *)
Theorem get_order_access order_id user st :
  (forall fault, snd (run (Reads.get_order order_id user) st fault) = st) /\
  (forall o name,
     fst (run (Reads.get_order order_id user) st None) = Ok (o, name) <->
     orders st !! order_id = Some o /\
     (exists i, items st !! Order.item_id o = Some i /\ Item.name i = name) /\
     (Order.buyer_id o = User.user_id user \/ User.is_admin user = true)) /\
  (forall o i, orders st !! order_id = Some o -> items st !! Order.item_id o = Some i ->
     Order.buyer_id o <> User.user_id user -> User.is_admin user = false ->
     Forbidden (fst (run (Reads.get_order order_id user) st None))) /\
  (forall o, orders st !! order_id = Some o -> items st !! Order.item_id o = None ->
     NotFound (fst (run (Reads.get_order order_id user) st None))).
Proof.
  split; [|split; [|split]].
  - intros fault. symmetry.
    exact (preserves_run eq (Reads.get_order order_id user) st fault
             (get_order_reads order_id user)).
  - intros o name.
    unfold run, Reads.get_order, Reads.select_order_with_item,
      mbind, DB_bind, execute, query; simpl.
    destruct (orders st !! order_id) as [o'|]; simpl;
      [|split; [discriminate | intros [? _]; discriminate]].
    destruct (items st !! Order.item_id o') as [i|] eqn:Hi; simpl.
    + destruct (Order.buyer_id o' =? User.user_id user) eqn:Hb; simpl.
      * apply Z.eqb_eq in Hb. split.
        -- intros [= <- <-]. eauto 6.
        -- intros ([= <-] & (i' & Hi' & <-) & _). congruence.
      * apply Z.eqb_neq in Hb. destruct (User.is_admin user); simpl; split.
        -- intros [= <- <-]. eauto 6.
        -- intros ([= <-] & (i' & Hi' & <-) & _). congruence.
        -- discriminate.
        -- intros ([= <-] & _ & [?|?]); [contradiction | discriminate].
    + split; [discriminate|]. intros ([= <-] & (i' & Hi' & _) & _). congruence.
  - intros o i Ho Hi Hb Ha.
    unfold run, Reads.get_order, Reads.select_order_with_item,
      mbind, DB_bind, execute, query; simpl.
    rewrite Ho; simpl. rewrite Hi; simpl. apply Z.eqb_neq in Hb. rewrite Hb, Ha. simpl.
    eexists; reflexivity.
  - intros o Ho Hi.
    unfold run, Reads.get_order, Reads.select_order_with_item,
      mbind, DB_bind, execute, query; simpl.
    rewrite Ho; simpl. rewrite Hi; simpl. eexists; reflexivity.
Qed.

Lemma get_order_access_witness :
  orders shop !! 1 = Some order1 /\ items shop !! Order.item_id order1 = Some item3 /\
  Order.buyer_id order1 <> User.user_id stranger /\ User.is_admin stranger = false /\
  Forbidden (fst (run (Reads.get_order 1 stranger) shop None)).
Proof.
  assert (Hb : Order.buyer_id order1 <> User.user_id stranger) by discriminate.
  split; [reflexivity|]. split; [reflexivity|]. split; [exact Hb|]. split; [reflexivity|].
  exact (proj1 (proj2 (proj2 (get_order_access 1 stranger shop))) order1 item3
           eq_refl eq_refl Hb eq_refl).
Defined.

(** X16.  The balance listing shows the caller's balances and nothing
    else: a (token, network, amount) row is listed exactly when the store
    holds that amount for the caller under that token and network, and the
    request writes nothing. *)
Theorem get_balance_own_rows user st :
  exists rows,
    run (Reads.get_balance user) st None = (Ok (User.user_id user, rows), st) /\
    forall tok net a,
      (tok, net, a) ∈ rows <-> balances st !! (User.user_id user, tok, net) = Some a.
Proof.
  exists (Reads.select_balances (User.user_id user) st). split; [reflexivity|].
  intros tok net a. unfold Reads.select_balances. rewrite list_elem_of_omap. split.
  - intros ([[[u t] n] a'] & Hin & Hsome). apply elem_of_map_to_list in Hin.
    destruct (u =? User.user_id user) eqn:Hu; [|discriminate].
    apply Z.eqb_eq in Hu. injection Hsome as <- <- <-. by subst.
  - intros H. exists (User.user_id user, tok, net, a). split.
    + by apply elem_of_map_to_list.
    + by rewrite Z.eqb_refl.
Qed.

Lemma get_balance_own_rows_witness :
  exists rows,
    run (Reads.get_balance buyer2) purse None = (Ok (2, rows), purse) /\
    (("USDT", "polygon", 10%Q) ∈ rows <->
     balances purse !! (2, "USDT", "polygon") = Some 10%Q).
Proof.
  destruct (get_balance_own_rows buyer2 purse) as (rows & Hrun & Hrows).
  exists rows. split; [exact Hrun | exact (Hrows "USDT" "polygon" 10%Q)].
Defined.




End ReadsAndListing.


(** ** The watchlist beyond create and read *)

Section WatchlistOps.
Import Main Watchlist Fixtures Fixtures2.

Lemma sku_present_true s st :
  sku_present s st = true <->
  exists k r, rows st !! k = Some r /\ row_sku r = s.
Proof.
  unfold sku_present. rewrite existsb_exists. split.
  - intros ([k r] & Hin & E). apply list_elem_of_In, elem_of_map_to_list in Hin.
    exists k, r. split; [exact Hin|]. simpl in E.
    destruct r as [[[[i s'] n] p] nt]. apply String.eqb_eq in E. by subst.
  - intros (k & r & Hk & E). exists (k, r). split.
    + by apply list_elem_of_In, elem_of_map_to_list.
    + simpl. destruct r as [[[[i s'] n] p] nt]. simpl in E. subst.
      apply String.eqb_refl.
Qed.

Lemma sku_elsewhere_true s item_id st :
  sku_elsewhere s item_id st = true <->
  exists k r, k <> item_id /\ rows st !! k = Some r /\ row_sku r = s.
Proof.
  unfold sku_elsewhere. rewrite existsb_exists. split.
  - intros ([k r] & Hin & E). apply list_elem_of_In, elem_of_map_to_list in Hin.
    simpl in E. apply andb_true_iff in E as [E1 E2].
    apply negb_true_iff, Z.eqb_neq in E1. apply String.eqb_eq in E2.
    exists k, r. auto.
  - intros (k & r & Hne & Hk & E). exists (k, r). split.
    + by apply list_elem_of_In, elem_of_map_to_list.
    + simpl. apply andb_true_iff. split.
      * by apply negb_true_iff, Z.eqb_neq.
      * subst. apply String.eqb_refl.
Qed.

Lemma max_rowid_bound st k r : rows st !! k = Some r -> k <= max_rowid st.
Proof.
  unfold max_rowid. revert k r.
  apply (map_fold_weak_ind (fun acc m => forall k r, m !! k = Some r -> k <= acc)).
  - intros k r H. by rewrite lookup_empty in H.
  - intros i x m acc Hi IH k r. rewrite lookup_insert. case_decide.
    + subst. intros _. lia.
    + intros H'. specialize (IH k r H'). lia.
Qed.

Lemma delete_item_cases item_id st :
  delete_item item_id st =
    match rows st !! item_id with
    | Some _ => (Ok tt, {| rows := delete item_id (rows st); sequence := sequence st |})
    | None => (Raise (HTTPException 404 "Watchlist item not found"), st)
    end.
Proof.
  unfold delete_item. destruct (rows st !! item_id) eqn:E; simpl; [reflexivity|].
  rewrite delete_id by exact E. by destruct st.
Qed.



Lemma update_item_cases item_id payload st :
  update_item item_id payload st =
    match rows st !! item_id with
    | None => (Raise (HTTPException 404 "Watchlist item not found"), st)
    | Some r =>
        if sku_elsewhere (WatchlistCreate.sku payload) item_id st then
          (Raise (HTTPException 409 "sku already exists in watchlist"), st)
        else
          (row_to_item (row_id r, WatchlistCreate.sku payload, WatchlistCreate.name payload,
                        WatchlistCreate.target_price_ref payload,
                        WatchlistCreate.note payload),
           {| rows := alter (fun r => (row_id r, WatchlistCreate.sku payload,
                                       WatchlistCreate.name payload,
                                       WatchlistCreate.target_price_ref payload,
                                       WatchlistCreate.note payload)) item_id (rows st);
              sequence := sequence st |})
    end.
Proof.
  unfold update_item, update_watchlist.
  destruct (rows st !! item_id) as [r|] eqn:E; [|reflexivity].
  rewrite bool_decide_eq_true_2 by eauto. simpl.
  destruct (sku_elsewhere _ _ _); [reflexivity|].
  simpl. rewrite lookup_alter_eq, E. reflexivity.
Qed.



Lemma create_item_store payload st :
  snd (create_item payload st) = snd (insert_watchlist payload st).
Proof.
  unfold create_item. destruct (insert_watchlist payload st) as [[i|e|] st']; simpl.
  - destruct (rows st' !! i); reflexivity.
  - destruct e; reflexivity.
  - reflexivity.
Qed.

Lemma create_item_ok_inv payload st item st1 :
  create_item payload st = (Ok item, st1) ->
  insert_watchlist payload st = (Ok (WatchlistItem.id item), st1).
Proof.
  unfold create_item, insert_watchlist.
  destruct (sku_present _ st); [discriminate|]. cbn [rows].
  rewrite lookup_insert_eq. unfold row_to_item.
  destruct (WatchlistCreate.validate _) as [f| |]; simpl; try discriminate.
  intros [= <- <-]. reflexivity.
Qed.

Lemma serve_keeps_invariants req st :
  keyed st -> skus_unique st ->
  keyed (serve req st) /\ skus_unique (serve req st) /\
  sequence st <= sequence (serve req st).
Proof.
  intros Hk Hu. destruct req as [p|i p|i]; simpl.
  - rewrite create_item_store. unfold insert_watchlist.
    destruct (sku_present (WatchlistCreate.sku p) st) eqn:Hs; simpl;
      [split; [exact Hk|]; split; [exact Hu | lia]|].
    set (j := Z.max (sequence st) (max_rowid st) + 1).
    assert (Hfresh : rows st !! j = None).
    { destruct (rows st !! j) as [r|] eqn:E; [|reflexivity].
      pose proof (max_rowid_bound st j r E). lia. }
    split; [|split; [|cbn [sequence]; lia]].
    + intros k r. cbn [rows]. rewrite lookup_insert. case_decide; [|apply Hk].
      intros [= <-]. simpl. congruence.
    + assert (Hnew : forall k r, rows st !! k = Some r ->
                       row_sku r <> WatchlistCreate.sku p).
      { intros k r Hr E. apply not_true_iff_false in Hs. apply Hs.
        apply sku_present_true. eauto. }
      intros k1 k2 r1 r2. cbn [rows]. rewrite !lookup_insert.
      repeat case_decide; try congruence.
      * intros [= <-] H2 E. simpl in E. symmetry in E. by apply Hnew in H2.
      * intros H1 [= <-] E. simpl in E. by apply Hnew in H1.
      * apply Hu.
  - rewrite update_item_cases.
    destruct (rows st !! i) as [r0|] eqn:Hr0; simpl;
      [|split; [exact Hk|]; split; [exact Hu | lia]].
    destruct (sku_elsewhere (WatchlistCreate.sku p) i st) eqn:Hs; simpl;
      [split; [exact Hk|]; split; [exact Hu | lia]|].
    assert (Hnew : forall k r, k <> i -> rows st !! k = Some r ->
                     row_sku r <> WatchlistCreate.sku p).
    { intros k r Hne Hr E. apply not_true_iff_false in Hs. apply Hs.
      apply sku_elsewhere_true. eauto. }
    split; [|split; [|cbn [sequence]; lia]].
    + intros k r. cbn [rows]. rewrite lookup_alter. case_decide; [|apply Hk].
      subst. rewrite Hr0. simpl. intros [= <-]. simpl. by apply Hk in Hr0.
    + intros k1 k2 r1 r2. cbn [rows]. rewrite !lookup_alter.
      repeat case_decide; subst; try congruence.
      * rewrite Hr0. simpl. intros [= <-] H2 E. simpl in E. symmetry in E.
        exfalso. eapply Hnew; eauto.
      * rewrite Hr0. simpl. intros H1 [= <-] E. simpl in E.
        exfalso. eapply Hnew; eauto.
      * apply Hu.
  - rewrite delete_item_cases.
    destruct (rows st !! i) as [r0|] eqn:Hr0; simpl;
      [|split; [exact Hk|]; split; [exact Hu | lia]].
    split; [|split; [|cbn [sequence]; lia]].
    + intros k r. cbn [rows]. rewrite lookup_delete. case_decide; [discriminate | apply Hk].
    + intros k1 k2 r1 r2. cbn [rows]. rewrite !lookup_delete.
      repeat case_decide; try discriminate. apply Hu.
Qed.

(** X20.  The watchlist keeps its keys: through any sequence of create,
    update and delete requests, accepted or refused, every entry stays
    under its own id and no two entries share a sku. *)
Theorem watchlist_keeps_unique_skus reqs st :
  keyed st -> skus_unique st ->
  keyed (serve_all reqs st) /\ skus_unique (serve_all reqs st).
Proof.
  revert st. induction reqs as [|req reqs IH]; intros st Hk Hu; simpl; [auto|].
  destruct (serve_keeps_invariants req st Hk Hu) as (Hk' & Hu' & _).
  by apply IH.
Qed.

Lemma watchlist_keeps_unique_skus_witness :
  keyed empty_watchlist /\ skus_unique empty_watchlist /\
  skus_unique (serve_all [Create crate_key; Create crate_key; Update 1 crate_key;
                          Delete 1] empty_watchlist).
Proof.
  assert (Hk : keyed empty_watchlist).
  { intros k r H. unfold empty_watchlist in H; simpl in H. by rewrite lookup_empty in H. }
  assert (Hu : skus_unique empty_watchlist).
  { intros k1 k2 r1 r2 H. unfold empty_watchlist in H; simpl in H.
    by rewrite lookup_empty in H. }
  split; [exact Hk|]. split; [exact Hu|].
  exact (proj2 (watchlist_keeps_unique_skus _ empty_watchlist Hk Hu)).
Defined.

Lemma serve_sequence_grows req st : sequence st <= sequence (serve req st).
Proof.
  destruct req as [p|i p|i]; simpl.
  - rewrite create_item_store. unfold insert_watchlist.
    destruct (sku_present _ st); simpl; lia.
  - rewrite update_item_cases. destruct (rows st !! i); simpl; [|lia].
    destruct (sku_elsewhere _ _ _); simpl; lia.
  - rewrite delete_item_cases. destruct (rows st !! i); simpl; lia.
Qed.

Lemma serve_all_sequence_grows reqs st : sequence st <= sequence (serve_all reqs st).
Proof.
  revert st. induction reqs as [|req reqs IH]; intros st; simpl; [lia|].
  pose proof (serve_sequence_grows req st). specialize (IH (serve req st)). lia.
Qed.

(** X21.  Ids are never handed out twice.  The id Create assigns is not in
    use at that moment, the other entries stay as they are, and whatever
    is created, updated or deleted afterwards, every later Create gets a
    larger id, also after the entry has been deleted. *)
Theorem created_ids_never_reused payload st item st1 :
  create_item payload st = (Ok item, st1) ->
  rows st !! WatchlistItem.id item = None /\
  (forall k, k <> WatchlistItem.id item -> rows st1 !! k = rows st !! k) /\
  (forall reqs payload' item' st2,
     create_item payload' (serve_all reqs st1) = (Ok item', st2) ->
     WatchlistItem.id item < WatchlistItem.id item').
Proof.
  intros Hc. apply create_item_ok_inv in Hc. unfold insert_watchlist in Hc.
  destruct (sku_present _ st); [discriminate|]. injection Hc as Hid Hst.
  split; [|split].
  - destruct (rows st !! WatchlistItem.id item) as [r|] eqn:E; [|reflexivity].
    pose proof (max_rowid_bound st _ r E). lia.
  - intros k Hk. subst st1. cbn [rows]. rewrite lookup_insert_ne; [reflexivity|].
    rewrite Hid. congruence.
  - intros reqs payload' item' st2 Hc'. apply create_item_ok_inv in Hc'.
    unfold insert_watchlist in Hc'.
    destruct (sku_present _ _); [discriminate|]. injection Hc' as Hid' _.
    pose proof (serve_all_sequence_grows reqs st1) as Hseq.
    subst st1. cbn [sequence] in Hseq. lia.
Qed.

Lemma created_ids_never_reused_witness :
  exists item st1 item' st2,
    create_item crate_key empty_watchlist = (Ok item, st1) /\
    create_item crate_key (serve_all [Delete 1] st1) = (Ok item', st2) /\
    WatchlistItem.id item < WatchlistItem.id item'.
Proof.
  eexists _, _, _, _. split; [reflexivity|]. split; [reflexivity|].
  exact (proj2 (proj2 (created_ids_never_reused crate_key empty_watchlist _ _ eq_refl))
           [Delete 1] crate_key _ _ eq_refl).
Defined.

#[local] Instance id_le_trans : Transitive id_le.
Proof. intros a b c. unfold id_le. lia. Qed.

#[local] Instance id_le_total : Total id_le.
Proof. intros a b. unfold id_le. lia. Qed.

Lemma row_to_item_id r item : row_to_item r = Ok item -> WatchlistItem.id item = row_id r.
Proof.
  destruct r as [[[[i s] n] p] nt]. unfold row_to_item.
  destruct (WatchlistCreate.validate _); simpl; try discriminate.
  by intros [= <-].
Qed.

Lemma rows_to_items_Forall2 rs : forall items,
  rows_to_items rs = Ok items ->
  Forall2 (fun r item => row_to_item r = Ok item) rs items.
Proof.
  induction rs as [|r rs IH]; intros items; simpl.
  - intros [= <-]. constructor.
  - destruct (row_to_item r) as [item| |] eqn:E; simpl; try discriminate.
    destruct (rows_to_items rs) as [items'| |]; simpl; try discriminate.
    intros [= <-]. constructor; [exact E | by apply IH].
Qed.

Lemma rows_to_items_bad_row rs r :
  r ∈ rs -> is_ok (row_to_item r) = false -> is_ok (rows_to_items rs) = false.
Proof.
  induction rs as [|r' rs IH]; [by intros ?%elem_of_nil|].
  intros [->|Hin]%elem_of_cons Hbad; simpl.
  - destruct (row_to_item r'); try discriminate; reflexivity.
  - destruct (row_to_item r'); simpl; try reflexivity.
    specialize (IH Hin Hbad). destruct (rows_to_items rs); try discriminate; reflexivity.
Qed.

Lemma select_all_elem st r :
  r ∈ select_all st <-> exists k, rows st !! k = Some r.
Proof.
  unfold select_all. rewrite merge_sort_Permutation, list_elem_of_fmap. split.
  - intros ([k r'] & -> & Hin). apply elem_of_map_to_list in Hin. eauto.
  - intros [k Hk]. exists (k, r). split; [reflexivity|]. by apply elem_of_map_to_list.
Qed.

Lemma select_all_ids_NoDup st : keyed st -> NoDup (map row_id (select_all st)).
Proof.
  intros Hk. unfold select_all.
  rewrite (merge_sort_Permutation id_le).
  assert (E : map row_id (map snd (map_to_list (rows st))) = map fst (map_to_list (rows st))).
  { rewrite map_map. apply map_ext_in. intros [k r] Hin. simpl.
    apply list_elem_of_In, elem_of_map_to_list in Hin. by apply Hk. }
  rewrite E. apply NoDup_fst_map_to_list.
Qed.

Lemma sorted_nodup_strict rs :
  StronglySorted id_le rs -> NoDup (map row_id rs) ->
  StronglySorted (fun a b => row_id a < row_id b) rs.
Proof.
  induction 1 as [|r rs Hs IH Hall]; intros Hnd; [constructor|].
  simpl in Hnd. apply NoDup_cons in Hnd as [Hnotin Hnd].
  constructor; [by apply IH|].
  rewrite Forall_forall in Hall |- *. intros r' Hin.
  specialize (Hall r' Hin). unfold id_le in Hall.
  assert (row_id r <> row_id r').
  { intros E. apply Hnotin. rewrite E. apply list_elem_of_fmap. eauto. }
  lia.
Qed.

Lemma items_come_from_rows rs items item :
  Forall2 (fun r item => row_to_item r = Ok item) rs items ->
  item ∈ items -> exists r, r ∈ rs /\ row_to_item r = Ok item.
Proof.
  induction 1 as [|r item0 rs items Hr HF IH]; [by intros ?%elem_of_nil|].
  intros [->|Hin]%elem_of_cons.
  - exists r. split; [left | exact Hr].
  - destruct (IH Hin) as (r' & Hr' & E). exists r'. split; [by right | exact E].
Qed.

Lemma rows_go_to_items rs items r :
  Forall2 (fun r item => row_to_item r = Ok item) rs items ->
  r ∈ rs -> exists item, item ∈ items /\ row_to_item r = Ok item.
Proof.
  induction 1 as [|r0 item rs items Hr HF IH]; [by intros ?%elem_of_nil|].
  intros [->|Hin]%elem_of_cons.
  - exists item. split; [left | exact Hr].
  - destruct (IH Hin) as (item' & Hi' & E). exists item'. split; [by right | exact E].
Qed.

Lemma strict_through_items rs items :
  Forall2 (fun r item => row_to_item r = Ok item) rs items ->
  StronglySorted (fun a b => row_id a < row_id b) rs ->
  StronglySorted (fun a b => WatchlistItem.id a < WatchlistItem.id b) items.
Proof.
  induction 1 as [|r item rs items Hr HF IH]; intros Hs; [constructor|].
  apply StronglySorted_inv in Hs as [Hs Hall].
  constructor; [by apply IH|].
  apply Forall_forall. intros item' Hin.
  destruct (items_come_from_rows _ _ _ HF Hin) as (r' & Hr' & E).
  pose proof (proj1 (Forall_forall _ _) Hall r' Hr') as Hlt. simpl in Hlt.
  rewrite (row_to_item_id _ _ Hr), (row_to_item_id _ _ E). exact Hlt.
Qed.

(** X22.  The watchlist listing, when it answers, has the entries in
    strictly ascending id order and holds exactly the entries that Read
    returns: an entry is listed if and only if reading its id gives it. *)
Theorem list_items_sorted_and_complete st items :
  keyed st ->
  list_items st = Ok items ->
  StronglySorted (fun a b => WatchlistItem.id a < WatchlistItem.id b) items /\
  forall item, item ∈ items <-> get_item (WatchlistItem.id item) st = Ok item.
Proof.
  intros Hk Hl. apply rows_to_items_Forall2 in Hl. split.
  - apply (strict_through_items _ _ Hl). apply sorted_nodup_strict.
    + apply StronglySorted_merge_sort; apply _.
    + by apply select_all_ids_NoDup.
  - intros item. unfold get_item. split.
    + intros Hin. destruct (items_come_from_rows _ _ _ Hl Hin) as (r & Hr & E).
      apply select_all_elem in Hr as [k Hr].
      rewrite (row_to_item_id _ _ E), (Hk _ _ Hr), Hr. exact E.
    + destruct (rows st !! WatchlistItem.id item) as [r|] eqn:Hr; [|discriminate].
      intros E. assert (Hin : r ∈ select_all st) by (apply select_all_elem; eauto).
      destruct (rows_go_to_items _ _ _ Hl Hin) as (item' & Hi' & E').
      congruence.
Qed.

Lemma list_items_sorted_and_complete_witness :
  exists items,
    list_items two_entries = Ok items /\
    map WatchlistItem.id items = [1; 2] /\
    StronglySorted (fun a b => WatchlistItem.id a < WatchlistItem.id b) items.
Proof.
  assert (Hk : keyed two_entries).
  { intros k r H. unfold two_entries in H; simpl in H.
    apply lookup_insert_Some in H as [[<- <-]|[_ H]]; [reflexivity|].
    apply lookup_singleton_Some in H as [<- <-]. reflexivity. }
  eexists. split; [vm_compute; reflexivity|]. split; [reflexivity|].
  exact (proj1 (list_items_sorted_and_complete two_entries _ Hk
                  ltac:(vm_compute; reflexivity))).
Defined.

(** X23.  One entry that does not validate when read back makes the whole
    listing fail: if Read of some stored id raises, the listing raises as
    well and returns no entry at all. *)
Theorem list_items_fails_with_one_bad_row st k :
  is_Some (rows st !! k) ->
  is_ok (get_item k st) = false ->
  is_ok (list_items st) = false.
Proof.
  intros [r Hr]. unfold get_item. rewrite Hr. intros Hbad.
  apply (rows_to_items_bad_row _ r); [|exact Hbad].
  apply select_all_elem. eauto.
Qed.

Lemma list_items_fails_with_one_bad_row_witness :
  let st := snd (post_watchlist key_request
                   (snd (post_watchlist conquistador empty_watchlist))) in
  is_Some (rows st !! 2) /\ is_ok (get_item 1 st) = true /\
  is_ok (get_item 2 st) = false /\ is_ok (list_items st) = false.
Proof.
  intros st.
  assert (H : is_Some (rows st !! 2)) by (eexists; vm_compute; reflexivity).
  assert (Hb : is_ok (get_item 2 st) = false) by (vm_compute; reflexivity).
  split; [exact H|]. split; [vm_compute; reflexivity|]. split; [exact Hb|].
  exact (list_items_fails_with_one_bad_row st 2 H Hb).
Defined.

End WatchlistOps.

Section MarketEndpoints.
Import Market Fixtures2.

Lemma get_set_param k v ps : get_param k (set_param k v ps) = Some v.
Proof.
  induction ps as [|[k' v'] ps IH]; simpl; [by rewrite String.eqb_refl|].
  destruct (String.eqb k k') eqn:E; simpl; rewrite ?String.eqb_refl, ?E; auto.
Qed.

Lemma get_set_param_ne k k' v ps :
  k' <> k -> get_param k' (set_param k v ps) = get_param k' ps.
Proof.
  intros Hne. apply String.eqb_neq in Hne.
  induction ps as [|[k0 v0] ps IH]; simpl; [by rewrite Hne|].
  destruct (String.eqb k k0) eqn:E; simpl.
  - apply String.eqb_eq in E as <-. by rewrite Hne.
  - by rewrite IH.
Qed.

Lemma query_params_lookup name f :
  get_param "sku" (query_params name f) = Some (PStr name) /\
  get_param "appid" (query_params name f) = Some (PInt (appid f)) /\
  get_param "limit" (query_params name f) = Some (PInt (limit f)) /\
  get_param "quality" (query_params name f) = PInt <$> quality f /\
  get_param "tradable" (query_params name f) = PInt <$> tradable f /\
  get_param "craftable" (query_params name f) = PInt <$> craftable f /\
  get_param "particle" (query_params name f) = PInt <$> particle f /\
  get_param "token" (query_params name f) = None /\
  get_param "key" (query_params name f) = None.
Proof.
  unfold query_params.
  destruct (quality f), (tradable f), (craftable f), (particle f);
    repeat split; reflexivity.
Qed.

Lemma request_credentials_keep env name f k :
  k <> "token" -> k <> "key" ->
  get_param k (fst (_choose_auth env (query_params name f))) =
  get_param k (query_params name f).
Proof.
  intros Ht Hk. unfold _choose_auth.
  destruct (negb _); cbn [fst]; [by apply get_set_param_ne|].
  destruct (negb _); cbn [fst]; [by apply get_set_param_ne | done].
Qed.

(** X24.  The request to backpack.tf carries at most one credential.  The
    token is sent when BPTF_TOKEN holds more than whitespace, and then the
    key is not sent even if set; the key is sent when only BPTF_KEY does;
    the value sent is the variable without surrounding whitespace; the
    other parameters are untouched, and auth_used names what was sent. *)
Theorem request_carries_one_credential env name f :
  let token := secret (BPTF_TOKEN env) in
  let key := secret (BPTF_KEY env) in
  let ps := fst (_choose_auth env (query_params name f)) in
  let used := snd (_choose_auth env (query_params name f)) in
  get_param "token" ps = (if String.eqb token "" then None else Some (PStr token)) /\
  get_param "key" ps =
    (if String.eqb token "" then if String.eqb key "" then None else Some (PStr key)
     else None) /\
  (is_Some (get_param "token" ps) <-> used = "token_query") /\
  (is_Some (get_param "key" ps) <-> used = "key_query") /\
  (get_param "token" ps = None /\ get_param "key" ps = None <-> used = "none") /\
  (forall k, k <> "token" -> k <> "key" ->
     get_param k ps = get_param k (query_params name f)).
Proof.
  destruct (query_params_lookup name f) as (_ & _ & _ & _ & _ & _ & _ & Ht & Hk).
  unfold _choose_auth. cbn zeta.
  assert (Hnone : forall A (x : A), is_Some (@None A) <-> Some x = None)
    by (intros A x; split; [by intros [? ?] | done]).
  destruct (String.eqb (secret (BPTF_TOKEN env)) "") eqn:Et; cbn [negb fst snd];
    [destruct (String.eqb (secret (BPTF_KEY env)) "") eqn:Ek; cbn [negb fst snd]|].
  - rewrite Ht, Hk. repeat split; try done; by intros [? ?].
  - rewrite get_set_param, (get_set_param_ne "key" "token") by done. rewrite Ht.
    split; [done|]. split; [done|].
    split; [split; [by intros [? ?] | done]|].
    split; [split; [done | by eexists]|].
    split; [split; [by intros [_ ?] | done]|].
    intros k _ Hne. by apply get_set_param_ne.
  - rewrite get_set_param, (get_set_param_ne "token" "key") by done. rewrite Hk.
    split; [done|]. split; [done|].
    split; [split; [done | by eexists]|].
    split; [split; [by intros [? ?] | done]|].
    split; [split; [by intros [? _] | done]|].
    intros k Hne _. by apply get_set_param_ne.
Qed.

Lemma request_carries_one_credential_witness :
  let f := {| item_name := "Team Captain"; appid := 440; quality := Some 6;
              tradable := None; craftable := None; particle := None; limit := 50 |} in
  let ps := fst (_choose_auth both_secrets (query_params "Team Captain" f)) in
  get_param "token" ps = Some (PStr "tok123") /\ get_param "key" ps = None.
Proof.
  intros f ps.
  destruct (request_carries_one_credential both_secrets "Team Captain" f)
    as (Ht & Hk & _).
  split; [exact Ht | exact Hk].
Defined.

Lemma get_raises x k e : PyObj.get x k = Raise e -> e = AttributeError.
Proof. destruct x; simpl; congruence. Qed.

Lemma lt_raises : forall a b e, PyObj.lt a b = Raise e -> e = TypeError.
Proof.
  fix IH 1. intros a b e.
  destruct a as [| | | | |l|]; destruct b as [| | | | |m|];
    try (simpl; congruence).
  cbn [PyObj.lt]. revert m.
  induction l as [|x l IHl]; intros [|y m]; try congruence.
  destruct (PyObj.eq x y); [apply IHl | apply IH].
Qed.

Lemma tuple_lt_raises a b e : PyObj.tuple_lt a b = Raise e -> e = TypeError.
Proof.
  unfold PyObj.tuple_lt. repeat case_match; try congruence; apply lt_raises.
Qed.

Lemma tuple_gt_raises a b e : PyObj.tuple_gt a b = Raise e -> e = TypeError.
Proof.
  unfold PyObj.tuple_gt, PyObj.gt. repeat case_match; try congruence; apply lt_raises.
Qed.

Lemma add_listing_raises acc lst e :
  Main.add_listing acc lst = Raise e -> e = AttributeError.
Proof.
  destruct acc as [sells buys]. unfold Main.add_listing.
  destruct (PyObj.get lst "intent") as [i| |] eqn:Ei; cbn [mbind result_bind];
    [|intros [= <-]; by apply get_raises in Ei | discriminate].
  destruct (PyObj.get lst "currencies") as [c| |] eqn:Ec; cbn [mbind result_bind];
    [|intros [= <-]; by apply get_raises in Ec | discriminate].
  destruct (PyObj.get _ "keys") as [k| |] eqn:Ek; cbn [mbind result_bind];
    [|intros [= <-]; by apply get_raises in Ek | discriminate].
  destruct (PyObj.get _ "metal") as [m| |] eqn:Em; cbn [mbind result_bind];
    [|intros [= <-]; by apply get_raises in Em | discriminate].
  repeat case_match; discriminate.
Qed.

Lemma split_listings_raises ls : forall acc e,
  Main.split_listings ls acc = Raise e -> e = AttributeError.
Proof.
  induction ls as [|lst ls IH]; intros acc e; cbn [Main.split_listings]; [discriminate|].
  destruct (Main.add_listing acc lst) as [acc'| |] eqn:Ea; cbn [mbind result_bind].
  - apply IH.
  - intros [= <-]. by apply add_listing_raises in Ea.
  - discriminate.
Qed.

Lemma min_from_raises rest : forall best e,
  Main.min_from best rest = Raise e -> e = TypeError.
Proof.
  induction rest as [|p rest IH]; intros best e; simpl; [discriminate|].
  destruct (PyObj.tuple_lt _ _) as [b| |] eqn:E; cbn [mbind result_bind].
  - apply IH.
  - intros [= <-]. by apply tuple_lt_raises in E.
  - discriminate.
Qed.

Lemma max_from_raises rest : forall best e,
  Main.max_from best rest = Raise e -> e = TypeError.
Proof.
  induction rest as [|p rest IH]; intros best e; simpl; [discriminate|].
  destruct (PyObj.tuple_gt _ _) as [b| |] eqn:E; cbn [mbind result_bind].
  - apply IH.
  - intros [= <-]. by apply tuple_gt_raises in E.
  - discriminate.
Qed.

(** The normaliser raises nothing but [AttributeError] and [TypeError]. *)
Lemma normaliser_raises data e :
  Main.market_listings data = Raise e -> e = AttributeError \/ e = TypeError.
Proof.
  unfold Main.market_listings.
  destruct (extract_listings_total data) as [l ->]. cbn [mbind result_bind].
  destruct (Main.split_listings l ([], [])) as [[sells buys]| |] eqn:Es;
    cbn [mbind result_bind];
    [|intros [= <-]; left; by apply split_listings_raises in Es | discriminate].
  assert (Hlo : forall e', match sells with
                           | [] => Ok None
                           | p :: rest => lo ← Main.min_from p rest; Ok (Some lo)
                           end = Raise e' -> e' = TypeError).
  { intros e'. destruct sells as [|p rest]; [discriminate|].
    destruct (Main.min_from p rest) eqn:E; cbn [mbind result_bind]; try discriminate.
    intros [= <-]. by apply min_from_raises in E. }
  assert (Hhi : forall e', match buys with
                           | [] => Ok None
                           | p :: rest => hi ← Main.max_from p rest; Ok (Some hi)
                           end = Raise e' -> e' = TypeError).
  { intros e'. destruct buys as [|p rest]; [discriminate|].
    destruct (Main.max_from p rest) eqn:E; cbn [mbind result_bind]; try discriminate.
    intros [= <-]. by apply max_from_raises in E. }
  destruct (match sells with [] => _ | _ => _ end) as [lo| |] eqn:El;
    cbn [mbind result_bind]; [|intros [= <-]; right; by apply Hlo | discriminate].
  destruct (match buys with [] => _ | _ => _ end) as [hi| |] eqn:Eh;
    cbn [mbind result_bind]; [discriminate|intros [= <-]; right; by apply Hhi | discriminate].
Qed.

Lemma answer_of_200 name f debug_raw used r c :
  status_code r = 200 -> ~ raises_status (answer name f debug_raw used (Responded r)) c.
Proof.
  intros H200 [d Hd]. unfold answer in Hd. rewrite H200 in Hd. cbn in Hd.
  destruct (json_body r) as [data|]; [|discriminate].
  destruct (extract_listings_total data) as [l Hl]. rewrite Hl in Hd.
  cbn [mbind result_bind] in Hd.
  destruct (Main.market_listings data) eqn:E; cbn [mbind result_bind] in Hd;
    try discriminate.
  injection Hd as ->. apply normaliser_raises in E as [?|?]; discriminate.
Qed.

(** X25.  The listings endpoint raises an HTTP error in three ways and no
    other.  A name that is blank after stripping gets 422 whatever the
    upstream would say.  Otherwise a failed request gets 502, an upstream
    429 is passed on as 429, and any other upstream status but 200 gets
    502; on an upstream 200 no HTTP error is raised at all. *)
Theorem market_listings_http_errors env client f debug_raw c :
  let name := Py.strip (item_name f) in
  let got := client (listings_request (fst (_choose_auth env (query_params name f)))) in
  raises_status (market_listings env client f debug_raw) c <->
    (name = "" /\ c = 422) \/
    (name <> "" /\
     match got with
     | RequestError _ => c = 502
     | Responded r =>
         if status_code r =? 429 then c = 429 else status_code r <> 200 /\ c = 502
     end).
Proof.
  cbn zeta. unfold market_listings.
  destruct (String.eqb (Py.strip (item_name f)) "") eqn:En.
  - apply String.eqb_eq in En. split.
    + intros [d [= <- _]]. by left.
    + intros [[_ ->]|[Hne _]]; [by eexists | done].
  - apply String.eqb_neq in En.
    destruct (_choose_auth env _) as [ps used]. cbn [fst].
    destruct (client (listings_request ps)) as [msg|r] eqn:Eg.
    + cbn [answer]. split.
      * intros [d [= <- _]]. by right.
      * intros [[? _]|[_ ->]]; [done | by eexists].
    + destruct (status_code r =? 429) eqn:E429.
      * unfold answer. rewrite E429. split.
        -- intros [d [= <- _]]. by right.
        -- intros [[? _]|[_ ->]]; [done | by eexists].
      * destruct (status_code r =? 200) eqn:E200.
        -- apply Z.eqb_eq in E200. split.
           ++ intros H. by apply answer_of_200 in H.
           ++ intros [[? _]|[_ [? _]]]; done.
        -- unfold answer. rewrite E429, E200. cbn [negb].
           apply Z.eqb_neq in E200. split.
           ++ intros [d [= <- _]]. by right.
           ++ intros [[? _]|[_ [_ ->]]]; [done | by eexists].
Qed.

Lemma market_listings_http_errors_witness :
  raises_status
    (market_listings both_secrets unavailable
       {| item_name := " Team Captain "; appid := 440; quality := Some 6;
          tradable := None; craftable := None; particle := None; limit := 50 |}
       false) 502.
Proof.
  apply market_listings_http_errors. right. split; [vm_compute; discriminate|].
  vm_compute. split; [discriminate | reflexivity].
Defined.

Lemma parsed_flags stats_url p :
  Main.parse_bptf_stats_url stats_url = Ok p ->
  (Main.tradable p = 0 \/ Main.tradable p = 1) /\
  (Main.craftable p = 0 \/ Main.craftable p = 1).
Proof.
  unfold Main.parse_bptf_stats_url.
  destruct (Py.urlparse _) as [u| |]; cbn [mbind result_bind]; try discriminate.
  destruct (negb _); [discriminate|].
  destruct (Main.path_parts _) as [|p0 [|p1 [|p2 [|p3 [|p4 rest]]]]]; try discriminate.
  destruct (negb _); [discriminate|].
  destruct (Py.unquote p1) as [q| |]; cbn [mbind result_bind]; try discriminate.
  destruct (Py.unquote p2) as [n| |]; cbn [mbind result_bind]; try discriminate.
  destruct (Py.unquote p3) as [t| |]; cbn [mbind result_bind]; try discriminate.
  destruct (Py.unquote p4) as [cr| |]; cbn [mbind result_bind]; try discriminate.
  destruct (match rest with [] => _ | _ => _ end) as [pa| |];
    cbn [mbind result_bind]; try discriminate.
  intros [= <-]. cbn [Main.tradable Main.craftable].
  split; [destruct (String.eqb (Py.lower t) _) | destruct (String.eqb (Py.lower cr) _)];
    auto.
Qed.

(** X26.  Listings from a stats link.  A link the parser rejects is
    answered with the parser's error, and a link whose item name is blank
    after unquoting with 422, in both cases whatever the upstream and the
    credentials are.  Otherwise one request goes upstream, and the answer
    depends on the upstream only through its reply to that request: it asks
    for the stripped item name as sku, with appid and limit as given; the
    quality and particle filters are sent exactly when the parser found
    them (an unknown quality name sends no quality filter), while tradable
    and craftable are always sent, as 0 or 1. *)
Theorem from_stats_request env stats_url appid limit debug_raw :
  (forall e, Main.parse_bptf_stats_url stats_url = Raise e ->
     forall client,
       market_listings_from_stats env client stats_url appid limit debug_raw = Raise e) /\
  (forall p, Main.parse_bptf_stats_url stats_url = Ok p ->
     let name := Py.strip (Main.item_name p) in
     (name = "" ->
      forall client,
        market_listings_from_stats env client stats_url appid limit debug_raw =
          Raise (HTTPException 422 "item_name must not be empty")) /\
     (name <> "" ->
      exists ps,
        (forall client client' : Client,
           client (listings_request ps) = client' (listings_request ps) ->
           market_listings_from_stats env client stats_url appid limit debug_raw =
           market_listings_from_stats env client' stats_url appid limit debug_raw) /\
        get_param "sku" ps = Some (PStr name) /\
        get_param "appid" ps = Some (PInt appid) /\
        get_param "limit" ps = Some (PInt limit) /\
        get_param "quality" ps = PInt <$> Main.quality p /\
        get_param "particle" ps = PInt <$> Main.particle p /\
        (get_param "tradable" ps = Some (PInt 0) \/
         get_param "tradable" ps = Some (PInt 1)) /\
        (get_param "craftable" ps = Some (PInt 0) \/
         get_param "craftable" ps = Some (PInt 1)))).
Proof.
  unfold market_listings_from_stats. split.
  - intros e ->. reflexivity.
  - intros p Hp. rewrite Hp. cbn [mbind result_bind]. cbn zeta.
    unfold market_listings. cbn [item_name]. split.
    + intros -> client. reflexivity.
    + intros Hne%String.eqb_neq. rewrite Hne.
      set (f := {| item_name := Main.item_name p; appid := appid;
                   quality := Main.quality p;
                   tradable := Some (Main.tradable p);
                   craftable := Some (Main.craftable p);
                   particle := Main.particle p; limit := limit |}).
      set (name := Py.strip (Main.item_name p)).
      pose proof (request_credentials_keep env name f) as Hkeep.
      destruct (_choose_auth env (query_params name f)) as [ps used].
      cbn [fst] in Hkeep. exists ps. split; [by intros client client' ->|].
      destruct (query_params_lookup name f) as (Hs & Ha & Hl & Hq & Ht & Hc & Hpa & _).
      destruct (parsed_flags _ _ Hp) as [Htr Hcr].
      rewrite !Hkeep by done. rewrite Hs, Ha, Hl, Hq, Ht, Hc, Hpa.
      subst f. cbn [Market.appid Market.limit Market.quality Market.particle
           Market.tradable Market.craftable fmap option_fmap option_map].
      repeat split; try reflexivity.
      * destruct Htr as [-> | ->]; auto.
      * destruct Hcr as [-> | ->]; auto.
Qed.

Lemma from_stats_request_witness :
  exists ps,
    (forall client client' : Client,
       client (listings_request ps) = client' (listings_request ps) ->
       market_listings_from_stats both_secrets client normal_hat 440 50 false =
       market_listings_from_stats both_secrets client' normal_hat 440 50 false) /\
    get_param "sku" ps = Some (PStr "Team Captain") /\
    get_param "quality" ps = None.
Proof.
  assert (Hp : exists p, Main.parse_bptf_stats_url normal_hat = Ok p /\
                         Py.strip (Main.item_name p) = "Team Captain" /\
                         Main.quality p = None)
    by (eexists; vm_compute; repeat split; reflexivity).
  destruct Hp as (p & Hp & Hname & Hq).
  destruct (proj2 (from_stats_request both_secrets normal_hat 440 50 false) p Hp)
    as [_ H].
  destruct H as (ps & Hdep & Hs & _ & _ & Hqual & _).
  { rewrite Hname. discriminate. }
  exists ps. rewrite Hname in Hs. rewrite Hq in Hqual.
  split; [exact Hdep|]. split; [exact Hs | exact Hqual].
Defined.

Lemma take_chars_all l : forall n,
  (length (List.filter (fun c => negb (is_continuation c)) l) <= n)%nat ->
  take_chars n l = l.
Proof.
  induction l as [|c l IH]; intros n; simpl; [done|].
  destruct (is_continuation c); simpl; intros H.
  - by rewrite IH.
  - destruct n; [lia|]. rewrite IH; [done | lia].
Qed.

Lemma take_chars_split l : forall n,
  (take_chars n l ++ skipn (length (take_chars n l)) l)%list = l.
Proof.
  induction l as [|c l IH]; intros n; simpl; [done|].
  destruct (is_continuation c); simpl; [by rewrite IH|].
  destruct n; simpl; [done | by rewrite IH].
Qed.

Lemma take_chars_mono l : forall m n, (m <= n)%nat ->
  exists x, take_chars n l = (take_chars m l ++ x)%list.
Proof.
  induction l as [|c l IH]; intros m n Hmn; simpl; [by exists []|].
  destruct (is_continuation c).
  - destruct (IH m n Hmn) as [x ->]. by exists x.
  - destruct m, n; try lia.
    + by exists [].
    + by eexists.
    + destruct (IH m n ltac:(lia)) as [x ->]. by exists x.
Qed.

Lemma string_of_list_ascii_app a b :
  string_of_list_ascii (a ++ b) =
  (string_of_list_ascii a ++ string_of_list_ascii b)%string.
Proof. induction a as [|c a IH]; simpl; [done | by rewrite IH]. Qed.

Lemma first_chars_short s :
  Py.len s <= 6 -> first_chars 6 s = s.
Proof.
  unfold Py.len, first_chars. intros H.
  rewrite take_chars_all; [apply string_of_list_ascii_of_string|].
  unfold is_continuation. lia.
Qed.

Lemma skip_cut (a x t rest l : list ascii) :
  t = (a ++ x)%list -> l = (t ++ rest)%list ->
  skipn (length a) l = (skipn (length a) t ++ rest)%list.
Proof. intros -> ->. by rewrite <- app_assoc, !drop_app_length. Qed.

Lemma append_empty_r (s : string) : (s ++ "")%string = s.
Proof.
  induction s as [|c s IH]; [done|].
  change (String c (s ++ "")%string = String c s). by rewrite IH.
Qed.

(** Head and tail of a preview together spell out a secret of at most ten
    characters. *)
Lemma preview_covers s :
  Py.len s <= 10 ->
  exists overlap rest,
    last_chars 4 s = (overlap ++ rest)%string /\
    s = (first_chars 6 s ++ rest)%string.
Proof.
  intros Hlen. destruct (Z_le_gt_dec (Py.len s) 6) as [H6|H6].
  - exists (last_chars 4 s), "". rewrite first_chars_short by done.
    by rewrite !append_empty_r.
  - set (l := list_ascii_of_string s).
    set (m := (Z.to_nat (Py.len s) - 4)%nat).
    exists (string_of_list_ascii (skipn (length (take_chars m l)) (take_chars 6 l))),
           (string_of_list_ascii (skipn (length (take_chars 6 l)) l)).
    rewrite <- !string_of_list_ascii_app. split.
    + unfold last_chars. fold l. fold m.
      destruct (Py.len s <=? Z.of_nat 4) eqn:E4; [apply Z.leb_le in E4; lia|].
      f_equal. destruct (take_chars_mono l m 6 ltac:(lia)) as [x Hx].
      apply (skip_cut _ x); [exact Hx | symmetry; apply take_chars_split].
    + unfold first_chars. fold l. rewrite <- string_of_list_ascii_app.
      rewrite take_chars_split. symmetry. apply string_of_list_ascii_of_string.
Qed.

(** X27.  What the credential preview gives away.  An unset or blank
    variable shows as absent.  A secret of at most six characters is shown
    whole as the head, one of at most four also as the tail, and for a
    secret of at most ten characters head and tail together spell it out:
    it is the head followed by an end piece of the tail. *)
Theorem debug_preview_discloses_short_secrets env :
  let token := secret (BPTF_TOKEN env) in
  let shown := debug_bptf_auth env in
  (token = "" ->
   has_token shown = false /\ token_len shown = 0 /\
   token_head shown = None /\ token_tail shown = None) /\
  (token <> "" ->
   has_token shown = true /\
   (Py.len token <= 6 -> token_head shown = Some token) /\
   (Py.len token <= 4 -> token_tail shown = Some token) /\
   (Py.len token <= 10 ->
    exists head tail overlap rest,
      token_head shown = Some head /\ token_tail shown = Some tail /\
      tail = (overlap ++ rest)%string /\ token = (head ++ rest)%string)).
Proof.
  cbn zeta. unfold debug_bptf_auth. cbn [has_token token_len token_head token_tail].
  split.
  - intros ->. by vm_compute.
  - intros Hne%String.eqb_neq. rewrite Hne. cbn [negb]. split; [done|].
    split; [|split].
    + intros H. by rewrite first_chars_short.
    + intros H%Z.leb_le. unfold last_chars.
      change (Z.of_nat 4) with 4 in *. by rewrite H.
    + intros H. destruct (preview_covers _ H) as (overlap & rest & Ht & Hs).
      by exists (first_chars 6 (secret (BPTF_TOKEN env))),
                (last_chars 4 (secret (BPTF_TOKEN env))), overlap, rest.
Qed.

Lemma debug_preview_discloses_short_secrets_witness :
  has_token (debug_bptf_auth both_secrets) = true /\
  token_head (debug_bptf_auth both_secrets) = Some "tok123" /\
  exists head tail overlap rest,
    token_head (debug_bptf_auth both_secrets) = Some head /\
    token_tail (debug_bptf_auth both_secrets) = Some tail /\
    tail = (overlap ++ rest)%string /\ "tok123" = (head ++ rest)%string.
Proof.
  assert (Hne : secret (BPTF_TOKEN both_secrets) <> "") by (vm_compute; discriminate).
  assert (H6 : Py.len (secret (BPTF_TOKEN both_secrets)) <= 6)
    by (vm_compute; discriminate).
  assert (H10 : Py.len (secret (BPTF_TOKEN both_secrets)) <= 10)
    by (vm_compute; discriminate).
  destruct (proj2 (debug_preview_discloses_short_secrets both_secrets) Hne)
    as (Hhas & Hhead & _ & Hcover).
  split; [exact Hhas|]. split; [exact (Hhead H6)|]. exact (Hcover H10).
Defined.

End MarketEndpoints.
